(** * Advanced research assistant: citation store, quality scorer, workflow

    A shallow embedding of the three stateful components of the repository

      - [src/tools/citation_manager.py]   (module [Citation])
      - [src/tools/quality_assessor.py]   (module [Quality])
      - [src/workflows/research_workflow.py] (module [Workflow])

    and of the two handlers of [src/web_app.py] that start a project
    (module [WebApp]),

    together with the Python built-ins they rely on (module [Py]), the
    fragment of [re] used by the scorer (module [Re]), MD5 (module [MD5])
    and naive datetimes (module [DT]).

    Conventions.
      - A Python [str] is a Rocq [string]; one [ascii] stands for one
        character with code point 0..255 (Latin-1).  The character tables
        below are Python's tables restricted to that range.
      - A Python [float] is a binary64 [float] of the kernel, so [5.0 + 0.3]
        below is the very addition Python performs.
      - A Python [dict] is an association list in insertion order
        ([Py.dict]); assigning to an existing key keeps its position.
      - [datetime.now()] is an input: every operation receives the clock
        readings it makes, in the order it makes them.
      - [print] calls write progress lines to the console and are left out. *)

From Stdlib Require Import Bool List Arith NArith ZArith Lia.
From Stdlib Require Import Ascii String.
From Stdlib Require Import Floats.
From Stdlib Require Uint63.
Import ListNotations.

Set Warnings "-inexact-float".
Local Open Scope list_scope.
Local Open Scope string_scope.

(* ================================================================== *)
(** * Python built-ins *)
(* ================================================================== *)

Module Py.

(** ** Characters *)

Definition ord (c : ascii) : N := N_of_ascii c.
Definition chr (n : N) : ascii := ascii_of_N n.

Definition between (lo hi : N) (c : ascii) : bool :=
  (lo <=? ord c)%N && (ord c <=? hi)%N.
Definition is_code (n : N) (c : ascii) : bool := (ord c =? n)%N.

(** [str.isspace] on one character: TAB..CR, FS..US, SPACE, NEL, NBSP. *)
Definition isspace (c : ascii) : bool :=
  between 9 13 c || between 28 32 c || is_code 133 c || is_code 160 c.

(** [\d] of [re] (decimal digits; below 256 these are 0-9). *)
Definition isdigit (c : ascii) : bool := between 48 57 c.

Definition isupper_ascii (c : ascii) : bool := between 65 90 c.
Definition islower_ascii (c : ascii) : bool := between 97 122 c.

(** [\w] of [re] for [str] patterns: alphanumerics and the underscore. *)
Definition isword (c : ascii) : bool :=
  isdigit c || isupper_ascii c || islower_ascii c || is_code 95 c
  || is_code 170 c || is_code 178 c || is_code 179 c || is_code 181 c
  || is_code 185 c || is_code 186 c
  || between 188 190 c || between 192 214 c || between 216 246 c
  || between 248 255 c.

(** [str.lower] on one character. *)
Definition lower_char (c : ascii) : ascii :=
  if isupper_ascii c || (between 192 222 c && negb (is_code 215 c))
  then chr (ord c + 32) else c.

(** [str.upper] on one character.  The sharp s becomes two letters.  The
    micro sign and y-diaeresis have upper-case forms above 255; they are left
    in place (neither is, nor becomes, an ASCII letter). *)
Definition upper_char (c : ascii) : string :=
  if islower_ascii c || (between 224 254 c && negb (is_code 247 c))
  then String (chr (ord c - 32)) ""
  else if is_code 223 c then "SS"
  else String c "".

(** ** Strings *)

Fixpoint lower (s : string) : string :=
  match s with
  | "" => ""
  | String c s' => String (lower_char c) (lower s')
  end.

Fixpoint upper (s : string) : string :=
  match s with
  | "" => ""
  | String c s' => upper_char c ++ upper s'
  end.

Definition len (s : string) : nat := String.length s.

(** Truthiness of a [str]. *)
Definition truthy (s : string) : bool :=
  match s with "" => false | _ => true end.

Fixpoint lstrip (s : string) : string :=
  match s with
  | "" => ""
  | String c s' => if isspace c then lstrip s' else s
  end.

Fixpoint rstrip (s : string) : string :=
  match s with
  | "" => ""
  | String c s' =>
      match rstrip s' with
      | "" => if isspace c then "" else String c ""
      | r => String c r
      end
  end.

(** [s.strip()] *)
Definition strip (s : string) : string := rstrip (lstrip s).

(** [s.split()]: the maximal runs of non-whitespace characters. *)
Fixpoint split_from (cur : string) (s : string) : list string :=
  match s with
  | "" => if truthy cur then [cur] else []
  | String c s' =>
      if isspace c
      then (if truthy cur then cur :: split_from "" s' else split_from "" s')
      else split_from (cur ++ String c "") s'
  end.
Definition split (s : string) : list string := split_from "" s.

(** [s[-1]], when there is one. *)
Fixpoint last_char (s : string) : option ascii :=
  match s with
  | "" => None
  | String c "" => Some c
  | String _ s' => last_char s'
  end.

(** [s[:n]] *)
Fixpoint take (n : nat) (s : string) : string :=
  match n, s with
  | S k, String c s' => String c (take k s')
  | _, _ => ""
  end.

(** [needle in hay] *)
Fixpoint contains (needle hay : string) : bool :=
  String.prefix needle hay
  || match hay with
     | "" => false
     | String _ hay' => contains needle hay'
     end.

(** [xs.append(x)] *)
Definition append {A} (xs : list A) (x : A) : list A := (xs ++ [x])%list.

(** [x in xs] for a list of strings. *)
Definition mem (x : string) (xs : list string) : bool :=
  existsb (String.eqb x) xs.

(** [sep.join(xs)] *)
Definition join (sep : string) (xs : list string) : string :=
  String.concat sep xs.

(** The double-quote character and the line feed, as one-character strings. *)
Definition dq : string := String (chr 34) "".
Definition nl : string := String (chr 10) "".

(** [c * n] for a one-character string. *)
Fixpoint repeat_char (c : ascii) (n : nat) : string :=
  match n with O => "" | S k => String c (repeat_char c k) end.

(** ** Numbers as text *)

Definition digit_char (d : N) : ascii :=
  match d with
  | 0 => "0" | 1 => "1" | 2 => "2" | 3 => "3" | 4 => "4"
  | 5 => "5" | 6 => "6" | 7 => "7" | 8 => "8" | _ => "9"
  end%N%char.

Fixpoint digits_fuel (fuel : nat) (n : N) (acc : string) : string :=
  let acc' := String (digit_char (n mod 10)) acc in
  match fuel with
  | O => acc'
  | S f => if (n <? 10)%N then acc' else digits_fuel f (n / 10) acc'
  end.

(** [str(n)] for a non-negative [int]. *)
Definition str_N (n : N) : string := digits_fuel (N.size_nat n) n "".
Definition str_nat (n : nat) : string := str_N (N.of_nat n).

(** ["%0wd" % n] for a non-negative [int]. *)
Definition zfill (w : nat) (n : N) : string :=
  let s := str_N n in repeat_char "0" (w - String.length s) ++ s.

(** [int(s)] for a string of ASCII digits. *)
Definition int_digits (s : string) : Z :=
  fold_left (fun acc c => (10 * acc + Z.of_N (ord c - 48))%Z)
            (list_ascii_of_string s) 0%Z.

(** ** [repr] *)

(** [repr(s)] for a string without quotes, backslashes or non-printable
    characters (identifiers, hexadecimal ids): the text between two single
    quotes. *)
Definition repr_str (s : string) : string := "'" ++ s ++ "'".

(** [repr(xs)] / [str(xs)] for a list of such strings. *)
Definition repr_list (xs : list string) : string :=
  "[" ++ join ", " (map repr_str xs) ++ "]".

(** ** Dictionaries with string keys *)

Definition dict (V : Type) : Type := list (string * V).

Fixpoint dict_get {V} (d : dict V) (k : string) : option V :=
  match d with
  | [] => None
  | (k', v) :: d' => if String.eqb k k' then Some v else dict_get d' k
  end.

Definition dict_has {V} (d : dict V) (k : string) : bool :=
  match dict_get d k with Some _ => true | None => false end.

(** [d[k] = v]: replaces the value of an existing key where it stands, and
    appends a new key at the end. *)
Fixpoint dict_set {V} (d : dict V) (k : string) (v : V) : dict V :=
  match d with
  | [] => [(k, v)]
  | (k', v') :: d' =>
      if String.eqb k k' then (k', v) :: d' else (k', v') :: dict_set d' k v
  end.

Definition keys {V} (d : dict V) : list string := map fst d.
Definition values {V} (d : dict V) : list V := map snd d.

(** ** [min] and [max] of two floats: the first argument is kept unless the
    second compares strictly better. *)
Definition max2 (a b : float) : float := if (a <? b)%float then b else a.
Definition min2 (a b : float) : float := if (b <? a)%float then b else a.

(** [float(n)] for a small non-negative [int]. *)
Definition float_of_nat (n : nat) : float :=
  PrimFloat.of_uint63 (Uint63.of_Z (Z.of_nat n)).

(** [int(x)] for a float: truncation towards zero, or the text of the
    [OverflowError] or [ValueError] raised on an infinity or a NaN. *)
Definition int_of_float (x : float) : string + Z :=
  match Prim2SF x with
  | SpecFloat.S754_zero _ => inr 0%Z
  | SpecFloat.S754_finite s m e =>
      let magnitude :=
        if (0 <=? e)%Z then (Z.pos m * 2 ^ e)%Z else (Z.pos m / 2 ^ (- e))%Z in
      inr (if s then (- magnitude)%Z else magnitude)
  | SpecFloat.S754_infinity _ => inl "cannot convert float infinity to integer"
  | SpecFloat.S754_nan => inl "cannot convert float NaN to integer"
  end.

End Py.

(* ================================================================== *)
(** * The fragment of [re] used by the scorer *)
(* ================================================================== *)

Module Re.

(** One-character classes. *)
Inductive cls : Type :=
| Any                (* .   every character but a line feed *)
| Digit              (* \d *)
| Ch (c : ascii).    (* a literal character *)

Inductive re : Type :=
| Eps
| One (k : cls)
| Cat (a b : re)
| Alt (a b : re)     (* a|b, left alternative first *)
| Opt (a : re)       (* a?, greedy *)
| Many1 (k : cls)    (* k+, greedy *)
| WordB.             (* \b *)

(** [ic] is the [re.IGNORECASE] flag. *)
Definition cls_match (ic : bool) (k : cls) (c : ascii) : bool :=
  match k with
  | Any => negb (Py.is_code 10 c)
  | Digit => Py.isdigit c
  | Ch p => if ic then Ascii.eqb (Py.lower_char c) (Py.lower_char p)
            else Ascii.eqb c p
  end.

Definition isword_opt (c : option ascii) : bool :=
  match c with Some c => Py.isword c | None => false end.

Definition peek (s : string) : option ascii :=
  match s with "" => None | String c _ => Some c end.

(** A continuation receives the character before the current position and
    the text that remains. *)
Definition cont : Type := option ascii -> string -> option (option ascii * string).

Fixpoint star (ic : bool) (k : cls) (prev : option ascii) (s : string)
         (kont : cont) {struct s} : option (option ascii * string) :=
  match s with
  | String c s' =>
      if cls_match ic k c
      then match star ic k (Some c) s' kont with
           | Some r => Some r
           | None => kont prev s
           end
      else kont prev s
  | "" => kont prev s
  end.

(** Backtracking matcher in the priority order of [re]. *)
Fixpoint run (ic : bool) (r : re) (prev : option ascii) (s : string)
         (kont : cont) {struct r} : option (option ascii * string) :=
  match r with
  | Eps => kont prev s
  | One k =>
      match s with
      | String c s' => if cls_match ic k c then kont (Some c) s' else None
      | "" => None
      end
  | Cat a b => run ic a prev s (fun p' s' => run ic b p' s' kont)
  | Alt a b =>
      match run ic a prev s kont with
      | Some x => Some x
      | None => run ic b prev s kont
      end
  | Opt a =>
      match run ic a prev s kont with
      | Some x => Some x
      | None => kont prev s
      end
  | Many1 k =>
      match s with
      | String c s' => if cls_match ic k c then star ic k (Some c) s' kont else None
      | "" => None
      end
  | WordB =>
      if xorb (isword_opt prev) (isword_opt (peek s)) then kont prev s else None
  end.

(** A match starting exactly here: what is left after it. *)
Definition match_here (ic : bool) (r : re) (prev : option ascii) (s : string)
  : option string :=
  match run ic r prev s (fun p s' => Some (p, s')) with
  | Some (_, rest) => Some rest
  | None => None
  end.

Fixpoint search_from (ic : bool) (r : re) (prev : option ascii) (s : string) : bool :=
  match match_here ic r prev s with
  | Some _ => true
  | None =>
      match s with
      | "" => false
      | String c s' => search_from ic r (Some c) s'
      end
  end.

(** [bool(re.search(r, s, flags))] *)
Definition search (ic : bool) (r : re) (s : string) : bool :=
  search_from ic r None s.

(** [skip] counts the characters still inside the previous match. *)
Fixpoint findall_from (ic : bool) (r : re) (skip : nat) (prev : option ascii)
         (s : string) {struct s} : list string :=
  match skip with
  | S k =>
      match s with
      | "" => []
      | String c s' => findall_from ic r k (Some c) s'
      end
  | O =>
      match match_here ic r prev s with
      | Some rest =>
          let n := String.length s - String.length rest in
          Py.take n s ::
            match s with
            | "" => []
            | String c s' => findall_from ic r (n - 1) (Some c) s'
            end
      | None =>
          match s with
          | "" => []
          | String c s' => findall_from ic r 0 (Some c) s'
          end
      end
  end.

(** [re.findall(r, s, flags)] for a pattern with at most one group that
    spans the whole match: the non-overlapping matches, left to right.  (No
    pattern of the scorer matches the empty string.) *)
Definition findall (ic : bool) (r : re) (s : string) : list string :=
  findall_from ic r 0 None s.

(** A literal text. *)
Fixpoint lit (s : string) : re :=
  match s with
  | "" => Eps
  | String c "" => One (Ch c)
  | String c s' => Cat (One (Ch c)) (lit s')
  end.

Fixpoint seq (rs : list re) : re :=
  match rs with
  | [] => Eps
  | [r] => r
  | r :: rs' => Cat r (seq rs')
  end.

Fixpoint alt (rs : list re) : re :=
  match rs with
  | [] => Eps
  | [r] => r
  | r :: rs' => Alt r (alt rs')
  end.

End Re.

(* ================================================================== *)
(** * MD5 ([hashlib.md5]) *)
(* ================================================================== *)

Module MD5.
Local Open Scope N_scope.

Definition mask32 : N := 0xffffffff.
Definition add32 (a b : N) : N := N.land (a + b) mask32.
Definition not32 (a : N) : N := N.lxor a mask32.
Definition rotl32 (x s : N) : N :=
  N.land (N.lor (N.shiftl x s) (N.shiftr x (32 - s))) mask32.

(** K[i] = floor(2^32 * |sin(i + 1)|) *)
Definition K : list N :=
  [ 0xd76aa478; 0xe8c7b756; 0x242070db; 0xc1bdceee;
    0xf57c0faf; 0x4787c62a; 0xa8304613; 0xfd469501;
    0x698098d8; 0x8b44f7af; 0xffff5bb1; 0x895cd7be;
    0x6b901122; 0xfd987193; 0xa679438e; 0x49b40821;
    0xf61e2562; 0xc040b340; 0x265e5a51; 0xe9b6c7aa;
    0xd62f105d; 0x02441453; 0xd8a1e681; 0xe7d3fbc8;
    0x21e1cde6; 0xc33707d6; 0xf4d50d87; 0x455a14ed;
    0xa9e3e905; 0xfcefa3f8; 0x676f02d9; 0x8d2a4c8a;
    0xfffa3942; 0x8771f681; 0x6d9d6122; 0xfde5380c;
    0xa4beea44; 0x4bdecfa9; 0xf6bb4b60; 0xbebfbc70;
    0x289b7ec6; 0xeaa127fa; 0xd4ef3085; 0x04881d05;
    0xd9d4d039; 0xe6db99e5; 0x1fa27cf8; 0xc4ac5665;
    0xf4292244; 0x432aff97; 0xab9423a7; 0xfc93a039;
    0x655b59c3; 0x8f0ccc92; 0xffeff47d; 0x85845dd1;
    0x6fa87e4f; 0xfe2ce6e0; 0xa3014314; 0x4e0811a1;
    0xf7537e82; 0xbd3af235; 0x2ad7d2bb; 0xeb86d391 ].

(** Per-round left-rotation amounts. *)
Definition R : list N :=
  [ 7; 12; 17; 22; 7; 12; 17; 22; 7; 12; 17; 22; 7; 12; 17; 22;
    5; 9; 14; 20; 5; 9; 14; 20; 5; 9; 14; 20; 5; 9; 14; 20;
    4; 11; 16; 23; 4; 11; 16; 23; 4; 11; 16; 23; 4; 11; 16; 23;
    6; 10; 15; 21; 6; 10; 15; 21; 6; 10; 15; 21; 6; 10; 15; 21 ].

(** [str.encode()] (UTF-8) for code points below 256. *)
Definition utf8_char (c : ascii) : list N :=
  let n := Py.ord c in
  if n <? 128 then [n] else [192 + n / 64; 128 + n mod 64].

Definition encode (s : string) : list N :=
  flat_map utf8_char (list_ascii_of_string s).

(** The [n] low bytes of [x], least significant first. *)
Fixpoint le_bytes (n : nat) (x : N) : list N :=
  match n with
  | O => []
  | S k => x mod 256 :: le_bytes k (x / 256)
  end.

Definition pad (msg : list N) : list N :=
  let l := N.of_nat (List.length msg) in
  let zeros := N.to_nat ((119 - l mod 64) mod 64) in
  ((msg ++ 128 :: List.repeat 0 zeros) ++ le_bytes 8 ((8 * l) mod 2 ^ 64))%list.

Fixpoint le_word (bs : list N) : N :=
  match bs with
  | [] => 0
  | b :: bs' => b + 256 * le_word bs'
  end.

Fixpoint words (n : nat) (bs : list N) : list N :=
  match n with
  | O => []
  | S k => le_word (firstn 4 bs) :: words k (skipn 4 bs)
  end.

Fixpoint chunks (fuel : nat) (bs : list N) : list (list N) :=
  match fuel, bs with
  | S f, _ :: _ => firstn 64 bs :: chunks f (skipn 64 bs)
  | _, _ => []
  end.

Definition state : Type := N * N * N * N.

Definition step (M : list N) (st : state) (i : nat) : state :=
  let '(a, b, c, d) := st in
  let n := N.of_nat i in
  let '(f, g) :=
    if n <? 16 then (N.lor (N.land b c) (N.land (not32 b) d), n)
    else if n <? 32 then (N.lor (N.land d b) (N.land (not32 d) c), (5 * n + 1) mod 16)
    else if n <? 48 then (N.lxor b (N.lxor c d), (3 * n + 5) mod 16)
    else (N.lxor c (N.lor b (not32 d)), (7 * n) mod 16) in
  let f' := add32 (add32 (add32 f a) (nth i K 0)) (nth (N.to_nat g) M 0) in
  (d, add32 b (rotl32 f' (nth i R 0)), b, c).

Definition compress (st : state) (chunk : list N) : state :=
  let '(a0, b0, c0, d0) := st in
  let '(a, b, c, d) := fold_left (step (words 16 chunk)) (List.seq 0 64) st in
  (add32 a0 a, add32 b0 b, add32 c0 c, add32 d0 d).

Definition init : state := (0x67452301, 0xefcdab89, 0x98badcfe, 0x10325476).

Definition md5 (msg : list N) : state :=
  let p := pad msg in fold_left compress (chunks (List.length p) p) init.

Definition hex_digit (d : N) : ascii :=
  match d with
  | 0 => "0" | 1 => "1" | 2 => "2" | 3 => "3" | 4 => "4" | 5 => "5"
  | 6 => "6" | 7 => "7" | 8 => "8" | 9 => "9" | 10 => "a" | 11 => "b"
  | 12 => "c" | 13 => "d" | 14 => "e" | _ => "f"
  end%char.

Definition hex_byte (b : N) (rest : string) : string :=
  String (hex_digit ((b / 16) mod 16)) (String (hex_digit (b mod 16)) rest).

(** The eight hexadecimal digits of a state word, in digest order. *)
Definition hex_word (w : N) (rest : string) : string :=
  hex_byte w (hex_byte (w / 256) (hex_byte (w / 65536) (hex_byte (w / 16777216) rest))).

(** [hashlib.md5(msg).hexdigest()] *)
Definition hexdigest (msg : list N) : string :=
  let '(a, b, c, d) := md5 msg in
  hex_word a (hex_word b (hex_word c (hex_word d ""))).

(** [hashlib.md5(s.encode()).hexdigest()[:8]], the id format of the repository. *)
Definition id8 (s : string) : string := Py.take 8 (hexdigest (encode s)).

End MD5.

(* ================================================================== *)
(** * Naive datetimes ([datetime.datetime], [datetime.timedelta]) *)
(* ================================================================== *)

Module DT.

Record datetime : Type := mk_datetime {
  year : N; month : N; day : N;
  hour : N; minute : N; second : N; microsecond : N
}.

(** [d.strftime("%Y-%m-%d")] (a clock reads a four-digit year). *)
Definition date_dashed (d : datetime) : string :=
  Py.zfill 4 (year d) ++ "-" ++ Py.zfill 2 (month d) ++ "-" ++ Py.zfill 2 (day d).

(** [d.strftime("%Y%m%d")] *)
Definition date_compact (d : datetime) : string :=
  Py.zfill 4 (year d) ++ Py.zfill 2 (month d) ++ Py.zfill 2 (day d).

(** [d.strftime("%Y%m%d_%H%M%S")] *)
Definition stamp (d : datetime) : string :=
  date_compact d ++ "_" ++ Py.zfill 2 (hour d) ++ Py.zfill 2 (minute d)
  ++ Py.zfill 2 (second d).

(** [d.isoformat()] *)
Definition isoformat (d : datetime) : string :=
  date_dashed d ++ "T" ++ Py.zfill 2 (hour d) ++ ":" ++ Py.zfill 2 (minute d)
  ++ ":" ++ Py.zfill 2 (second d)
  ++ (if (microsecond d =? 0)%N then "" else "." ++ Py.zfill 6 (microsecond d)).

(** Reading [n] digits. *)
Fixpoint read_digits (n : nat) (acc : N) (s : string) : option (N * string) :=
  match n with
  | O => Some (acc, s)
  | S k =>
      match s with
      | String c s' =>
          if Py.isdigit c then read_digits k (10 * acc + (Py.ord c - 48))%N s'
          else None
      | "" => None
      end
  end.

Definition expect (c : ascii) (s : string) : option string :=
  match s with
  | String c' s' => if Ascii.eqb c c' then Some s' else None
  | "" => None
  end.

Definition bind {A B} (x : option A) (f : A -> option B) : option B :=
  match x with Some a => f a | None => None end.

(** [datetime.fromisoformat(s)] on the texts [isoformat] writes; [None]
    stands for the [ValueError] raised on anything else. *)
Definition fromisoformat (s : string) : option datetime :=
  bind (read_digits 4 0 s) (fun '(y, s) =>
  bind (expect "-" s) (fun s =>
  bind (read_digits 2 0 s) (fun '(mo, s) =>
  bind (expect "-" s) (fun s =>
  bind (read_digits 2 0 s) (fun '(d, s) =>
  bind (expect "T" s) (fun s =>
  bind (read_digits 2 0 s) (fun '(h, s) =>
  bind (expect ":" s) (fun s =>
  bind (read_digits 2 0 s) (fun '(mi, s) =>
  bind (expect ":" s) (fun s =>
  bind (read_digits 2 0 s) (fun '(se, s) =>
  match s with
  | "" => Some (mk_datetime y mo d h mi se 0)
  | _ =>
      bind (expect "." s) (fun s =>
      bind (read_digits 6 0 s) (fun '(us, s) =>
      match s with
      | "" => Some (mk_datetime y mo d h mi se us)
      | _ => None
      end))
  end))))))))))).

Local Open Scope Z_scope.

Definition is_leap (y : Z) : bool :=
  (y mod 4 =? 0) && (negb (y mod 100 =? 0) || (y mod 400 =? 0)).

Definition days_before_year (y : Z) : Z :=
  let p := y - 1 in p * 365 + p / 4 - p / 100 + p / 400.

Definition days_before_month (y m : Z) : Z :=
  nth (Z.to_nat (m - 1)) [0; 31; 59; 90; 120; 151; 181; 212; 243; 273; 304; 334] 0
  + (if (2 <? m) && is_leap y then 1 else 0).

(** [d.toordinal()] *)
Definition toordinal (d : datetime) : Z :=
  days_before_year (Z.of_N (year d))
  + days_before_month (Z.of_N (year d)) (Z.of_N (month d))
  + Z.of_N (day d).

(** Microseconds since the start of day 0. *)
Definition micros (d : datetime) : Z :=
  (((toordinal d * 24 + Z.of_N (hour d)) * 60 + Z.of_N (minute d)) * 60
   + Z.of_N (second d)) * 1000000 + Z.of_N (microsecond d).

(** A [timedelta] in microseconds. *)
Definition timedelta : Type := Z.

(** [a - b] *)
Definition sub (a b : datetime) : timedelta := micros a - micros b.

Definition str_Z (z : Z) : string :=
  if z <? 0 then "-" ++ Py.str_N (Z.to_N (- z)) else Py.str_N (Z.to_N z).

(** [str(td)] *)
Definition str_timedelta (td : timedelta) : string :=
  let days := td / 86400000000 in
  let rest := td mod 86400000000 in
  let seconds := rest / 1000000 in
  let us := rest mod 1000000 in
  let mm := seconds / 60 in
  let ss := seconds mod 60 in
  let hh := mm / 60 in
  let mm := mm mod 60 in
  let s := Py.str_N (Z.to_N hh) ++ ":" ++ Py.zfill 2 (Z.to_N mm) ++ ":"
           ++ Py.zfill 2 (Z.to_N ss) in
  let s := if days =? 0 then s
           else str_Z days ++ " day" ++ (if Z.abs days =? 1 then "" else "s")
                ++ ", " ++ s in
  if us =? 0 then s else s ++ "." ++ Py.zfill 6 (Z.to_N us).

End DT.

(* ================================================================== *)
(** * Citation store ([src/tools/citation_manager.py]) *)
(* ================================================================== *)

Module Citation.

(** class CitationData(BaseModel) *)
Record CitationData : Type := mkCitationData {
  title : string;
  authors : list string;
  url : string;
  date_accessed : string;
  source_type : string;
  publication_date : option string;
  publisher : option string;
  doi : option string;
  citation_id : string
}.

(** The keyword arguments [_add_citation] looks at; [None] is an absent key. *)
Record Kwargs : Type := mkKwargs {
  kw_source_type : option string;
  kw_publication_date : option string;
  kw_publisher : option string;
  kw_doi : option string
}.
Definition no_kwargs : Kwargs := mkKwargs None None None None.

(** The two dictionaries of a [CitationManager] instance. *)
Record CitationManager : Type := mkManager {
  _citations : Py.dict CitationData;
  _citation_usage : Py.dict nat
}.

(** [CitationManager()] *)
Definition __init__ : CitationManager := mkManager [] [].

Definition NO_URL : string := "No URL provided".

(** Truthiness of an [Optional[str]]. *)
Definition given (o : option string) : bool :=
  match o with Some s => Py.truthy s | None => false end.

(** [_generate_citation_id]; [now] is the reading of [datetime.now()]. *)
Definition _generate_citation_id (title url : string) (now : DT.datetime) : string :=
  let combined := title ++ url ++ DT.isoformat now in
  MD5.id8 combined.

(** [_add_citation].  [now_id] is the clock reading taken for the id,
    [now_acc] the later one taken for [date_accessed].  The arguments are
    well typed, so the pydantic constructor accepts them and the
    ["Error creating citation"] branch is not taken. *)
Definition _add_citation (self : CitationManager) (now_id now_acc : DT.datetime)
           (title url : string) (authors : list string) (kwargs : Kwargs)
  : CitationManager * string :=
  if negb (Py.truthy title) then (self, "Error: Title is required for citations")
  else
    let url := if negb (Py.truthy url) then NO_URL else url in
    let citation_id := _generate_citation_id title url now_id in
    let citation :=
      {| title := title;
         authors := authors;
         url := url;
         date_accessed := DT.date_dashed now_acc;
         citation_id := citation_id;
         source_type := match kw_source_type kwargs with Some s => s | None => "web" end;
         publication_date := kw_publication_date kwargs;
         publisher := kw_publisher kwargs;
         doi := kw_doi kwargs |} in
    (mkManager (Py.dict_set (_citations self) citation_id citation)
               (_citation_usage self),
     "Citation added successfully with ID: " ++ citation_id).

Definition _format_apa (citation : CitationData) : string :=
  let authors_str :=
    match authors citation with
    | [] => "Unknown Author"
    | a0 :: _ =>
        if Nat.eqb (List.length (authors citation)) 1 then a0
        else if Nat.eqb (List.length (authors citation)) 2
        then a0 ++ " & " ++ nth 1 (authors citation) ""
        else Py.join ", " (removelast (authors citation)) ++ ", & "
             ++ last (authors citation) ""
    end in
  let date_str :=
    if given (publication_date citation)
    then match publication_date citation with Some d => d | None => "" end
    else date_accessed citation in
  let formatted := authors_str ++ ". (" ++ date_str ++ "). " ++ title citation ++ ". " in
  let formatted :=
    if given (publisher citation)
    then formatted ++ match publisher citation with Some p => p | None => "" end ++ ". "
    else formatted in
  if Py.truthy (url citation) && negb (String.eqb (url citation) NO_URL)
  then formatted ++ "Retrieved from " ++ url citation
  else formatted.

Definition _format_mla (citation : CitationData) : string :=
  let authors_str :=
    match authors citation with
    | [] => "Unknown Author"
    | a0 :: _ =>
        if Nat.ltb 1 (List.length (authors citation)) then a0 ++ " et al." else a0
    end in
  let formatted :=
    authors_str ++ ". " ++ Py.dq ++ title citation ++ "." ++ Py.dq ++ " Web. "
    ++ date_accessed citation ++ "." in
  if Py.truthy (url citation) && negb (String.eqb (url citation) NO_URL)
  then formatted ++ " <" ++ url citation ++ ">."
  else formatted.

Definition _format_chicago (citation : CitationData) : string :=
  let authors_str :=
    match authors citation with
    | [] => "Unknown Author"
    | a0 :: _ => a0
    end in
  let formatted :=
    authors_str ++ ". " ++ Py.dq ++ title citation ++ "." ++ Py.dq ++ " Accessed "
    ++ date_accessed citation ++ "." in
  if Py.truthy (url citation) && negb (String.eqb (url citation) NO_URL)
  then formatted ++ " " ++ url citation ++ "."
  else formatted.

Definition _format_citation (self : CitationManager) (citation_id style : string) : string :=
  if negb (Py.truthy citation_id) then "Error: Citation ID is required for formatting"
  else
    match Py.dict_get (_citations self) citation_id with
    | None =>
        "Citation with ID " ++ citation_id ++ " not found. Available IDs: "
        ++ Py.repr_list (Py.keys (_citations self))
    | Some citation =>
        if String.eqb (Py.upper style) "APA" then _format_apa citation
        else if String.eqb (Py.upper style) "MLA" then _format_mla citation
        else if String.eqb (Py.upper style) "CHICAGO" then _format_chicago citation
        else "Unsupported citation style: " ++ style
             ++ ". Supported styles: APA, MLA, Chicago"
    end.

Definition nl : string := Py.nl.

Definition _list_citations (self : CitationManager) : string :=
  match _citations self with
  | [] => "No citations stored."
  | _ =>
      fold_left
        (fun result '(citation_id, citation) =>
           result ++ "- " ++ citation_id ++ ": " ++ title citation ++ nl)
        (_citations self) ("Stored Citations:" ++ nl)
  end.

(** The heading carries [style.upper()]: it is the source's for a style name
    whose upper-case form stays within code points below 256 (see
    [Py.upper_char]). *)
Definition _generate_bibliography (self : CitationManager) (style : string) : string :=
  match _citations self with
  | [] => "No citations available for bibliography."
  | _ =>
      fold_left
        (fun bibliography '(citation_id, _) =>
           bibliography ++ _format_citation self citation_id style ++ nl ++ nl)
        (_citations self)
        ("Bibliography (" ++ Py.upper style ++ " Style):" ++ nl ++ nl)
  end.

Definition _track_usage (self : CitationManager) (citation_id : string)
  : CitationManager * string :=
  if negb (Py.truthy citation_id)
  then (self, "Error: Citation ID is required for usage tracking")
  else if negb (Py.dict_has (_citations self) citation_id)
  then (self, "Citation with ID " ++ citation_id ++ " not found")
  else
    let n := match Py.dict_get (_citation_usage self) citation_id with
             | Some k => k | None => 0 end + 1 in
    (mkManager (_citations self) (Py.dict_set (_citation_usage self) citation_id n),
     "Citation " ++ citation_id ++ " usage tracked. Total uses: " ++ Py.str_nat n).

(** The arguments of [_run], with the defaults of its signature. *)
Record Args : Type := mkArgs {
  action : string;
  arg_title : string;
  arg_url : string;
  arg_authors : option (list string);
  arg_citation_id : string;
  arg_style : string;
  arg_kwargs : Kwargs
}.
Definition args (action : string) : Args :=
  mkArgs action "" "" None "" "APA" no_kwargs.

(** [_run]: the tool's entry point.  No handler of the model raises, so the
    enclosing [try] never reaches its [except] branch. *)
Definition _run (self : CitationManager) (now_id now_acc : DT.datetime) (a : Args)
  : CitationManager * string :=
  if String.eqb (action a) "add" then
    _add_citation self now_id now_acc (arg_title a) (arg_url a)
                  (match arg_authors a with Some l => l | None => [] end)
                  (arg_kwargs a)
  else if String.eqb (action a) "format" then
    (self, _format_citation self (arg_citation_id a) (arg_style a))
  else if String.eqb (action a) "list" then (self, _list_citations self)
  else if String.eqb (action a) "bibliography" then
    (self, _generate_bibliography self (arg_style a))
  else if String.eqb (action a) "usage" then _track_usage self (arg_citation_id a)
  else (self, "Unknown action: " ++ action a
              ++ ". Available actions: add, format, list, bibliography, usage").

End Citation.

(* ================================================================== *)
(** * Quality scorer ([src/tools/quality_assessor.py]) *)
(* ================================================================== *)

Module Quality.
Import Re.
Local Open Scope float_scope.

(** class QualityMetrics(BaseModel) *)
Record QualityMetrics : Type := mkQualityMetrics {
  credibility_score : float;
  relevance_score : float;
  accuracy_score : float;
  completeness_score : float;
  timeliness_score : float;
  overall_score : float;
  assessment_notes : list string;
  recommendations : list string
}.

(** [Field(ge=0, le=10)] *)
Definition in_range (x : float) : bool := (0.0 <=? x) && (x <=? 10.0).

(** The validating constructor [QualityMetrics(...)]; [None] stands for the
    [ValidationError] pydantic raises when a score is out of range. *)
Definition QualityMetrics_new (credibility relevance accuracy completeness
                               timeliness overall : float)
           (notes recs : list string) : option QualityMetrics :=
  if in_range credibility && in_range relevance && in_range accuracy
     && in_range completeness && in_range timeliness && in_range overall
  then Some (mkQualityMetrics credibility relevance accuracy completeness
                              timeliness overall notes recs)
  else None.

(** [min(10.0, max(0.0, score))] *)
Definition clamp (score : float) : float := Py.min2 10.0 (Py.max2 0.0 score).

(** [len(content.split())] *)
Definition word_count (content : string) : nat := List.length (Py.split content).

(** ** The patterns *)

(** r'\d+%|\d+\.\d+' *)
Definition re_quantity : list re :=
  [seq [Many1 Digit; lit "%"]; seq [Many1 Digit; lit "."; Many1 Digit]].

(** r'\b(20\d{2})\b' *)
Definition re_year : re := seq [WordB; lit "20"; One Digit; One Digit; WordB].

(** r'\[\d+\]' and r'\(\d{4}\)' *)
Definition re_bracketed : re := seq [lit "["; Many1 Digit; lit "]"].
Definition re_paren_year : re :=
  seq [lit "("; One Digit; One Digit; One Digit; One Digit; lit ")"].

Definition credibility_indicators : list re :=
  [ seq [lit "peer"; Opt (One Any); lit "reviewed"];   (* r'peer.?reviewed' *)
    lit "published in"; lit "journal"; lit "study shows";
    lit "research indicates"; lit "according to experts"; lit "data suggests" ].

Definition bias_indicators : list re :=
  [ lit "always"; lit "never"; lit "everyone knows"; lit "obviously";
    lit "without a doubt"; lit "definitely proves" ].

(** r'\d+%|\d+\.\d+|statistics|data|findings' *)
Definition re_specific : re :=
  alt (re_quantity ++ [lit "statistics"; lit "data"; lit "findings"])%list.

Definition citation_patterns : list re :=
  [ re_bracketed; re_paren_year; lit "et al."; lit "according to";
    lit "source:"; lit "reference:"; lit "study by" ].

Definition factual_indicators : list re :=
  [ lit "research shows"; lit "data indicates"; lit "study found";
    lit "analysis reveals"; lit "evidence suggests" ].

Definition structure_indicators : list re :=
  [ lit "introduction"; lit "conclusion"; lit "methodology"; lit "results";
    lit "discussion"; lit "background"; lit "summary" ].

Definition recent_indicators : list re :=
  [ lit "recent"; lit "latest"; lit "current"; lit "updated"; lit "new";
    lit "this year"; lit "recently"; lit "now" ].

(** ** The five sub-scores *)

Definition _assess_credibility (content source_url content_type : string) : float :=
  let score := 5.0 in
  let score :=
    if Py.truthy source_url then
      if existsb (fun domain => Py.contains domain (Py.lower source_url))
                 [".edu"; ".gov"; ".org"]
      then score + 2.0
      else if existsb (fun domain => Py.contains domain (Py.lower source_url))
                      [".com"; ".net"]
      then score + 0.5
      else score
    else score in
  let score :=
    fold_left (fun score indicator =>
                 if search true indicator content then score + 0.3 else score)
              credibility_indicators score in
  let score :=
    fold_left (fun score indicator =>
                 if search true indicator content then score - 0.2 else score)
              bias_indicators score in
  clamp score.

(** [current_year] is [datetime.now().year]. *)
Definition _assess_relevance (current_year : Z) (content : string) : float :=
  let score := 5.0 in
  let score := if search true re_specific content then score + 1.5 else score in
  let years_mentioned := findall false re_year content in
  let recent_years :=
    filter (fun year => (current_year - 2 <=? Py.int_digits year)%Z) years_mentioned in
  let score :=
    match years_mentioned with
    | [] => score
    | _ => match recent_years with [] => score | _ => score + 1.0 end
    end in
  let score :=
    if (500 <? word_count content)%nat then score + 1.0
    else if (word_count content <? 100)%nat then score - 1.0
    else score in
  clamp score.

Definition _assess_accuracy (content : string) : float :=
  let score := 6.0 in
  let citation_count :=
    list_sum (map (fun pattern => List.length (findall true pattern content))
                  citation_patterns) in
  let score :=
    if (5 <? citation_count)%nat then score + 2.0
    else if (2 <? citation_count)%nat then score + 1.0
    else score in
  let score :=
    fold_left (fun score indicator =>
                 if search true indicator content then score + 0.3 else score)
              factual_indicators score in
  clamp score.

Definition _assess_completeness (content : string) : float :=
  let score := 5.0 in
  let word_count := word_count content in
  let score :=
    if (1000 <? word_count)%nat then score + 2.0
    else if (500 <? word_count)%nat then score + 1.0
    else if (word_count <? 100)%nat then score - 2.0
    else score in
  let structure_count :=
    List.length (filter (fun indicator => search true indicator content)
                        structure_indicators) in
  let score := score + Py.float_of_nat structure_count * 0.5 in
  clamp score.

(** [max(int(year) for year in dates_found)] for a non-empty list. *)
Definition most_recent (first : string) (others : list string) : Z :=
  fold_left (fun m year => Z.max m (Py.int_digits year)) others (Py.int_digits first).

Definition _assess_timeliness (current_year : Z) (content : string) : float :=
  let score := 5.0 in
  let dates_found := findall false re_year content in
  let score :=
    match dates_found with
    | [] => score
    | first :: others =>
        let most_recent_year := most_recent first others in
        let years_old := (current_year - most_recent_year)%Z in
        if (years_old <=? 1)%Z then score + 3.0
        else if (years_old <=? 3)%Z then score + 1.0
        else if (years_old <=? 5)%Z then score + 0.0
        else score - 2.0
    end in
  let score :=
    fold_left (fun score indicator =>
                 if search true indicator content then score + 0.2 else score)
              recent_indicators score in
  clamp score.

Definition _generate_assessment_notes (content source_url : string) : list string :=
  let word_count := word_count content in
  let notes := ["Content length: " ++ Py.str_nat word_count ++ " words"] in
  let notes :=
    if Py.truthy source_url then Py.append notes ("Source URL: " ++ source_url)
    else notes in
  let notes :=
    if search false (alt re_quantity) content
    then Py.append notes "Contains quantitative data" else notes in
  let notes :=
    if search true (alt [lit "study"; lit "research"; lit "analysis"]) content
    then Py.append notes "References research or studies" else notes in
  let citation_count :=
    List.length (findall false (alt [re_bracketed; re_paren_year]) content) in
  if (0 <? citation_count)%nat
  then Py.append notes ("Contains " ++ Py.str_nat citation_count ++ " citations")
  else notes.

Definition _generate_recommendations
           (credibility relevance accuracy completeness timeliness : float)
  : list string :=
  let recommendations := [] in
  let recommendations :=
    if credibility <? 6.0
    then Py.append recommendations
           "Seek more credible sources (academic, government, established organizations)"
    else recommendations in
  let recommendations :=
    if relevance <? 6.0
    then Py.append recommendations "Focus on more specific and actionable information"
    else recommendations in
  let recommendations :=
    if accuracy <? 6.0
    then Py.append recommendations "Add more citations and references to support claims"
    else recommendations in
  let recommendations :=
    if completeness <? 6.0
    then Py.append recommendations "Expand content with more comprehensive coverage"
    else recommendations in
  let recommendations :=
    if timeliness <? 6.0
    then Py.append recommendations "Update with more recent information and sources"
    else recommendations in
  match recommendations with
  | [] => ["Content meets quality standards"]
  | _ => recommendations
  end.

(** [_calculate_quality_metrics].  [year_rel] and [year_time] are the values
    of [datetime.now().year] read by the relevance and the timeliness
    assessment. *)
Definition _calculate_quality_metrics (year_rel year_time : Z)
           (content source_url content_type : string) : option QualityMetrics :=
  let credibility_score := _assess_credibility content source_url content_type in
  let relevance_score := _assess_relevance year_rel content in
  let accuracy_score := _assess_accuracy content in
  let completeness_score := _assess_completeness content in
  let timeliness_score := _assess_timeliness year_time content in
  let overall_score :=
    (credibility_score + relevance_score + accuracy_score
     + completeness_score + timeliness_score) / 5.0 in
  let notes := _generate_assessment_notes content source_url in
  let recommendations :=
    _generate_recommendations credibility_score relevance_score accuracy_score
                              completeness_score timeliness_score in
  QualityMetrics_new credibility_score relevance_score accuracy_score
                     completeness_score timeliness_score overall_score
                     notes recommendations.

Definition _generate_assessment_id (content source_url : string) : string :=
  let combined := Py.take 100 content ++ source_url in
  MD5.id8 combined.

(** The improvement wording of [_suggest_improvements], in its order. *)
Definition improvements_for (latest_metrics : QualityMetrics) (target_score : float)
  : list string :=
  let improvements := [] in
  let improvements :=
    if credibility_score latest_metrics <? target_score
    then Py.append improvements "Improve source credibility" else improvements in
  let improvements :=
    if relevance_score latest_metrics <? target_score
    then Py.append improvements "Enhance content relevance" else improvements in
  let improvements :=
    if accuracy_score latest_metrics <? target_score
    then Py.append improvements "Add more supporting evidence" else improvements in
  let improvements :=
    if completeness_score latest_metrics <? target_score
    then Py.append improvements "Expand content comprehensiveness" else improvements in
  if timeliness_score latest_metrics <? target_score
  then Py.append improvements "Update with recent information" else improvements.

(** The instance state: [_assessment_history]. *)
Definition History : Type := Py.dict QualityMetrics.

Section Rendering.

(** Text conversions of the interpreter that the scorer only passes through:
    [format(x, ".1f")], [str(x)] of a float, [sum] of a list of floats, and
    the text of a pydantic [ValidationError]. *)
Variable fmt_1f : float -> string.
Variable str_float : float -> string.
Variable float_sum : list float -> float.
Variable str_validation_error : string.

Definition nl : string := Py.nl.

Definition _format_assessment_results (metrics : QualityMetrics)
           (assessment_id : string) : string :=
  nl ++ "Quality Assessment Results (ID: " ++ assessment_id ++ ")" ++ nl
  ++ Py.repeat_char "=" 50 ++ nl ++ nl
  ++ "QUALITY SCORES:" ++ nl
  ++ "- Credibility: " ++ fmt_1f (credibility_score metrics) ++ "/10" ++ nl
  ++ "- Relevance: " ++ fmt_1f (relevance_score metrics) ++ "/10" ++ nl
  ++ "- Accuracy: " ++ fmt_1f (accuracy_score metrics) ++ "/10" ++ nl
  ++ "- Completeness: " ++ fmt_1f (completeness_score metrics) ++ "/10" ++ nl
  ++ "- Timeliness: " ++ fmt_1f (timeliness_score metrics) ++ "/10" ++ nl ++ nl
  ++ "OVERALL SCORE: " ++ fmt_1f (overall_score metrics) ++ "/10" ++ nl ++ nl
  ++ "ASSESSMENT NOTES:" ++ nl
  ++ Py.join nl (map (fun note => "- " ++ note) (assessment_notes metrics)) ++ nl ++ nl
  ++ "RECOMMENDATIONS:" ++ nl
  ++ Py.join nl (map (fun rec => "- " ++ rec) (recommendations metrics)) ++ nl.

(** [_assess_content]: a [ValidationError] of the constructor leaves the
    history as it was and is reported by the handler of [_run]. *)
Definition _assess_content (self : History) (year_rel year_time : Z)
           (content source_url content_type : string) : History * string :=
  match _calculate_quality_metrics year_rel year_time content source_url content_type with
  | None => (self, "Error in quality assessor: " ++ str_validation_error)
  | Some metrics =>
      let assessment_id := _generate_assessment_id content source_url in
      (Py.dict_set self assessment_id metrics,
       _format_assessment_results metrics assessment_id)
  end.

Definition _get_assessment_history (self : History) : string :=
  match self with
  | [] => "No assessments performed yet."
  | _ =>
      fold_left
        (fun result '(assessment_id, metrics) =>
           result ++ "- " ++ assessment_id ++ ": Overall Score "
           ++ fmt_1f (overall_score metrics) ++ "/10" ++ nl)
        self ("Assessment History:" ++ nl)
  end.

Definition _benchmark_against_standards (self : History) (domain : string) : string :=
  match self with
  | [] => "No assessments available for benchmarking."
  | _ =>
      let scores := map overall_score (Py.values self) in
      let avg_score := float_sum scores / Py.float_of_nat (List.length scores) in
      nl ++ "Quality Benchmark Report" ++ nl
      ++ Py.repeat_char "=" 25 ++ nl
      ++ "Average Quality Score: " ++ fmt_1f avg_score ++ "/10" ++ nl
      ++ "Total Assessments: " ++ Py.str_nat (List.length scores) ++ nl
      ++ "Quality Standard: "
      ++ (if 7.0 <=? avg_score then "Meets Standards" else "Below Standards") ++ nl
  end.

Definition _suggest_improvements (self : History) (target_score : float) : string :=
  match self with
  | [] => "No assessments available for improvement suggestions."
  | first :: others =>
      let latest_metrics := last (Py.values self) (snd first) in
      let improvements := improvements_for latest_metrics target_score in
      match improvements with
      | [] => "Content already meets target quality score of "
              ++ str_float target_score ++ "/10"
      | _ => "To reach target score of " ++ str_float target_score ++ "/10:" ++ nl
             ++ Py.join nl (map (fun imp => "- " ++ imp) improvements)
      end
  end.

(** The arguments of [_run], with the defaults of its signature. *)
Record Args : Type := mkArgs {
  action : string;
  arg_content : string;
  arg_source_url : string;
  arg_content_type : string;
  arg_target_score : float;
  arg_domain : string
}.
Definition args (action : string) : Args := mkArgs action "" "" "web" 8.0 "general".

Definition _run (self : History) (year_rel year_time : Z) (a : Args) : History * string :=
  if String.eqb (action a) "assess" then
    if negb (Py.truthy (arg_content a))
    then (self, "Error: Content is required for assessment")
    else _assess_content self year_rel year_time (arg_content a) (arg_source_url a)
                         (arg_content_type a)
  else if String.eqb (action a) "history" then (self, _get_assessment_history self)
  else if String.eqb (action a) "benchmark" then
    (self, _benchmark_against_standards self (arg_domain a))
  else if String.eqb (action a) "improve" then
    (self, _suggest_improvements self (arg_target_score a))
  else (self, "Unknown action: " ++ action a
              ++ ". Available actions: assess, history, benchmark, improve").

End Rendering.

End Quality.

(* ================================================================== *)
(** * Workflow orchestrator ([src/workflows/research_workflow.py]) *)
(* ================================================================== *)

Module Workflow.

(** ** Data *)

Record Metadata : Type := mkMetadata {
  project_id : string;
  timestamp : string;
  research_query : string;
  output_format : string;
  workflow_duration : string;
  agents_used : list string;
  tools_used : list string
}.

(** The three shapes of the record a run returns. *)
Inductive ProjectResult : Type :=
| Success (metadata : Metadata) (final_output summary_file output_directory : string)
    (* {"status": "success", "metadata", "final_output", "summary_file",
        "output_directory"} *)
| ErrorRecord (error : string) (metadata : Metadata)
    (* {"status": "error", "error", "metadata"} *)
| Failed (error : string).
    (* {"error", "status": "failed"} *)

(** [self.workflow_state].  An absent key is [None]; [results] starts as the
    empty dictionary, also [None]. *)
Record WorkflowState : Type := mkState {
  status : string;
  current_task : option string;
  completed_tasks : list string;
  start_time : option string;
  end_time : option string;
  results : option ProjectResult;
  errors : list string
}.

(** The state set up by [__init__]. *)
Definition __init__ : WorkflowState :=
  mkState "initialized" None [] None None None [].

Inductive Phase : Type := Research | Analysis | Content.

(** A [Task] of the agent runtime.  Its prompt is fixed prose around the
    interpolated values kept here; [spec_key] names the entry of the format
    table quoted in the content prompt. *)
Record Task : Type := mkTask {
  phase : Phase;
  task_query : string;
  task_depth : string;
  task_audience : string;
  task_format : string;
  spec_key : string
}.

(** What [crew.kickoff()] returns: an object with a [raw] attribute, or any
    other object, seen through [str]. *)
Inductive CrewResult : Type :=
| Raw (raw : string)
| Other (str : string).

(** The JSON object written to the summary file. *)
Record Summary : Type := mkSummary {
  s_metadata : Metadata;
  s_workflow_state : WorkflowState;
  s_final_output_preview : string
}.

(** A file opened for writing is empty until the summary has been dumped. *)
Inductive File : Type :=
| Truncated
| Json (summary : Summary).

Definition Files : Type := Py.dict File.

(** [settings] *)
Record Settings : Type := mkSettings { OUTPUT_DIR : string }.

(** The collaborators of one run: the agent runtime and the file system.  An
    error is the text [str(e)] of the exception raised. *)
Record Collaborators : Type := mkCollaborators {
  Task_error : Task -> option string;            (* Task(...) raises *)
  Crew_error : list Task -> option string;       (* Crew(...) raises *)
  kickoff : list Task -> string + CrewResult;    (* crew.kickoff() *)
  open_error : string -> option string;          (* open(path, 'w') raises *)
  dump_error : string -> Summary -> option string  (* json.dump raises *)
}.

(** The readings of [datetime.now()] during one run, in order. *)
Record Clock : Type := mkClock {
  t_start : DT.datetime;
  t_project : DT.datetime;
  t_stamp : DT.datetime;
  t_end : DT.datetime
}.

(** ** Exceptions over the file system *)

Definition M (A : Type) : Type := Files -> (string + A) * Files.

Definition ret {A} (a : A) : M A := fun fs => (inr a, fs).
Definition raise {A} (e : string) : M A := fun fs => (inl e, fs).
Definition bind {A B} (m : M A) (k : A -> M B) : M B :=
  fun fs =>
    match m fs with
    | (inl e, fs') => (inl e, fs')
    | (inr a, fs') => k a fs'
    end.
(** try: m  except Exception as e: h e *)
Definition try_except {A} (m : M A) (h : string -> M A) : M A :=
  fun fs =>
    match m fs with
    | (inl e, fs') => h e fs'
    | (inr a, fs') => (inr a, fs')
    end.
Definition lift {A} (r : string + A) : M A := fun fs => (r, fs).
Definition check (e : option string) : M unit :=
  match e with Some msg => raise msg | None => ret tt end.

Notation "x <- m ;; k" := (bind m (fun x => k))
  (at level 61, m at next level, right associativity).
Notation "m ;;; k" := (bind m (fun _ => k))
  (at level 61, right associativity).

(** ** Enumerations *)

Definition list_available_formats : list string :=
  [ "comprehensive_report"; "executive_briefing"; "presentation";
    "technical_summary"; "policy_brief" ].

Definition list_target_audiences : list string :=
  [ "academic"; "professional"; "executive"; "technical"; "general" ].

Definition list_depth_levels : list string :=
  [ "overview"; "detailed"; "comprehensive"; "expert" ].

(** ** The orchestrator *)

(** [specifications.get(output_format, specifications["comprehensive_report"])],
    as the key of the entry returned. *)
Definition _get_output_format_specifications
           (output_format target_audience depth_level : string) : string :=
  if Py.mem output_format
       [ "comprehensive_report"; "executive_briefing"; "presentation";
         "technical_summary"; "policy_brief" ]
  then output_format else "comprehensive_report".

Definition new_Task (co : Collaborators) (t : Task) : M Task :=
  check (Task_error co t) ;;; ret t.

Definition _create_research_tasks (co : Collaborators)
           (research_query output_format target_audience depth_level : string)
  : M (list Task) :=
  research_task <-
    new_Task co (mkTask Research research_query depth_level target_audience "" "") ;;
  analysis_task <-
    new_Task co (mkTask Analysis research_query depth_level target_audience "" "") ;;
  content_task <-
    new_Task co (mkTask Content research_query depth_level target_audience output_format
                   (_get_output_format_specifications output_format target_audience
                                                      depth_level)) ;;
  ret [research_task; analysis_task; content_task].

Definition _generate_project_id (now : DT.datetime) (research_query : string) : string :=
  let query_hash := MD5.id8 research_query in
  let timestamp := DT.date_compact now in
  "research_" ++ timestamp ++ "_" ++ query_hash.

Definition parse_iso (s : string) : string + DT.datetime :=
  match DT.fromisoformat s with
  | Some d => inr d
  | None => inl ("Invalid isoformat string: " ++ Py.repr_str s)
  end.

Definition _calculate_duration (self : WorkflowState) : string + string :=
  match start_time self, end_time self with
  | Some s, Some e =>
      match parse_iso s with
      | inl err => inl err
      | inr start =>
          match parse_iso e with
          | inl err => inl err
          | inr end_ =>
              let duration := DT.sub end_ start in
              inr (DT.str_timedelta duration)
          end
      end
  | _, _ => inr "unknown"
  end.

(** [os.path.join(dir, name)] for a relative [name]. *)
Definition path_join (dir name : string) : string :=
  match Py.last_char dir with
  | None => name
  | Some c => if Ascii.eqb c "/" then dir ++ name else dir ++ "/" ++ name
  end.

Definition open_w (co : Collaborators) (path : string) : M unit :=
  check (open_error co path) ;;;
  (fun fs => (inr tt, Py.dict_set fs path Truncated)).

Definition json_dump (co : Collaborators) (path : string) (summary : Summary) : M unit :=
  check (dump_error co path summary) ;;;
  (fun fs => (inr tt, Py.dict_set fs path (Json summary))).

Definition _process_workflow_results (cfg : Settings) (co : Collaborators)
           (clock : Clock) (self : WorkflowState)
           (crew_result : CrewResult) (research_query output_format : string)
  : M ProjectResult :=
  let project_id := _generate_project_id (t_project clock) research_query in
  let timestamp := DT.stamp (t_stamp clock) in
  duration <- lift (_calculate_duration self) ;;
  let metadata :=
    {| project_id := project_id;
       timestamp := timestamp;
       research_query := research_query;
       output_format := output_format;
       workflow_duration := duration;
       agents_used := ["research_agent"; "analysis_agent"; "content_agent"];
       tools_used := ["serper_search"; "citation_manager"; "quality_assessor";
                      "file_operations"] |} in
  try_except
    (let final_output :=
       match crew_result with Raw raw => raw | Other str => str end in
     let summary_filename := "workflow_summary_" ++ timestamp ++ ".json" in
     let summary_path := path_join (OUTPUT_DIR cfg) summary_filename in
     let workflow_summary :=
       {| s_metadata := metadata;
          s_workflow_state := self;
          s_final_output_preview :=
            if (500 <? Py.len final_output)%nat
            then Py.take 500 final_output ++ "..." else final_output |} in
     open_w co summary_path ;;;
     json_dump co summary_path workflow_summary ;;;
     ret (Success metadata final_output summary_path (OUTPUT_DIR cfg)))
    (fun e => ret (ErrorRecord e metadata)).

(** [execute_research_project]: the record returned and the state left. *)
Definition execute_research_project (cfg : Settings) (co : Collaborators)
           (clock : Clock) (self : WorkflowState)
           (research_query output_format target_audience depth_level : string)
           (fs : Files) : (ProjectResult * WorkflowState) * Files :=
  let self :=
    mkState "running" (current_task self) (completed_tasks self)
            (Some (DT.isoformat (t_start clock))) (end_time self)
            (results self) (errors self) in
  let body : M ProjectResult :=
    tasks <- _create_research_tasks co research_query output_format
                                    target_audience depth_level ;;
    check (Crew_error co tasks) ;;;
    result <- lift (kickoff co tasks) ;;
    final_results <- _process_workflow_results cfg co clock self result
                                               research_query output_format ;;
    ret final_results in
  match body fs with
  | (inr final_results, fs') =>
      ((final_results,
        mkState "completed" (current_task self) (completed_tasks self)
                (start_time self) (Some (DT.isoformat (t_end clock)))
                (Some final_results) (errors self)),
       fs')
  | (inl e, fs') =>
      ((Failed e,
        mkState "error" (current_task self) (completed_tasks self)
                (start_time self) (end_time self) (results self)
                (Py.append (errors self) e)),
       fs')
  end.

(** [get_workflow_status] *)
Definition get_workflow_status (self : WorkflowState) : WorkflowState := self.

(** ** WorkflowUtils *)

Record Validation : Type := mkValidation {
  valid : bool;
  validation_errors : list string
}.

(** [WorkflowUtils.validate_inputs].  The orchestrator it builds serves only
    as the holder of the three enumerations. *)
Definition validate_inputs (research_query output_format target_audience
                            depth_level : string) : Validation :=
  let errors := [] in
  let errors :=
    if negb (Py.truthy research_query) || (Py.len (Py.strip research_query) <? 10)%nat
    then Py.append errors "Research query must be at least 10 characters long"
    else errors in
  let errors :=
    if negb (Py.mem output_format list_available_formats)
    then Py.append errors ("Invalid output format. Available: "
                           ++ Py.repr_list list_available_formats)
    else errors in
  let errors :=
    if negb (Py.mem target_audience list_target_audiences)
    then Py.append errors ("Invalid target audience. Available: "
                           ++ Py.repr_list list_target_audiences)
    else errors in
  let errors :=
    if negb (Py.mem depth_level list_depth_levels)
    then Py.append errors ("Invalid depth level. Available: "
                           ++ Py.repr_list list_depth_levels)
    else errors in
  {| valid := Nat.eqb (List.length errors) 0; validation_errors := errors |}.

Definition base_times : Py.dict nat :=
  [ ("overview", 300%nat); ("detailed", 600%nat); ("comprehensive", 900%nat);
    ("expert", 1200%nat) ].

Definition format_multipliers : Py.dict float :=
  [ ("executive_briefing", 0.8%float); ("presentation", 0.9%float);
    ("comprehensive_report", 1.2%float); ("technical_summary", 1.1%float);
    ("policy_brief", 1.0%float) ].

(** [WorkflowUtils.estimate_duration]; an error is the text of the exception
    [int] raises. *)
Definition estimate_duration (depth_level output_format : string) : string + string :=
  let base_time :=
    match Py.dict_get base_times depth_level with Some b => b | None => 600%nat end in
  let multiplier :=
    match Py.dict_get format_multipliers output_format with
    | Some m => m | None => 1.0%float end in
  match Py.int_of_float (Py.float_of_nat base_time * multiplier)%float with
  | inl e => inl e
  | inr estimated_seconds =>
      let minutes := (estimated_seconds / 60)%Z in
      inr ("Approximately " ++ DT.str_Z minutes ++ " minutes")
  end.

End Workflow.

(* ================================================================== *)
(** * src/web_app.py *)
(* ================================================================== *)

Module WebApp.

(** [current_research["results"]]: the record the orchestrator returned, or
    the [{"status": "error", "error"}] record of the job's own handler. *)
Inductive Results : Type :=
| WorkflowResults (r : Workflow.ProjectResult)
| JobError (error : string).

(** The module-level dictionary [current_research]. *)
Record Research : Type := mkResearch {
  status : string;
  results : option Results
}.

(** The fields read from the JSON body of a request; [None] is an absent
    key. *)
Record Data : Type := mkData {
  d_query : option string;
  d_format : option string;
  d_audience : option string;
  d_depth : option string
}.

(** [data.get(key, default)] *)
Definition get (field : option string) (default : string) : string :=
  match field with
  | Some v => v
  | None => default
  end.

(** The keyword arguments the background job passes to
    [execute_research_project]. *)
Record Job : Type := mkJob {
  research_query : string;
  output_format : string;
  target_audience : string;
  depth_level : string
}.

(** The JSON answers of the two handlers that start a project. *)
Inductive Response : Type :=
| Failure (error : string)
    (* {'success': False, 'error': error} *)
| Busy
    (* {'success': True, 'type': 'message', 'message': <the notice that
        another research task is being worked on>} *)
| ResearchStarted (query estimated_duration : string).
    (* {'success': True, 'type': 'research_started',
        'message': <the start notice quoting the query>,
        'estimated_duration': estimated_duration} *)

Definition research_keywords : list string :=
  [ "research"; "analyze"; "study"; "investigate"; "explore"; "examine";
    "report on"; "tell me about"; "what are the trends"; "comprehensive analysis";
    "deep dive"; "breakdown"; "overview of"; "insights on" ].

Definition question_patterns : list string :=
  [ "what is"; "what are"; "how does"; "how do"; "why is"; "why are";
    "when will"; "where is"; "which are"; "who are" ].

(** [is_research_request] *)
Definition is_research_request (message : string) : bool :=
  let message_lower := Py.lower message in
  if existsb (fun keyword => Py.contains keyword message_lower) research_keywords
  then true
  else if existsb (fun pattern => Py.contains pattern message_lower) question_patterns
          && (4 <? List.length (Py.split message))%nat
  then true
  else false.

(** [start_research_from_chat]: the answer (or the text of an exception that
    leaves the function), the dictionary afterwards and the job handed to the
    background thread, if one is started. *)
Definition start_research_from_chat (current_research : Research)
           (message : string) (data : Data)
  : (string + Response) * Research * option Job :=
  if String.eqb (status current_research) "running"
  then (inr Busy, current_research, None)
  else
    let output_format := get (d_format data) "executive_briefing" in
    let audience := get (d_audience data) "professional" in
    let depth := get (d_depth data) "detailed" in
    let current_research := mkResearch "running" None in
    let job := mkJob message output_format audience depth in
    match Workflow.estimate_duration depth output_format with
    | inl e => (inl e, current_research, Some job)
    | inr estimated_duration =>
        (inr (ResearchStarted message estimated_duration), current_research, Some job)
    end.

(** [start_research], the handler of [POST /api/research]. *)
Definition start_research (current_research : Research) (data : Data)
  : Response * Research * option Job :=
  let query := Py.strip (get (d_query data) "") in
  let output_format := get (d_format data) "executive_briefing" in
  let audience := get (d_audience data) "professional" in
  let depth := get (d_depth data) "detailed" in
  if negb (Py.truthy query)
  then (Failure "Query is required", current_research, None)
  else if String.eqb (status current_research) "running"
  then (Failure "Research already in progress", current_research, None)
  else
    let validation := Workflow.validate_inputs query output_format audience depth in
    if negb (Workflow.valid validation)
    then (Failure (Py.join ", " (Workflow.validation_errors validation)),
          current_research, None)
    else
      match start_research_from_chat current_research query data with
      | (inl e, current_research, job) => (Failure e, current_research, job)
      | (inr response, current_research, job) => (response, current_research, job)
      end.

End WebApp.

(* ================================================================== *)
(** * Facts about the built-ins *)
(* ================================================================== *)

Module PyFacts.

Lemma append_assoc (a b c : string) : (a ++ b) ++ c = a ++ b ++ c.
Proof. induction a as [|x a IH]; simpl; [reflexivity | now rewrite IH]. Qed.

Lemma append_nil_r (a : string) : a ++ "" = a.
Proof. induction a as [|x a IH]; simpl; [reflexivity | now rewrite IH]. Qed.

Lemma truthy_false (s : string) : Py.truthy s = false <-> s = "".
Proof. destruct s; simpl; split; congruence. Qed.

Lemma truthy_true (s : string) : Py.truthy s = true <-> s <> "".
Proof. destruct s; simpl; split; congruence. Qed.

Lemma mem_In (x : string) (xs : list string) : Py.mem x xs = true <-> In x xs.
Proof.
  unfold Py.mem. rewrite existsb_exists. split.
  - intros [y [Hy Heq]]. apply String.eqb_eq in Heq. now subst.
  - intros H. exists x. split; [assumption | apply String.eqb_refl].
Qed.

Lemma mem_not_In (x : string) (xs : list string) : Py.mem x xs = false <-> ~ In x xs.
Proof.
  rewrite <- mem_In. destruct (Py.mem x xs); split; congruence.
Qed.

(** ** Dictionaries *)

Section Dict.
Context {V : Type}.
Implicit Types (d : Py.dict V) (k : string) (v : V).

Lemma dict_get_set_same d k v : Py.dict_get (Py.dict_set d k v) k = Some v.
Proof.
  induction d as [|[k' v'] d IH]; simpl.
  - now rewrite String.eqb_refl.
  - destruct (String.eqb k k') eqn:E; simpl; rewrite E; [reflexivity | exact IH].
Qed.

Lemma dict_get_set_other d k k' v :
  k' <> k -> Py.dict_get (Py.dict_set d k v) k' = Py.dict_get d k'.
Proof.
  intros Hne. induction d as [|[k0 v0] d IH]; simpl.
  - apply String.eqb_neq in Hne. now rewrite Hne.
  - destruct (String.eqb k k0) eqn:E; simpl.
    + apply String.eqb_eq in E. subst k0.
      apply String.eqb_neq in Hne. now rewrite Hne.
    + destruct (String.eqb k' k0); [reflexivity | exact IH].
Qed.

Lemma dict_get_In_keys d k : Py.dict_get d k <> None <-> In k (Py.keys d).
Proof.
  induction d as [|[k0 v0] d IH]; simpl.
  - split; [congruence | tauto].
  - destruct (String.eqb k k0) eqn:E.
    + apply String.eqb_eq in E. subst. split; [auto | congruence].
    + apply String.eqb_neq in E. rewrite IH. split; [auto | intros [H|H]; congruence].
Qed.

(** Assigning to a key that is present keeps the order of the keys. *)
Lemma keys_set_present d k v :
  Py.dict_get d k <> None -> Py.keys (Py.dict_set d k v) = Py.keys d.
Proof.
  induction d as [|[k0 v0] d IH]; simpl; [congruence|].
  destruct (String.eqb k k0) eqn:E; simpl; [reflexivity|].
  intros H. now rewrite (IH H).
Qed.

(** Assigning to a new key appends it. *)
Lemma set_absent d k v :
  Py.dict_get d k = None -> Py.dict_set d k v = (d ++ [(k, v)])%list.
Proof.
  induction d as [|[k0 v0] d IH]; simpl; [reflexivity|].
  destruct (String.eqb k k0) eqn:E; [congruence|].
  intros H. now rewrite (IH H).
Qed.

End Dict.

(** ** Substrings *)

Lemma prefix_refl (p : string) : String.prefix p p = true.
Proof.
  induction p as [|c p IH]; simpl; [reflexivity|].
  destruct (ascii_dec c c); [exact IH | congruence].
Qed.

Lemma prefix_append (p s : string) : String.prefix p (p ++ s) = true.
Proof.
  induction p as [|c p IH]; simpl.
  - now destruct s.
  - destruct (ascii_dec c c); [exact IH | congruence].
Qed.

Lemma contains_prefix (p s : string) :
  String.prefix p s = true -> Py.contains p s = true.
Proof. intros H. destruct s; simpl in *; now rewrite H. Qed.

Lemma contains_middle (p a b : string) : Py.contains p (a ++ p ++ b) = true.
Proof.
  induction a as [|c a IH].
  - cbn [String.append]. apply contains_prefix, prefix_append.
  - simpl. rewrite IH. apply orb_true_r.
Qed.

Lemma contains_append_r (p a : string) : Py.contains p (a ++ p) = true.
Proof. rewrite <- (append_nil_r p) at 2. apply contains_middle. Qed.

(** Every character of the text satisfies [P]. *)
Fixpoint all_chars (P : ascii -> bool) (s : string) : bool :=
  match s with
  | "" => true
  | String c s' => P c && all_chars P s'
  end.

Lemma all_chars_append P (a b : string) :
  all_chars P (a ++ b) = all_chars P a && all_chars P b.
Proof.
  induction a as [|c a IH]; simpl; [reflexivity|].
  now rewrite IH, andb_assoc.
Qed.

(** A needle cannot start inside a stretch that lacks its first character. *)
Lemma contains_skip (h : ascii) (p d b : string) :
  all_chars (fun c => negb (Ascii.eqb c h)) d = true ->
  Py.contains (String h p) (d ++ b) = Py.contains (String h p) b.
Proof.
  induction d as [|c d IH]; intros H; [reflexivity|].
  simpl in H. apply andb_true_iff in H. destruct H as [Hc Hd].
  change (String c d ++ b) with (String c (d ++ b)).
  cbn [Py.contains String.prefix].
  destruct (ascii_dec h c) as [->|_].
  - rewrite Ascii.eqb_refl in Hc. discriminate.
  - rewrite (IH Hd). reflexivity.
Qed.

(** ** Numbers as text *)

Lemma digit_char_isdigit (d : N) : Py.isdigit (Py.digit_char d) = true.
Proof.
  destruct d as [|p]; [reflexivity|].
  do 4 (destruct p as [p|p|]; try reflexivity).
Qed.

Lemma digits_fuel_all P fuel n acc :
  (forall c, Py.isdigit c = true -> P c = true) ->
  all_chars P acc = true -> all_chars P (Py.digits_fuel fuel n acc) = true.
Proof.
  intros HP. revert n acc.
  induction fuel as [|f IH]; intros n acc Hacc; simpl.
  - now rewrite HP by apply digit_char_isdigit.
  - destruct (n <? 10)%N.
    + simpl. now rewrite HP by apply digit_char_isdigit.
    + apply IH. simpl. now rewrite HP by apply digit_char_isdigit.
Qed.

Lemma repeat_char_all P c n : P c = true -> all_chars P (Py.repeat_char c n) = true.
Proof. intros H. induction n; simpl; [reflexivity | now rewrite H]. Qed.

Lemma zfill_all P w n :
  (forall c, Py.isdigit c = true -> P c = true) -> all_chars P (Py.zfill w n) = true.
Proof.
  intros HP. unfold Py.zfill, Py.str_N. rewrite all_chars_append.
  rewrite repeat_char_all by (apply HP; reflexivity).
  now rewrite digits_fuel_all.
Qed.

(** A dashed date is made of digits and hyphens. *)
Lemma date_dashed_all P (d : DT.datetime) :
  (forall c, Py.isdigit c = true -> P c = true) -> P "-"%char = true ->
  all_chars P (DT.date_dashed d) = true.
Proof.
  intros HP Hdash. unfold DT.date_dashed.
  repeat rewrite all_chars_append.
  repeat rewrite zfill_all by assumption.
  simpl. now rewrite Hdash.
Qed.

(** ** Identifiers *)

Lemma id8_length (s : string) : String.length (MD5.id8 s) = 8.
Proof.
  unfold MD5.id8, MD5.hexdigest.
  destruct (MD5.md5 (MD5.encode s)) as [[[a b] c] d].
  reflexivity.
Qed.

Lemma id8_truthy (s : string) : Py.truthy (MD5.id8 s) = true.
Proof.
  pose proof (id8_length s) as H.
  destruct (MD5.id8 s); [discriminate | reflexivity].
Qed.

End PyFacts.

(* ================================================================== *)
(** * Properties of the workflow orchestrator *)
(* ================================================================== *)

Module WorkflowSpec.
Import Workflow.
#[local] Arguments MD5.id8 : simpl never.

(** ** Input validation *)

Definition msg_query : string := "Research query must be at least 10 characters long".
Definition msg_format : string :=
  "Invalid output format. Available: " ++ Py.repr_list list_available_formats.
Definition msg_audience : string :=
  "Invalid target audience. Available: " ++ Py.repr_list list_target_audiences.
Definition msg_depth : string :=
  "Invalid depth level. Available: " ++ Py.repr_list list_depth_levels.

(** The entry a violated condition contributes. *)
Definition entry (violated : bool) (msg : string) : list string :=
  if violated then [msg] else [].

Lemma empty_query_is_short (q : string) :
  negb (Py.truthy q) || (Py.len (Py.strip q) <? 10)%nat
  = (Py.len (Py.strip q) <? 10)%nat.
Proof. destruct q; reflexivity. Qed.

Lemma messages_distinct : NoDup [msg_query; msg_format; msg_audience; msg_depth].
Proof.
  repeat constructor; cbv; intuition discriminate.
Qed.

(** C2.  [validate_inputs] answers [valid = true] with no errors exactly when
    the trimmed query has at least ten characters and the format, audience
    and depth belong to their enumerations (of 5, 5 and 4 values).  In every
    case each violated condition contributes its own entry, the four
    possible entries are pairwise different, and all four conditions are
    examined (nothing is short-circuited). *)
Theorem validate_inputs_collects (q f a d : string) :
  let v := validate_inputs q f a d in
  (valid v = true /\ validation_errors v = []
   <-> (10 <= Py.len (Py.strip q))%nat
       /\ In f list_available_formats
       /\ In a list_target_audiences
       /\ In d list_depth_levels)
  /\ validation_errors v
     = (entry (Py.len (Py.strip q) <? 10)%nat msg_query
        ++ entry (negb (Py.mem f list_available_formats)) msg_format
        ++ entry (negb (Py.mem a list_target_audiences)) msg_audience
        ++ entry (negb (Py.mem d list_depth_levels)) msg_depth)%list
  /\ valid v = match validation_errors v with [] => true | _ => false end
  /\ NoDup [msg_query; msg_format; msg_audience; msg_depth]
  /\ List.length list_available_formats = 5
  /\ List.length list_target_audiences = 5
  /\ List.length list_depth_levels = 4.
Proof.
  intros v. subst v. unfold validate_inputs.
  rewrite empty_query_is_short.
  pose proof (PyFacts.mem_In f list_available_formats) as Hf.
  pose proof (PyFacts.mem_In a list_target_audiences) as Ha.
  pose proof (PyFacts.mem_In d list_depth_levels) as Hd.
  fold msg_query msg_format msg_audience msg_depth.
  destruct (Nat.ltb_spec (Py.len (Py.strip q)) 10) as [Hq|Hq];
    destruct (Py.mem f list_available_formats);
    destruct (Py.mem a list_target_audiences);
    destruct (Py.mem d list_depth_levels);
    cbn [negb entry Py.append app valid validation_errors List.length Nat.eqb];
    (split; [|split; [reflexivity|split; [reflexivity|split;
       [exact messages_distinct | repeat split]]]]);
    (split; [intros [H1 H2]; try discriminate; repeat split; try lia; tauto
            | intros (H1 & H2 & H3 & H4); try lia;
              try (apply Hf in H2; discriminate);
              try (apply Ha in H3; discriminate);
              try (apply Hd in H4; discriminate);
              split; reflexivity]).
Qed.

(** ** Running a project *)

(** The three tasks, as [_create_research_tasks] lists them. *)
Definition tasks_of (q f a d : string) : list Task :=
  [ mkTask Research q d a "" "";
    mkTask Analysis q d a "" "";
    mkTask Content q d a f (_get_output_format_specifications f a d) ].

(** The first error among successive attempts. *)
Fixpoint first_error (attempts : list (option string)) : option string :=
  match attempts with
  | [] => None
  | Some e :: _ => Some e
  | None :: rest => first_error rest
  end.

(** The state in which the body of [execute_research_project] runs. *)
Definition running (clock : Clock) (self : WorkflowState) : WorkflowState :=
  mkState "running" (current_task self) (completed_tasks self)
          (Some (DT.isoformat (t_start clock))) (end_time self)
          (results self) (errors self).

Definition summary_path (cfg : Settings) (clock : Clock) : string :=
  path_join (OUTPUT_DIR cfg) ("workflow_summary_" ++ DT.stamp (t_stamp clock) ++ ".json").

(** The metadata and the summary of a run whose duration text is [dur]. *)
Definition metadata_of (clock : Clock) (q f dur : string) : Metadata :=
  {| project_id := _generate_project_id (t_project clock) q;
     timestamp := DT.stamp (t_stamp clock);
     research_query := q;
     output_format := f;
     workflow_duration := dur;
     agents_used := ["research_agent"; "analysis_agent"; "content_agent"];
     tools_used := ["serper_search"; "citation_manager"; "quality_assessor";
                    "file_operations"] |}.

Definition text_of (out : CrewResult) : string :=
  match out with Raw raw => raw | Other str => str end.

Definition summary_of (clock : Clock) (self : WorkflowState) (out : CrewResult)
           (q f dur : string) : Summary :=
  {| s_metadata := metadata_of clock q f dur;
     s_workflow_state := self;
     s_final_output_preview :=
       if (500 <? Py.len (text_of out))%nat
       then Py.take 500 (text_of out) ++ "..." else text_of out |}.

(** Where an exception is raised, relative to the handler inside
    [_process_workflow_results]. *)
Inductive Place : Type :=
| TaskConstruction | CrewSetup | PhaseExecution | ResultProcessing  (* outside *)
| SummaryPersistence.                                               (* inside *)

(** [raised cfg co clock self q f a d place e]: in the run described by the
    arguments the first exception is raised at [place], with text [e].  The
    summary handed to [json.dump] is the one of this run. *)
Inductive raised (cfg : Settings) (co : Collaborators) (clock : Clock)
          (self : WorkflowState) (q f a d : string) : Place -> string -> Prop :=
| raised_task e :
    first_error (map (Task_error co) (tasks_of q f a d)) = Some e ->
    raised cfg co clock self q f a d TaskConstruction e
| raised_crew e :
    first_error (map (Task_error co) (tasks_of q f a d)) = None ->
    Crew_error co (tasks_of q f a d) = Some e ->
    raised cfg co clock self q f a d CrewSetup e
| raised_kickoff e :
    first_error (map (Task_error co) (tasks_of q f a d)) = None ->
    Crew_error co (tasks_of q f a d) = None ->
    kickoff co (tasks_of q f a d) = inl e ->
    raised cfg co clock self q f a d PhaseExecution e
| raised_duration e out :
    first_error (map (Task_error co) (tasks_of q f a d)) = None ->
    Crew_error co (tasks_of q f a d) = None ->
    kickoff co (tasks_of q f a d) = inr out ->
    _calculate_duration (running clock self) = inl e ->
    raised cfg co clock self q f a d ResultProcessing e
| raised_open e out dur :
    first_error (map (Task_error co) (tasks_of q f a d)) = None ->
    Crew_error co (tasks_of q f a d) = None ->
    kickoff co (tasks_of q f a d) = inr out ->
    _calculate_duration (running clock self) = inr dur ->
    open_error co (summary_path cfg clock) = Some e ->
    raised cfg co clock self q f a d SummaryPersistence e
| raised_dump e out dur :
    first_error (map (Task_error co) (tasks_of q f a d)) = None ->
    Crew_error co (tasks_of q f a d) = None ->
    kickoff co (tasks_of q f a d) = inr out ->
    _calculate_duration (running clock self) = inr dur ->
    open_error co (summary_path cfg clock) = None ->
    dump_error co (summary_path cfg clock)
               (summary_of clock (running clock self) out q f dur) = Some e ->
    raised cfg co clock self q f a d SummaryPersistence e.

Lemma create_tasks_result (co : Collaborators) (q f a d : string) (fs : Files) :
  _create_research_tasks co q f a d fs
  = (match first_error (map (Task_error co) (tasks_of q f a d)) with
     | Some e => inl e
     | None => inr (tasks_of q f a d)
     end, fs).
Proof.
  unfold _create_research_tasks, tasks_of, new_Task, bind, check, raise, ret.
  cbn [map first_error].
  repeat match goal with
         | |- context [Task_error co ?t] => destruct (Task_error co t); try reflexivity
         end.
Qed.

(** The part of the body that precedes [_process_workflow_results]. *)
Lemma body_result (cfg : Settings) (co : Collaborators) (clock : Clock)
      (self : WorkflowState) (q f a d : string) (fs : Files) :
  execute_research_project cfg co clock self q f a d fs
  = match first_error (map (Task_error co) (tasks_of q f a d)),
          Crew_error co (tasks_of q f a d),
          kickoff co (tasks_of q f a d) with
    | Some e, _, _ | None, Some e, _ | None, None, inl e =>
        ((Failed e,
          mkState "error" (current_task self) (completed_tasks self)
                  (Some (DT.isoformat (t_start clock))) (end_time self)
                  (results self) (Py.append (errors self) e)), fs)
    | None, None, inr out =>
        match _process_workflow_results cfg co clock (running clock self) out q f fs with
        | (inr final_results, fs') =>
            ((final_results,
              mkState "completed" (current_task self) (completed_tasks self)
                      (Some (DT.isoformat (t_start clock)))
                      (Some (DT.isoformat (t_end clock)))
                      (Some final_results) (errors self)), fs')
        | (inl e, fs') =>
            ((Failed e,
              mkState "error" (current_task self) (completed_tasks self)
                      (Some (DT.isoformat (t_start clock))) (end_time self)
                      (results self) (Py.append (errors self) e)), fs')
        end
    end.
Proof.
  unfold execute_research_project.
  fold (running clock self).
  unfold bind at 1. rewrite create_tasks_result.
  destruct (first_error _) as [e|]; [reflexivity|].
  unfold bind at 1, check.
  destruct (Crew_error co (tasks_of q f a d)) as [e|]; [reflexivity|].
  unfold ret at 1, bind at 1, lift at 1.
  destruct (kickoff co (tasks_of q f a d)) as [e|out]; [reflexivity|].
  unfold bind at 1.
  destruct (_process_workflow_results _ _ _ _ _ _ _ fs) as [[e|r] fs']; reflexivity.
Qed.

(** What [_process_workflow_results] does, by the outcome of each step. *)
Lemma process_result (cfg : Settings) (co : Collaborators) (clock : Clock)
      (self : WorkflowState) (out : CrewResult) (q f : string) (fs : Files) :
  _process_workflow_results cfg co clock self out q f fs
  = match _calculate_duration self with
    | inl e => (inl e, fs)
    | inr dur =>
        match open_error co (summary_path cfg clock) with
        | Some e => (inr (ErrorRecord e (metadata_of clock q f dur)), fs)
        | None =>
            match dump_error co (summary_path cfg clock)
                             (summary_of clock self out q f dur) with
            | Some e =>
                (inr (ErrorRecord e (metadata_of clock q f dur)),
                 Py.dict_set fs (summary_path cfg clock) Truncated)
            | None =>
                (inr (Success (metadata_of clock q f dur) (text_of out)
                              (summary_path cfg clock) (OUTPUT_DIR cfg)),
                 Py.dict_set (Py.dict_set fs (summary_path cfg clock) Truncated)
                             (summary_path cfg clock)
                             (Json (summary_of clock self out q f dur)))
            end
        end
    end.
Proof.
  unfold _process_workflow_results, try_except, open_w, json_dump,
    bind, lift, check, raise, ret.
  fold (summary_path cfg clock) (text_of out).
  destruct (_calculate_duration self) as [e|dur]; [reflexivity|].
  fold (metadata_of clock q f dur).
  fold (summary_of clock self out q f dur).
  destruct (open_error co (summary_path cfg clock)); [reflexivity|].
  destruct (dump_error co (summary_path cfg clock) _); reflexivity.
Qed.

(** ** Failures *)

(** C1 (amended).  When the first exception of a run is raised outside the
    handler of [_process_workflow_results] (while the tasks or the crew are
    built, while the phases execute, or while the metadata are computed), the
    state moves to ["error"], the text of the exception is appended to
    [errors], the record returned is exactly [{error, status: "failed"}] and
    the files are those found at the start: no summary is written.  When it is
    raised while the summary is persisted, that handler catches it and the
    record returned is [{status: "error", error, metadata}]. *)
Theorem failure_is_recorded (cfg : Settings) (co : Collaborators) (clock : Clock)
        (self : WorkflowState) (q f a d : string) (fs : Files)
        (place : Place) (e : string) :
  raised cfg co clock self q f a d place e ->
  let run := execute_research_project cfg co clock self q f a d fs in
  match place with
  | SummaryPersistence =>
      exists md,
        fst (fst run) = ErrorRecord e md
        /\ research_query md = q /\ output_format md = f
  | _ =>
      fst (fst run) = Failed e
      /\ status (snd (fst run)) = "error"
      /\ errors (snd (fst run)) = (errors self ++ [e])%list
      /\ snd run = fs
  end.
Proof.
  intros H run. subst run. rewrite body_result.
  destruct H as [e H1 | e H1 H2 | e H1 H2 H3 | e out H1 H2 H3 H4
                 | e out dur H1 H2 H3 H4 H5 | e out dur H1 H2 H3 H4 H5 H6];
    rewrite H1; try rewrite H2; try rewrite H3;
    try (rewrite process_result, H4; try rewrite H5; try rewrite H6);
    cbn [fst snd status errors Py.append];
    try (repeat split; reflexivity);
    exists (metadata_of clock q f dur); repeat split; reflexivity.
Qed.

Definition cfg0 : Settings := mkSettings "./outputs".

Definition clock0 : Clock :=
  mkClock (DT.mk_datetime 2024 5 1 12 0 0 0) (DT.mk_datetime 2024 5 1 12 5 0 0)
          (DT.mk_datetime 2024 5 1 12 5 0 1) (DT.mk_datetime 2024 5 1 12 5 0 2).

(** A stub runtime whose phases succeed with a canned text. *)
Definition co_ok : Collaborators :=
  mkCollaborators (fun _ => None) (fun _ => None) (fun _ => inr (Raw "final text"))
                  (fun _ => None) (fun _ _ => None).

(** A stub runtime whose phase execution raises. *)
Definition co_phase_fails : Collaborators :=
  mkCollaborators (fun _ => None) (fun _ => None)
                  (fun _ => inl "rate limit exceeded")
                  (fun _ => None) (fun _ _ => None).

(** A stub file system that refuses to open the summary file. *)
Definition co_disk_full : Collaborators :=
  mkCollaborators (fun _ => None) (fun _ => None) (fun _ => inr (Raw "final text"))
                  (fun _ => Some "[Errno 28] No space left on device")
                  (fun _ _ => None).

Lemma failure_is_recorded_witness :
  fst (fst (execute_research_project cfg0 co_phase_fails clock0 __init__
              "What is AI safety?" "presentation" "general" "overview" []))
  = Failed "rate limit exceeded"
  /\ status (snd (fst (execute_research_project cfg0 co_phase_fails clock0 __init__
              "What is AI safety?" "presentation" "general" "overview" []))) = "error"
  /\ errors (snd (fst (execute_research_project cfg0 co_phase_fails clock0 __init__
              "What is AI safety?" "presentation" "general" "overview" [])))
     = (errors __init__ ++ ["rate limit exceeded"])%list
  /\ snd (execute_research_project cfg0 co_phase_fails clock0 __init__
              "What is AI safety?" "presentation" "general" "overview" []) = [].
Proof.
  apply (failure_is_recorded cfg0 co_phase_fails clock0 __init__
           "What is AI safety?" "presentation" "general" "overview" []
           PhaseExecution "rate limit exceeded").
  apply raised_kickoff; reflexivity.
Defined.

(** C1 as stated fails when the summary cannot be persisted: the exception is
    raised during summary persistence, yet the state ends as ["completed"],
    nothing is appended to [errors], and the record is not [{status: failed,
    error}]. *)
Lemma persistence_failure_is_not_recorded :
  raised cfg0 co_disk_full clock0 __init__
         "What is AI safety?" "presentation" "general" "overview"
         SummaryPersistence "[Errno 28] No space left on device"
  /\ fst (fst (execute_research_project cfg0 co_disk_full clock0 __init__
                 "What is AI safety?" "presentation" "general" "overview" []))
     <> Failed "[Errno 28] No space left on device"
  /\ status (snd (fst (execute_research_project cfg0 co_disk_full clock0 __init__
                 "What is AI safety?" "presentation" "general" "overview" [])))
     = "completed"
  /\ errors (snd (fst (execute_research_project cfg0 co_disk_full clock0 __init__
                 "What is AI safety?" "presentation" "general" "overview" [])))
     = [].
Proof.
  split; [|split; [|split]].
  - apply raised_open with (out := Raw "final text") (dur := "unknown"); reflexivity.
  - vm_compute. discriminate.
  - vm_compute. reflexivity.
  - vm_compute. reflexivity.
Qed.

(** A stub [json.dump] that fails on the summary of a run in progress only. *)
Definition co_picky : Collaborators :=
  mkCollaborators (fun _ => None) (fun _ => None) (fun _ => inr (Raw "final text"))
                  (fun _ => None)
                  (fun _ s => if String.eqb (status (s_workflow_state s)) "running"
                              then Some "Object of type datetime is not JSON serializable"
                              else None).

(** A failure of [json.dump] that depends on the summary it is given is a
    failure of summary persistence. *)
Lemma summary_dependent_failure_is_raised :
  raised cfg0 co_picky clock0 __init__
         "What is AI safety?" "presentation" "general" "overview"
         SummaryPersistence "Object of type datetime is not JSON serializable".
Proof.
  apply raised_dump with (out := Raw "final text") (dur := "unknown"); reflexivity.
Qed.

(** The places are exhaustive: a run that does not return a success record
    has raised at one of them. *)
Lemma run_succeeds_or_raises (cfg : Settings) (co : Collaborators) (clock : Clock)
      (self : WorkflowState) (q f a d : string) (fs : Files) :
  (exists md out file dir,
      fst (fst (execute_research_project cfg co clock self q f a d fs))
      = Success md out file dir)
  \/ (exists place e, raised cfg co clock self q f a d place e).
Proof.
  rewrite body_result.
  destruct (first_error _) as [e|] eqn:H1;
    [right; exists TaskConstruction, e; now apply raised_task|].
  destruct (Crew_error _ _) as [e|] eqn:H2;
    [right; exists CrewSetup, e; now apply raised_crew|].
  destruct (kickoff _ _) as [e|out] eqn:H3;
    [right; exists PhaseExecution, e; now apply raised_kickoff|].
  rewrite process_result.
  destruct (_calculate_duration (running clock self)) as [e|dur] eqn:H4;
    [right; exists ResultProcessing, e; now apply raised_duration with (out := out)|].
  destruct (open_error _ _) as [e|] eqn:H5;
    [right; exists SummaryPersistence, e;
     now apply raised_open with (out := out) (dur := dur)|].
  destruct (dump_error _ _ _) as [e|] eqn:H6;
    [right; exists SummaryPersistence, e;
     now apply raised_dump with (out := out) (dur := dur)|].
  left. cbn [fst]. eauto.
Qed.

(** ** The duration field *)

Lemma duration_without_end_time (clock : Clock) (self : WorkflowState) :
  end_time self = None -> _calculate_duration (running clock self) = inr "unknown".
Proof. intros H. unfold _calculate_duration, running. cbn. now rewrite H. Qed.

Lemma duration_with_end_time (clock : Clock) (self : WorkflowState)
      (e_txt : string) (start e : DT.datetime) :
  end_time self = Some e_txt ->
  DT.fromisoformat (DT.isoformat (t_start clock)) = Some start ->
  DT.fromisoformat e_txt = Some e ->
  _calculate_duration (running clock self) = inr (DT.str_timedelta (DT.sub e start)).
Proof.
  intros H1 H2 H3. unfold _calculate_duration, running, parse_iso.
  cbn [start_time end_time]. now rewrite H1, H2, H3.
Qed.

(** A success record carries the text computed by [_calculate_duration] in
    the running state. *)
Lemma success_duration (cfg : Settings) (co : Collaborators) (clock : Clock)
      (self : WorkflowState) (q f a d : string) (fs : Files)
      (md : Metadata) (out file dir : string) :
  fst (fst (execute_research_project cfg co clock self q f a d fs))
  = Success md out file dir ->
  _calculate_duration (running clock self) = inr (workflow_duration md).
Proof.
  rewrite body_result.
  destruct (first_error _); [discriminate|].
  destruct (Crew_error _ _); [discriminate|].
  destruct (kickoff _ _) as [e|res]; [discriminate|].
  rewrite process_result.
  destruct (_calculate_duration (running clock self)) as [e|dur]; [discriminate|].
  destruct (open_error _ _); [discriminate|].
  destruct (dump_error _ _ _); [discriminate|].
  cbn [fst]. intros H. injection H as <- _ _ _. reflexivity.
Qed.

(** What the field [workflow_duration] of a success record holds, by the
    state found when the call is made: ["unknown"] when the state holds no
    [end_time], as on the first run of an orchestrator, since the field is
    computed before [end_time] is recorded; and, when the state still holds
    the [end_time] of an earlier run, the text of that earlier end time minus
    the new start time. *)
Theorem duration_of_success (cfg : Settings) (co : Collaborators) (clock : Clock)
        (self : WorkflowState) (q f a d : string) (fs : Files)
        (md : Metadata) (out file dir : string) :
  fst (fst (execute_research_project cfg co clock self q f a d fs))
  = Success md out file dir ->
  (end_time self = None -> workflow_duration md = "unknown")
  /\ (forall e_txt start e,
         end_time self = Some e_txt ->
         DT.fromisoformat (DT.isoformat (t_start clock)) = Some start ->
         DT.fromisoformat e_txt = Some e ->
         workflow_duration md = DT.str_timedelta (DT.sub e start)).
Proof.
  intros H. apply success_duration in H. split.
  - intros Hend. rewrite (duration_without_end_time clock self Hend) in H.
    now injection H.
  - intros e_txt start e H1 H2 H3.
    rewrite (duration_with_end_time clock self e_txt start e H1 H2 H3) in H.
    now injection H.
Qed.

(** The state and the files left by a first, successful run. *)
Definition first_run : (ProjectResult * WorkflowState) * Files :=
  execute_research_project cfg0 co_ok clock0 __init__
    "What is AI safety?" "presentation" "general" "overview" [].

Definition clock1 : Clock :=
  mkClock (DT.mk_datetime 2024 5 1 13 0 0 0) (DT.mk_datetime 2024 5 1 13 5 0 0)
          (DT.mk_datetime 2024 5 1 13 5 0 1) (DT.mk_datetime 2024 5 1 13 5 0 2).

Lemma duration_of_success_witness :
  (end_time __init__ = None ->
   workflow_duration (metadata_of clock0 "What is AI safety?" "presentation" "unknown")
   = "unknown")
  /\ (forall e_txt start e,
         end_time __init__ = Some e_txt ->
         DT.fromisoformat (DT.isoformat (t_start clock0)) = Some start ->
         DT.fromisoformat e_txt = Some e ->
         workflow_duration (metadata_of clock0 "What is AI safety?" "presentation" "unknown")
         = DT.str_timedelta (DT.sub e start)).
Proof.
  apply (duration_of_success cfg0 co_ok clock0 __init__
           "What is AI safety?" "presentation" "general" "overview" []
           (metadata_of clock0 "What is AI safety?" "presentation" "unknown")
           "final text" "./outputs/workflow_summary_20240501_120500.json" "./outputs").
  vm_compute. reflexivity.
Defined.

(** C10.  On the second run of the same orchestrator the call returns a
    success record whose [workflow_duration] is not ["unknown"]: it is the end
    time the first run left in the state minus the start time of the second
    run, a negative span, while the second run itself lasted
    ["0:05:00.000002"].  [_calculate_duration] reads an [end_time] that
    [execute_research_project] has not yet written for the run in hand. *)
Lemma second_run_reports_a_duration :
  fst (fst (execute_research_project cfg0 co_ok clock1 (snd (fst first_run))
              "What is AI safety?" "presentation" "general" "overview"
              (snd first_run)))
  = Success (metadata_of clock1 "What is AI safety?" "presentation"
                         "-1 day, 23:05:00.000002")
            "final text" "./outputs/workflow_summary_20240501_130500.json" "./outputs"
  /\ String.eqb (workflow_duration
                   (metadata_of clock1 "What is AI safety?" "presentation"
                                "-1 day, 23:05:00.000002")) "unknown" = false
  /\ end_time (snd (fst first_run)) = Some (DT.isoformat (t_end clock0))
  /\ DT.str_timedelta (DT.sub (t_end clock0) (t_start clock1))
     = "-1 day, 23:05:00.000002"
  /\ DT.str_timedelta (DT.sub (t_end clock1) (t_start clock1)) = "0:05:00.000002".
Proof. repeat split; vm_compute; reflexivity. Qed.

End WorkflowSpec.

(* ================================================================== *)
(** * Properties of the citation store *)
(* ================================================================== *)

Module CitationSpec.
Import Citation.
#[local] Arguments MD5.id8 : simpl never.

(** ** The layout of a formatted entry *)

(** The author text of an APA entry, by the number of authors. *)
Definition apa_authors (l : list string) : string :=
  match l with
  | [] => "Unknown Author"
  | [a] => a
  | [a; b] => a ++ " & " ++ b
  | _ => Py.join ", " (removelast l) ++ ", & " ++ last l ""
  end.

(** The date of an APA entry. *)
Definition apa_date (c : CitationData) : string :=
  match publication_date c with
  | Some d => if Py.truthy d then d else date_accessed c
  | None => date_accessed c
  end.

Definition apa_publisher (c : CitationData) : string :=
  match publisher c with
  | Some p => if Py.truthy p then p ++ ". " else ""
  | None => ""
  end.

(** What a style writes at its URL position: the URL between the style's
    decorations, or nothing when the record has no real URL. *)
Definition url_part (before after : string) (c : CitationData) : string :=
  if Py.truthy (url c) && negb (String.eqb (url c) NO_URL)
  then before ++ url c ++ after else "".

(** The entries up to their URL position. *)
Definition apa_entry (c : CitationData) : string :=
  apa_authors (authors c) ++ ". (" ++ apa_date c ++ "). " ++ title c ++ ". "
  ++ apa_publisher c.

Definition mla_entry (c : CitationData) : string :=
  match authors c with
  | [] => "Unknown Author"
  | [a] => a
  | a :: _ => a ++ " et al."
  end ++ ". " ++ Py.dq ++ title c ++ "." ++ Py.dq ++ " Web. " ++ date_accessed c ++ ".".

Definition chicago_entry (c : CitationData) : string :=
  match authors c with
  | [] => "Unknown Author"
  | a :: _ => a
  end ++ ". " ++ Py.dq ++ title c ++ "." ++ Py.dq ++ " Accessed " ++ date_accessed c ++ ".".

Lemma format_apa_layout (c : CitationData) :
  _format_apa c = apa_entry c ++ url_part "Retrieved from " "" c.
Proof.
  unfold _format_apa, apa_entry, url_part, apa_date, apa_publisher, given.
  assert (Hau :
    match authors c with
    | [] => "Unknown Author"
    | a0 :: _ =>
        if Nat.eqb (List.length (authors c)) 1 then a0
        else if Nat.eqb (List.length (authors c)) 2
             then a0 ++ " & " ++ nth 1 (authors c) ""
             else Py.join ", " (removelast (authors c)) ++ ", & " ++ last (authors c) ""
    end = apa_authors (authors c)).
  { destruct (authors c) as [|a [|b [|x l]]]; reflexivity. }
  rewrite Hau. clear Hau.
  destruct (publication_date c) as [d|]; [destruct (Py.truthy d)|];
    (destruct (publisher c) as [p|]; [destruct (Py.truthy p)|]);
    destruct (Py.truthy (url c) && negb (String.eqb (url c) NO_URL));
    repeat rewrite PyFacts.append_assoc;
    repeat rewrite PyFacts.append_nil_r;
    reflexivity.
Qed.

Lemma format_mla_layout (c : CitationData) :
  _format_mla c = mla_entry c ++ url_part " <" ">." c.
Proof.
  unfold _format_mla, mla_entry, url_part.
  destruct (authors c) as [|a [|b l]];
    destruct (Py.truthy (url c) && negb (String.eqb (url c) NO_URL));
    cbn [List.length Nat.ltb Nat.leb];
    repeat rewrite PyFacts.append_assoc;
    repeat rewrite PyFacts.append_nil_r;
    reflexivity.
Qed.

Lemma format_chicago_layout (c : CitationData) :
  _format_chicago c = chicago_entry c ++ url_part " " "." c.
Proof.
  unfold _format_chicago, chicago_entry, url_part.
  destruct (authors c) as [|a l];
    destruct (Py.truthy (url c) && negb (String.eqb (url c) NO_URL));
    repeat rewrite PyFacts.append_assoc;
    repeat rewrite PyFacts.append_nil_r;
    reflexivity.
Qed.

(** Formatting a stored citation under a known style name. *)
Lemma format_stored (self : CitationManager) (id style : string) (c : CitationData) :
  Py.dict_get (_citations self) id = Some c -> id <> "" ->
  _format_citation self id style
  = if String.eqb (Py.upper style) "APA" then _format_apa c
    else if String.eqb (Py.upper style) "MLA" then _format_mla c
    else if String.eqb (Py.upper style) "CHICAGO" then _format_chicago c
    else "Unsupported citation style: " ++ style
         ++ ". Supported styles: APA, MLA, Chicago".
Proof.
  intros Hget Hid. unfold _format_citation.
  apply PyFacts.truthy_true in Hid. rewrite Hid, Hget. reflexivity.
Qed.

(** C5.  The APA text of a stored citation starts with the author text, the
    date between parentheses and the title.  The author text is the single
    author verbatim, two authors joined by [" & "], for three or more all
    but the last joined by [", "] and followed by [", & "] and the last, and
    ["Unknown Author"] for an empty list.  The date is [publication_date]
    when one is present (given and not empty), else [date_accessed]. *)
Theorem apa_authors_and_date (self : CitationManager) (id style : string)
        (c : CitationData) :
  Py.dict_get (_citations self) id = Some c -> id <> "" -> Py.upper style = "APA" ->
  (exists rest,
      _format_citation self id style
      = apa_authors (authors c) ++ ". (" ++ apa_date c ++ "). " ++ title c ++ ". " ++ rest)
  /\ (authors c = [] -> apa_authors (authors c) = "Unknown Author")
  /\ (forall a, authors c = [a] -> apa_authors (authors c) = a)
  /\ (forall a b, authors c = [a; b] -> apa_authors (authors c) = a ++ " & " ++ b)
  /\ (forall front final, (2 <= List.length front)%nat ->
        authors c = (front ++ [final])%list ->
        apa_authors (authors c) = Py.join ", " front ++ ", & " ++ final)
  /\ (forall d, publication_date c = Some d -> d <> "" -> apa_date c = d)
  /\ (publication_date c = None \/ publication_date c = Some "" ->
      apa_date c = date_accessed c).
Proof.
  intros Hget Hid Hstyle.
  split; [|split; [|split; [|split; [|split; [|split]]]]].
  - rewrite (format_stored self id style c Hget Hid), Hstyle.
    cbn [Py.upper]. rewrite String.eqb_refl, format_apa_layout.
    unfold apa_entry. exists (apa_publisher c ++ url_part "Retrieved from " "" c).
    repeat rewrite PyFacts.append_assoc. reflexivity.
  - intros ->. reflexivity.
  - intros a ->. reflexivity.
  - intros a b ->. reflexivity.
  - intros front final Hlen ->.
    destruct front as [|x [|y front]]; simpl in Hlen; try lia.
    unfold apa_authors.
    change ((x :: y :: front) ++ [final])%list
      with (x :: y :: (front ++ [final]))%list.
    destruct (front ++ [final])%list as [|z rest] eqn:E.
    + destruct front; discriminate.
    + rewrite <- E.
      change (x :: y :: (front ++ [final]))%list
        with ((x :: y :: front) ++ [final])%list.
      rewrite removelast_last, last_last. reflexivity.
  - intros d Hd Hne. unfold apa_date. rewrite Hd.
    apply PyFacts.truthy_true in Hne. now rewrite Hne.
  - intros [H|H]; unfold apa_date; rewrite H; reflexivity.
Qed.

(** Sample stores: one citation with a URL, then a second one without. *)
Definition noon : DT.datetime := DT.mk_datetime 2024 5 1 12 0 0 0.

Definition store1 : CitationManager :=
  fst (_run __init__ noon noon (mkArgs "add" "T" "http://x.edu" None "" "APA" no_kwargs)).

Definition store2 : CitationManager :=
  fst (_run store1 noon noon
            (mkArgs "add" "Other" "" (Some ["A"; "B"; "C"]) "" "APA"
                    (mkKwargs None (Some "2020") (Some "Pub") None))).

Definition other : CitationData :=
  mkCitationData "Other" ["A"; "B"; "C"] "No URL provided" "2024-05-01" "web"
                 (Some "2020") (Some "Pub") None "4156eb62".

Lemma apa_authors_and_date_witness :
  exists rest,
    _format_citation store2 "4156eb62" "apa" = "A, B, & C. (2020). Other. " ++ rest.
Proof.
  refine (proj1 (apa_authors_and_date store2 "4156eb62" "apa" other _ _ _)).
  - vm_compute. reflexivity.
  - discriminate.
  - reflexivity.
Defined.

(** ** Adding and formatting *)

(** The record and the reply of a successful [add]. *)
Lemma add_citation_result (self : CitationManager) (now_id now_acc : DT.datetime)
      (t u : string) (au : list string) (kw : Kwargs) :
  t <> "" ->
  let u' := if negb (Py.truthy u) then NO_URL else u in
  let id := _generate_citation_id t u' now_id in
  _add_citation self now_id now_acc t u au kw
  = (mkManager
       (Py.dict_set (_citations self) id
          (mkCitationData t au u' (DT.date_dashed now_acc)
             (match kw_source_type kw with Some s => s | None => "web" end)
             (kw_publication_date kw) (kw_publisher kw) (kw_doi kw) id))
       (_citation_usage self),
     "Citation added successfully with ID: " ++ id).
Proof.
  intros Ht. apply PyFacts.truthy_true in Ht.
  unfold _add_citation. rewrite Ht. reflexivity.
Qed.

Lemma generated_id_nonempty (t u : string) (now : DT.datetime) :
  _generate_citation_id t u now <> "".
Proof.
  unfold _generate_citation_id. apply PyFacts.truthy_true, PyFacts.id8_truthy.
Qed.

Lemma url_part_of_sentinel (before after : string) (c : CitationData) :
  url c = NO_URL -> url_part before after c = "".
Proof. intros H. unfold url_part. rewrite H. reflexivity. Qed.

(** The sentinel does not occur in a text made of a prefix without capital N,
    a dashed date, and a suffix without the sentinel. *)
Lemma no_sentinel_around_date (d : DT.datetime) :
  Py.contains NO_URL
    ("Unknown Author. (" ++ DT.date_dashed d ++ "). T. Retrieved from http://x.edu")
  = false.
Proof.
  assert (Hd : PyFacts.all_chars (fun c => negb (Ascii.eqb c "N")) (DT.date_dashed d) = true).
  { apply PyFacts.date_dashed_all; [|reflexivity].
    intros c Hc. destruct (Ascii.eqb_spec c "N") as [->|]; [discriminate | reflexivity]. }
  generalize dependent (DT.date_dashed d). intros date Hd.
  unfold NO_URL.
  cbn [String.append].
  repeat (cbn [Py.contains String.prefix];
          match goal with
          | |- context [ascii_dec ?a ?b] => destruct (ascii_dec a b); [discriminate|]
          end; cbn [orb]).
  rewrite (PyFacts.contains_skip "N" "o URL provided" date _ Hd).
  reflexivity.
Qed.

(** C4.  A citation added with an empty url is stored with the sentinel
    ["No URL provided"] as its url, and its APA, MLA and Chicago texts end
    where the URL position starts: nothing, and so no sentinel, is written
    there.  And after [add("T", "http://x.edu")] the APA text of the new
    citation contains ["Retrieved from http://x.edu"] and does not contain
    ["No URL provided"]. *)
Theorem sentinel_url_is_suppressed (self : CitationManager)
        (now_id now_acc : DT.datetime) (t : string) (au : list string) (kw : Kwargs) :
  (t <> "" ->
   let st := fst (_add_citation self now_id now_acc t "" au kw) in
   let id := _generate_citation_id t "No URL provided" now_id in
   exists c,
     Py.dict_get (_citations st) id = Some c
     /\ url c = "No URL provided" /\ title c = t /\ authors c = au
     /\ _format_citation st id "APA" = apa_entry c
     /\ _format_citation st id "MLA" = mla_entry c
     /\ _format_citation st id "Chicago" = chicago_entry c)
  /\ (let r := _run self now_id now_acc
                    (mkArgs "add" "T" "http://x.edu" None "" "APA" no_kwargs) in
      let id := _generate_citation_id "T" "http://x.edu" now_id in
      snd r = "Citation added successfully with ID: " ++ id
      /\ Py.contains "Retrieved from http://x.edu"
                     (_format_citation (fst r) id "APA") = true
      /\ Py.contains "No URL provided"
                     (_format_citation (fst r) id "APA") = false).
Proof.
  split.
  - intros Ht st id. subst st.
    rewrite (add_citation_result self now_id now_acc t "" au kw Ht).
    cbn [fst _citations Py.truthy negb]. fold id.
    eexists. split; [apply PyFacts.dict_get_set_same|].
    split; [reflexivity|]. split; [reflexivity|]. split; [reflexivity|].
    pose proof (generated_id_nonempty t "No URL provided" now_id) as Hid. fold id in Hid.
    repeat split;
      (erewrite format_stored; [|apply PyFacts.dict_get_set_same|exact Hid]);
      cbn [Py.upper Py.upper_char].
    + change (String.eqb _ "APA") with true. cbv iota.
      rewrite format_apa_layout, url_part_of_sentinel by reflexivity.
      apply PyFacts.append_nil_r.
    + rewrite format_mla_layout, url_part_of_sentinel by reflexivity.
      apply PyFacts.append_nil_r.
    + rewrite format_chicago_layout, url_part_of_sentinel by reflexivity.
      apply PyFacts.append_nil_r.
  - intros r id. subst r.
    change (_run self now_id now_acc
                 (mkArgs "add" "T" "http://x.edu" None "" "APA" no_kwargs))
      with (_add_citation self now_id now_acc "T" "http://x.edu" [] no_kwargs).
    rewrite add_citation_result by discriminate.
    cbn [fst snd _citations Py.truthy negb]. fold id.
    split; [reflexivity|].
    pose proof (generated_id_nonempty "T" "http://x.edu" now_id) as Hid. fold id in Hid.
    erewrite format_stored; [|apply PyFacts.dict_get_set_same|exact Hid].
    change (String.eqb (Py.upper "APA") "APA") with true. cbv iota.
    assert (Htext :
      _format_apa (mkCitationData "T" [] "http://x.edu" (DT.date_dashed now_acc) "web"
                                  None None None id)
      = "Unknown Author. (" ++ DT.date_dashed now_acc
        ++ "). T. Retrieved from http://x.edu").
    { unfold _format_apa, given. cbn -[DT.date_dashed].
      repeat rewrite PyFacts.append_assoc. reflexivity. }
    cbn [kw_source_type kw_publication_date kw_publisher kw_doi no_kwargs].
    rewrite Htext. split.
    + change ("Unknown Author. (" ++ DT.date_dashed now_acc
              ++ "). T. Retrieved from http://x.edu")
        with ("Unknown Author. (" ++ DT.date_dashed now_acc
              ++ "). T. " ++ "Retrieved from http://x.edu").
      rewrite <- (PyFacts.append_assoc (DT.date_dashed now_acc)).
      rewrite <- PyFacts.append_assoc.
      apply PyFacts.contains_append_r.
    + apply no_sentinel_around_date.
Qed.

Lemma sentinel_url_is_suppressed_witness :
  exists c,
    Py.dict_get (_citations store2) "4156eb62" = Some c
    /\ url c = "No URL provided" /\ title c = "Other" /\ authors c = ["A"; "B"; "C"]
    /\ _format_citation store2 "4156eb62" "APA" = apa_entry c
    /\ _format_citation store2 "4156eb62" "MLA" = mla_entry c
    /\ _format_citation store2 "4156eb62" "Chicago" = chicago_entry c.
Proof.
  refine (proj1 (sentinel_url_is_suppressed store1 noon noon "Other" ["A"; "B"; "C"]
                   (mkKwargs None (Some "2020") (Some "Pub") None)) _).
  discriminate.
Defined.

(** ** Unknown ids *)

(** C6 (amended).  For an id that is not in the store: [format] with a
    non-empty id fails with a not-found message that ends with the list of
    all stored ids, in insertion order; usage tracking with a non-empty id
    fails with a not-found message and changes nothing; and with an empty id
    both fail with an "id is required" error instead. *)
Theorem unknown_id_is_reported (self : CitationManager) (id style : string) :
  Py.dict_get (_citations self) id = None ->
  (id <> "" ->
   _format_citation self id style
   = "Citation with ID " ++ id ++ " not found. Available IDs: "
     ++ Py.repr_list (Py.keys (_citations self))
   /\ (forall k, In k (Py.keys (_citations self))
                 <-> Py.dict_get (_citations self) k <> None)
   /\ fst (_track_usage self id) = self
   /\ String.prefix ("Citation with ID " ++ id ++ " not found")
                     (snd (_track_usage self id)) = true)
  /\ (id = "" ->
      _format_citation self id style = "Error: Citation ID is required for formatting"
      /\ _track_usage self id
         = (self, "Error: Citation ID is required for usage tracking")).
Proof.
  intros Hget. split.
  - intros Hid. apply PyFacts.truthy_true in Hid.
    unfold _format_citation, _track_usage, Py.dict_has. rewrite Hid, Hget.
    cbn [negb fst snd].
    split; [reflexivity|]. split; [|split; [reflexivity|]].
    + intros k. symmetry. apply PyFacts.dict_get_In_keys.
    + rewrite <- (PyFacts.append_nil_r ("Citation with ID " ++ id ++ " not found")) at 2.
      apply PyFacts.prefix_append.
  - intros ->. split; reflexivity.
Qed.

Lemma unknown_id_is_reported_witness :
  _format_citation store2 "zz" "APA"
  = "Citation with ID zz not found. Available IDs: ['9e498b68', '4156eb62']".
Proof.
  refine (proj1 (proj1 (unknown_id_is_reported store2 "zz" "APA" _) _)).
  - vm_compute. reflexivity.
  - discriminate.
Defined.

(** C6 as stated fails for the empty id, which is in no store: the reply of
    [format] is the "id is required" error, with neither a not-found message
    nor the stored id. *)
Lemma empty_id_is_not_reported_as_unknown :
  Py.dict_get (_citations store1) "" = None
  /\ Py.keys (_citations store1) = ["9e498b68"]
  /\ _format_citation store1 "" "APA" = "Error: Citation ID is required for formatting"
  /\ Py.contains "not found" (_format_citation store1 "" "APA") = false
  /\ Py.contains "9e498b68" (_format_citation store1 "" "APA") = false.
Proof. repeat split; vm_compute; reflexivity. Qed.

(** ** What the operations leave untouched *)

(** Only [add] writes to [_citations]. *)
Lemma run_keeps_citations (self : CitationManager) (now_id now_acc : DT.datetime)
      (a : Args) :
  action a <> "add" ->
  _citations (fst (_run self now_id now_acc a)) = _citations self.
Proof.
  intros Hact. apply String.eqb_neq in Hact.
  unfold _run, _track_usage. rewrite Hact.
  repeat match goal with
         | |- context [if ?b then _ else _] => destruct b
         end; reflexivity.
Qed.

(** [add] leaves the record of every other id as it was. *)
Lemma add_keeps_other_citations (self : CitationManager) (now_id now_acc : DT.datetime)
      (t u : string) (au : list string) (kw : Kwargs) (k : string) :
  k <> _generate_citation_id t (if negb (Py.truthy u) then NO_URL else u) now_id ->
  Py.dict_get (_citations (fst (_add_citation self now_id now_acc t u au kw))) k
  = Py.dict_get (_citations self) k.
Proof.
  intros Hk. unfold _add_citation.
  destruct (negb (Py.truthy t)); [reflexivity|].
  cbn [fst _citations]. now apply PyFacts.dict_get_set_other.
Qed.

End CitationSpec.

(* ================================================================== *)
(** * Properties of the quality scorer *)
(* ================================================================== *)

Module QualitySpec.
Import Quality.
Local Open Scope float_scope.
#[local] Arguments MD5.id8 : simpl never.

(** ** Floats *)

Lemma ltb_leb (x y : float) : (x <? y) = true -> (x <=? y) = true.
Proof.
  rewrite FloatAxioms.ltb_spec, FloatAxioms.leb_spec. unfold SpecFloat.SFltb, SpecFloat.SFleb.
  destruct (SpecFloat.SFcompare _ _) as [[]|]; congruence.
Qed.

Lemma feq_eq (x y : float) : PrimFloat.Leibniz.eqb x y = true -> x = y.
Proof. apply FloatAxioms.Leibniz.eqb_spec. Qed.

(** Every clamped score lies in [0, 10], whatever the raw score. *)
Lemma clamp_in_range (s : float) : in_range (clamp s) = true.
Proof.
  unfold clamp, Py.max2, Py.min2, in_range.
  destruct (0.0 <? s) eqn:H0.
  - destruct (s <? 10.0) eqn:H1.
    + now rewrite (ltb_leb _ _ H0), (ltb_leb _ _ H1).
    + reflexivity.
  - reflexivity.
Qed.

(** ** Counting loops *)

(** A loop that applies [g] once per listed pattern found applies it as many
    times as there are patterns found. *)
Lemma fold_bump {A} (f : A -> bool) (g : float -> float) (l : list A) (s : float) :
  fold_left (fun score x => if f x then g score else score) l s
  = Nat.iter (List.length (filter f l)) g s.
Proof.
  revert s. induction l as [|x l IH]; intros s; [reflexivity|].
  cbn [fold_left filter]. rewrite IH.
  destruct (f x); [|reflexivity].
  cbn [List.length]. now rewrite Nat.iter_succ_r.
Qed.

Lemma filter_length_le {A} (f : A -> bool) (l : list A) :
  (List.length (filter f l) <= List.length l)%nat.
Proof.
  induction l as [|x l IH]; [apply le_n|].
  cbn [filter]. destruct (f x); cbn [List.length]; lia.
Qed.

(** The scores reachable from [s] by at most [n] applications of [g]. *)
Definition bumps (g : float -> float) (n : nat) (s : float) : list float :=
  map (fun k => Nat.iter k g s) (List.seq 0 (S n)).

Lemma in_bumps (g : float -> float) (n k : nat) (s : float) :
  (k <= n)%nat -> In (Nat.iter k g s) (bumps g n s).
Proof.
  intros H. unfold bumps. apply in_map_iff. exists k.
  split; [reflexivity|]. apply in_seq. lia.
Qed.

(** ** The values a sub-score can take *)

Definition credibility_values : list float :=
  flat_map
    (fun s0 =>
       flat_map (fun s1 => map clamp (bumps (fun s => s - 0.2) 6 s1))
                (bumps (fun s => s + 0.3) 7 s0))
    [5.0; 5.0 + 2.0; 5.0 + 0.5].

Definition relevance_values : list float :=
  flat_map
    (fun s0 =>
       flat_map (fun s1 => map clamp [s1 + 1.0; s1 - 1.0; s1]) [s0 + 1.0; s0])
    [5.0 + 1.5; 5.0].

Definition accuracy_values : list float :=
  flat_map (fun s0 => map clamp (bumps (fun s => s + 0.3) 5 s0))
           [6.0 + 2.0; 6.0 + 1.0; 6.0].

Definition completeness_values : list float :=
  flat_map
    (fun s0 => map (fun k => clamp (s0 + Py.float_of_nat k * 0.5)) (List.seq 0 8))
    [5.0 + 2.0; 5.0 + 1.0; 5.0 - 2.0; 5.0].

Definition timeliness_values : list float :=
  flat_map (fun s0 => map clamp (bumps (fun s => s + 0.2) 8 s0))
           [5.0; 5.0 + 3.0; 5.0 + 1.0; 5.0 + 0.0; 5.0 - 2.0].

Ltac pick_member :=
  cbn [In]; repeat (first [left; reflexivity | right]).

Lemma credibility_reachable (content source_url content_type : string) :
  In (_assess_credibility content source_url content_type) credibility_values.
Proof.
  unfold _assess_credibility, credibility_values.
  rewrite !fold_bump.
  apply in_flat_map.
  match goal with
  | |- context [Nat.iter _ _ (Nat.iter _ _ ?s)] => exists s
  end.
  split.
  - destruct (Py.truthy source_url); [|pick_member].
    destruct (existsb _ [".edu"; ".gov"; ".org"]); [pick_member|].
    destruct (existsb _ [".com"; ".net"]); pick_member.
  - apply in_flat_map. eexists. split.
    + apply in_bumps, (filter_length_le (fun x => Re.search true x content) credibility_indicators).
    + apply in_map, in_bumps, (filter_length_le _ bias_indicators).
Qed.

Lemma relevance_reachable (current_year : Z) (content : string) :
  In (_assess_relevance current_year content) relevance_values.
Proof.
  unfold _assess_relevance.
  destruct (Re.search true re_specific content);
    (destruct (Re.findall false re_year content) as [|y ys];
     [|destruct (filter _ (y :: ys))]);
    (destruct (500 <? word_count content)%nat;
     [|destruct (word_count content <? 100)%nat]);
    vm_compute; tauto.
Qed.

Lemma accuracy_reachable (content : string) :
  In (_assess_accuracy content) accuracy_values.
Proof.
  unfold _assess_accuracy, accuracy_values.
  rewrite fold_bump.
  apply in_flat_map.
  match goal with
  | |- context [Nat.iter _ _ ?s] => exists s
  end.
  split.
  - destruct (5 <? _)%nat; [pick_member|].
    destruct (2 <? _)%nat; pick_member.
  - apply in_map, in_bumps,
      (filter_length_le (fun x => Re.search true x content) factual_indicators).
Qed.

Lemma completeness_reachable (content : string) :
  In (_assess_completeness content) completeness_values.
Proof.
  unfold _assess_completeness, completeness_values.
  apply in_flat_map.
  match goal with
  | |- context [clamp (?s + _)] => exists s
  end.
  split.
  - destruct (1000 <? word_count content)%nat; [pick_member|].
    destruct (500 <? word_count content)%nat; [pick_member|].
    destruct (word_count content <? 100)%nat; pick_member.
  - apply in_map_iff. eexists. split; [reflexivity|].
    apply in_seq.
    pose proof (filter_length_le (fun indicator => Re.search true indicator content)
                                 structure_indicators) as H.
    cbn [List.length structure_indicators] in H. lia.
Qed.

Lemma timeliness_reachable (current_year : Z) (content : string) :
  In (_assess_timeliness current_year content) timeliness_values.
Proof.
  unfold _assess_timeliness, timeliness_values.
  rewrite fold_bump.
  apply in_flat_map.
  match goal with
  | |- context [Nat.iter _ _ ?s] => exists s
  end.
  split.
  - destruct (Re.findall false re_year content) as [|y ys]; [pick_member|].
    destruct (_ <=? 1)%Z; [pick_member|].
    destruct (_ <=? 3)%Z; [pick_member|].
    destruct (_ <=? 5)%Z; pick_member.
  - apply in_map, in_bumps,
      (filter_length_le (fun x => Re.search true x content) recent_indicators).
Qed.

(** ** The overall score is accepted by the constructor *)

(** A list without repeated floats. *)
Fixpoint nub (l : list float) : list float :=
  match l with
  | [] => []
  | x :: l' =>
      let r := nub l' in
      if existsb (PrimFloat.Leibniz.eqb x) r then r else x :: r
  end.

Lemma nub_In (x : float) (l : list float) : In x l -> In x (nub l).
Proof.
  induction l as [|y l IH]; [tauto|].
  intros [->|H]; cbn [nub].
  - destruct (existsb _ _) eqn:E; [|left; reflexivity].
    apply existsb_exists in E. destruct E as [z [Hz Heq]].
    apply feq_eq in Heq. now subst.
  - destruct (existsb _ _); [|right]; auto.
Qed.

(** The sums of a value of [A] and a value of [B]. *)
Definition sums (A B : list float) : list float :=
  nub (flat_map (fun a => map (fun b => a + b) B) A).

Lemma sums_In (A B : list float) (a b : float) :
  In a A -> In b B -> In (a + b) (sums A B).
Proof.
  intros Ha Hb. apply nub_In, in_flat_map. exists a. split; [exact Ha|].
  now apply in_map.
Qed.

Definition total_values : list float :=
  sums (sums (sums (sums credibility_values relevance_values) accuracy_values)
             completeness_values) timeliness_values.

Lemma total_values_in_range :
  forallb (fun s => in_range (s / 5.0)) total_values = true.
Proof. vm_compute. reflexivity. Qed.

Lemma overall_in_range (year_rel year_time : Z)
      (content source_url content_type : string) :
  in_range ((_assess_credibility content source_url content_type
             + _assess_relevance year_rel content
             + _assess_accuracy content
             + _assess_completeness content
             + _assess_timeliness year_time content) / 5.0) = true.
Proof.
  pose proof total_values_in_range as H.
  rewrite forallb_forall in H. apply H.
  unfold total_values.
  repeat apply sums_In.
  - apply credibility_reachable.
  - apply relevance_reachable.
  - apply accuracy_reachable.
  - apply completeness_reachable.
  - apply timeliness_reachable.
Qed.

(** ** The metrics of an assessment *)

Lemma metrics_are_built (year_rel year_time : Z)
      (content source_url content_type : string) :
  _calculate_quality_metrics year_rel year_time content source_url content_type
  = Some (mkQualityMetrics
            (_assess_credibility content source_url content_type)
            (_assess_relevance year_rel content)
            (_assess_accuracy content)
            (_assess_completeness content)
            (_assess_timeliness year_time content)
            ((_assess_credibility content source_url content_type
              + _assess_relevance year_rel content
              + _assess_accuracy content
              + _assess_completeness content
              + _assess_timeliness year_time content) / 5.0)
            (_generate_assessment_notes content source_url)
            (_generate_recommendations
               (_assess_credibility content source_url content_type)
               (_assess_relevance year_rel content)
               (_assess_accuracy content)
               (_assess_completeness content)
               (_assess_timeliness year_time content))).
Proof.
  unfold _calculate_quality_metrics, QualityMetrics_new.
  rewrite overall_in_range.
  unfold _assess_credibility at 1, _assess_relevance at 1, _assess_accuracy at 1,
    _assess_completeness at 1, _assess_timeliness at 1.
  rewrite !clamp_in_range. reflexivity.
Qed.

(** C3.  For a non-empty content the assess operation builds and stores a
    [QualityMetrics] (the validating constructor accepts it) whose five
    sub-scores lie in [0, 10] and whose [overall_score] is the sum of the
    five stored sub-scores divided by five. *)
Theorem assess_scores_are_clamped_and_averaged
        (fmt_1f str_float : float -> string) (float_sum : list float -> float)
        (str_validation_error : string) (self : History) (year_rel year_time : Z)
        (content source_url content_type : string) (target : float) (domain : string) :
  content <> "" ->
  exists m,
    _calculate_quality_metrics year_rel year_time content source_url content_type = Some m
    /\ fst (_run fmt_1f str_float float_sum str_validation_error self year_rel year_time
                 (mkArgs "assess" content source_url content_type target domain))
       = Py.dict_set self (_generate_assessment_id content source_url) m
    /\ in_range (credibility_score m) = true
    /\ in_range (relevance_score m) = true
    /\ in_range (accuracy_score m) = true
    /\ in_range (completeness_score m) = true
    /\ in_range (timeliness_score m) = true
    /\ overall_score m
       = (credibility_score m + relevance_score m + accuracy_score m
          + completeness_score m + timeliness_score m) / 5.0.
Proof.
  intros Hne. apply PyFacts.truthy_true in Hne.
  eexists. split; [apply metrics_are_built|].
  split.
  - unfold _run, _assess_content.
    cbn [action arg_content arg_source_url arg_content_type].
    change (String.eqb "assess" "assess") with true. cbv iota.
    rewrite Hne, metrics_are_built. reflexivity.
  - cbn [credibility_score relevance_score accuracy_score completeness_score
         timeliness_score overall_score].
    unfold _assess_credibility at 1, _assess_relevance at 1, _assess_accuracy at 1,
      _assess_completeness at 1, _assess_timeliness at 1.
    rewrite !clamp_in_range. repeat split.
Qed.

Lemma assess_scores_are_clamped_and_averaged_witness :
  exists m,
    _calculate_quality_metrics 2026 2026 "A recent study shows new findings for 2026."
                               "https://example.edu/report" "web" = Some m
    /\ fst (_run (fun _ => "") (fun _ => "") (fun _ => 0.0) "" [] 2026 2026
                 (mkArgs "assess" "A recent study shows new findings for 2026."
                         "https://example.edu/report" "web" 8.0 "general"))
       = Py.dict_set [] (_generate_assessment_id
                           "A recent study shows new findings for 2026."
                           "https://example.edu/report") m
    /\ in_range (credibility_score m) = true
    /\ in_range (relevance_score m) = true
    /\ in_range (accuracy_score m) = true
    /\ in_range (completeness_score m) = true
    /\ in_range (timeliness_score m) = true
    /\ overall_score m
       = (credibility_score m + relevance_score m + accuracy_score m
          + completeness_score m + timeliness_score m) / 5.0.
Proof.
  apply (assess_scores_are_clamped_and_averaged
           (fun _ => "") (fun _ => "") (fun _ => 0.0) "" [] 2026 2026
           "A recent study shows new findings for 2026."
           "https://example.edu/report" "web" 8.0 "general").
  discriminate.
Defined.

(** ** Timeliness *)

(** The adjustment for the most recent year found, and none without a year. *)
Definition year_adjustment (current_year : Z) (content : string) : float :=
  match Re.findall false re_year content with
  | [] => 0.0
  | first :: others =>
      let years_old := (current_year - most_recent first others)%Z in
      if (years_old <=? 1)%Z then 3.0
      else if (years_old <=? 3)%Z then 1.0
      else if (years_old <=? 5)%Z then 0.0
      else -2.0
  end.

(** How many of the eight recency patterns occur in the content. *)
Definition recency_patterns_found (content : string) : nat :=
  List.length (filter (fun p => Re.search true p content) recent_indicators).

Lemma fold_max_spec (others : list string) (m0 : Z) :
  let m := fold_left (fun m year => Z.max m (Py.int_digits year)) others m0 in
  (m0 <= m)%Z
  /\ (forall y, In y others -> (Py.int_digits y <= m)%Z)
  /\ (m = m0 \/ exists y, In y others /\ Py.int_digits y = m).
Proof.
  revert m0. induction others as [|o others IH]; intros m0; cbn [fold_left].
  - split; [apply Z.le_refl|]. split; [intros y []|left; reflexivity].
  - destruct (IH (Z.max m0 (Py.int_digits o))) as (H1 & H2 & H3).
    split; [lia|]. split.
    + intros y [<-|Hy]; [lia | now apply H2].
    + destruct H3 as [H3|[y [Hy H3]]].
      * destruct (Z.max_spec m0 (Py.int_digits o)) as [[_ Hm]|[_ Hm]].
        -- right. exists o. split; [left; reflexivity | congruence].
        -- left. congruence.
      * right. exists y. split; [right; exact Hy | exact H3].
Qed.

(** [most_recent] is the largest of the years found. *)
Lemma most_recent_is_max (first : string) (others : list string) :
  (forall y, In y (first :: others) -> (Py.int_digits y <= most_recent first others)%Z)
  /\ exists y, In y (first :: others) /\ Py.int_digits y = most_recent first others.
Proof.
  unfold most_recent.
  destruct (fold_max_spec others (Py.int_digits first)) as (H1 & H2 & H3).
  split.
  - intros y [<-|Hy]; [exact H1 | now apply H2].
  - destruct H3 as [H3|[y [Hy H3]]].
    + exists first. split; [left; reflexivity | now rewrite H3].
    + exists y. split; [right; exact Hy | exact H3].
Qed.

(** C8 (amended).  The timeliness sub-score is the base 5.0, plus the
    adjustment for the most recent year among the tokens 2000..2099 that stand
    as whole words in the content (+3.0 if at most one year old, +1.0 if at
    most three, +0.0 if at most five, -2.0 if older, nothing when there is no
    such token), plus 0.2 added once for each of the eight recency patterns
    that occurs in the content, however often, the result clamped to
    [0, 10]. *)
Theorem timeliness_counts_patterns_once (current_year : Z) (content : string) :
  _assess_timeliness current_year content
  = clamp (Nat.iter (recency_patterns_found content) (fun s => s + 0.2)
                    (5.0 + year_adjustment current_year content))
  /\ (recency_patterns_found content <= 8)%nat
  /\ in_range (_assess_timeliness current_year content) = true.
Proof.
  split; [|split].
  - unfold _assess_timeliness, year_adjustment, recency_patterns_found.
    rewrite fold_bump.
    destruct (Re.findall false re_year content) as [|y ys]; [reflexivity|].
    cbv zeta.
    destruct (_ <=? 1)%Z; [reflexivity|].
    destruct (_ <=? 3)%Z; [reflexivity|].
    destruct (_ <=? 5)%Z; reflexivity.
  - exact (filter_length_le (fun p => Re.search true p content) recent_indicators).
  - unfold _assess_timeliness. apply clamp_in_range.
Qed.

(** r'\b\d{4}\b': a four-digit token. *)
Definition re_four_digits : Re.re :=
  Re.seq [Re.WordB; Re.One Re.Digit; Re.One Re.Digit; Re.One Re.Digit;
          Re.One Re.Digit; Re.WordB].

(** The timeliness score as C8 words it: the year is the most recent
    four-digit token, and every occurrence of a recency phrase adds 0.2. *)
Definition timeliness_as_stated (current_year : Z) (content : string) : float :=
  let score := 5.0 in
  let score :=
    match Re.findall false re_four_digits content with
    | [] => score
    | first :: others =>
        let years_old := (current_year - most_recent first others)%Z in
        if (years_old <=? 1)%Z then score + 3.0
        else if (years_old <=? 3)%Z then score + 1.0
        else if (years_old <=? 5)%Z then score + 0.0
        else score - 2.0
    end in
  let occurrences :=
    list_sum (map (fun p => List.length (Re.findall true p content))
                  recent_indicators) in
  clamp (Nat.iter occurrences (fun s => s + 0.2) score).

(** C8 as stated fails on a phrase that occurs twice: the code adds 0.2 once. *)
Lemma second_occurrence_adds_nothing :
  _assess_timeliness 2026 "new new" = 5.2
  /\ timeliness_as_stated 2026 "new new" = 5.4
  /\ (_assess_timeliness 2026 "new new" <? timeliness_as_stated 2026 "new new") = true.
Proof. repeat split; vm_compute; reflexivity. Qed.

(** A year before 2000 is not a year for the code. *)
Lemma old_year_is_not_seen :
  _assess_timeliness 2026 "In 1999" = 5.0
  /\ timeliness_as_stated 2026 "In 1999" = 3.0.
Proof. split; vm_compute; reflexivity. Qed.

(** ** The history of assessments *)


(** An assessment under a new id becomes the last entry. *)
Lemma new_id_is_appended (self : History) (k : string) (m : QualityMetrics) :
  Py.dict_get self k = None -> Py.dict_set self k m = (self ++ [(k, m)])%list.
Proof. apply PyFacts.set_absent. Qed.

(** An assessment under an id already present replaces the entry where it
    stands: the order of the keys does not change. *)
Lemma known_id_keeps_its_place (self : History) (k : string) (m : QualityMetrics) :
  Py.dict_get self k <> None -> Py.keys (Py.dict_set self k m) = Py.keys self.
Proof. apply PyFacts.keys_set_present. Qed.

(** Sample contents.  The two reports share their first hundred characters. *)
Definition text_a : string := "A recent study shows new findings for 2026.".
Definition text_b : string := "Everyone knows it.".

Definition header : string :=
  "Quarterly research digest, internal distribution only, "
  ++ "prepared by the analytics team. Issue number 12. ".
Definition report_a : string := header ++ "The latest findings are new.".
Definition report_b : string := header ++ "Nothing to add.".

Section Sessions.
Variables (fmt_1f str_float : float -> string) (float_sum : list float -> float)
          (str_validation_error : string).

(** One [assess] call of a session in 2026, without a source url. *)
Definition assess (self : History) (content : string) : History :=
  fst (_run fmt_1f str_float float_sum str_validation_error self 2026 2026
            (mkArgs "assess" content "" "web" 8.0 "general")).

Definition improve (self : History) (target : float) : string :=
  snd (_run fmt_1f str_float float_sum str_validation_error self 2026 2026
            (mkArgs "improve" "" "" "web" target "general")).

(** C7, at its failing input.  After [text_a], [text_b] and [text_a] again
    have been assessed, the assessment stored most recently is that of
    [text_a], for which two dimensions are below 6.0; [improve] lists the four
    dimensions of [text_b], whose key was inserted last. *)
Theorem improve_reads_an_older_assessment :
  let history := assess (assess (assess [] text_a) text_b) text_a in
  exists m_a m_b,
    _calculate_quality_metrics 2026 2026 text_a "" "web" = Some m_a
    /\ _calculate_quality_metrics 2026 2026 text_b "" "web" = Some m_b
    /\ history = [(_generate_assessment_id text_a "", m_a);
                  (_generate_assessment_id text_b "", m_b)]
    /\ improvements_for m_a 6.0
       = ["Improve source credibility"; "Expand content comprehensiveness"]
    /\ improvements_for m_b 6.0
       = ["Improve source credibility"; "Enhance content relevance";
          "Expand content comprehensiveness"; "Update with recent information"]
    /\ improve history 6.0
       = "To reach target score of " ++ str_float 6.0 ++ "/10:" ++ Py.nl
         ++ Py.join Py.nl (map (fun imp => "- " ++ imp) (improvements_for m_b 6.0)).
Proof.
  cbv zeta. eexists. eexists.
  split; [vm_compute; reflexivity|].
  split; [vm_compute; reflexivity|].
  repeat split; vm_compute; reflexivity.
Qed.

(** C9, at its failing input.  [report_a] and [report_b] get the same id, so
    assessing [report_b] replaces the metrics stored for [report_a] by
    different ones. *)
Theorem assessment_is_overwritten :
  let id := _generate_assessment_id report_a "" in
  _generate_assessment_id report_b "" = id
  /\ exists m_a m_b,
      Py.dict_get (assess [] report_a) id = Some m_a
      /\ Py.dict_get (assess (assess [] report_a) report_b) id = Some m_b
      /\ relevance_score m_a = 5.5 /\ relevance_score m_b = 4.0
      /\ timeliness_score m_a = 5.4 /\ timeliness_score m_b = 5.0
      /\ PrimFloat.Leibniz.eqb (timeliness_score m_a) (timeliness_score m_b) = false.
Proof.
  cbv zeta. split; [vm_compute; reflexivity|].
  eexists. eexists.
  split; [vm_compute; reflexivity|].
  split; [vm_compute; reflexivity|].
  repeat split; vm_compute; reflexivity.
Qed.

End Sessions.

End QualitySpec.

(* ================================================================== *)
(** * More facts about texts and dictionaries *)
(* ================================================================== *)

Module TextFacts.

Lemma prefix_split (p s : string) :
  String.prefix p s = true -> exists b, s = p ++ b.
Proof.
  revert s. induction p as [|c p IH]; intros s H.
  - exists s. reflexivity.
  - destruct s as [|c' s]; [discriminate|].
    cbn [String.prefix] in H. destruct (ascii_dec c c') as [<-|]; [|discriminate].
    destruct (IH s H) as [b ->]. exists b. reflexivity.
Qed.

(** [needle in hay] holds exactly when the hay splits around the needle. *)
Lemma contains_iff (p s : string) :
  Py.contains p s = true <-> exists a b, s = a ++ p ++ b.
Proof.
  split.
  - induction s as [|c s IH]; cbn [Py.contains].
    + rewrite orb_false_r. intros H. destruct (prefix_split _ _ H) as [b Hb].
      exists "", b. exact Hb.
    + intros H. apply orb_true_iff in H. destruct H as [H|H].
      * destruct (prefix_split _ _ H) as [b Hb]. exists "", b. exact Hb.
      * destruct (IH H) as (a & b & ->). exists (String c a), b. reflexivity.
  - intros (a & b & ->). apply PyFacts.contains_middle.
Qed.

Lemma contains_append_left (p a b : string) :
  Py.contains p a = true -> Py.contains p (a ++ b) = true.
Proof.
  rewrite !contains_iff. intros (x & y & ->). exists x, (y ++ b).
  now rewrite !PyFacts.append_assoc.
Qed.

Lemma contains_append_right (p a b : string) :
  Py.contains p b = true -> Py.contains p (a ++ b) = true.
Proof.
  rewrite !contains_iff. intros (x & y & ->). exists (a ++ x), y.
  now rewrite !PyFacts.append_assoc.
Qed.

(** A joined text contains each of its parts. *)
Lemma join_contains (sep x : string) (xs : list string) :
  In x xs -> Py.contains x (Py.join sep xs) = true.
Proof.
  unfold Py.join. induction xs as [|y xs IH]; [intros []|].
  intros Hin. cbn [String.concat].
  destruct xs as [|z xs].
  - destruct Hin as [->|[]]. apply PyFacts.contains_append_r with (a := "").
  - destruct Hin as [->|Hin].
    + apply contains_append_left. apply PyFacts.contains_append_r with (a := "").
    + apply contains_append_right, contains_append_right. exact (IH Hin).
Qed.

Lemma length_append (a b : string) :
  String.length (a ++ b) = String.length a + String.length b.
Proof. induction a as [|c a IH]; cbn; [reflexivity | now rewrite IH]. Qed.


Lemma take_all (n : nat) (s : string) : String.length s <= n -> Py.take n s = s.
Proof.
  revert s. induction n as [|n IH]; intros [|c s] H; cbn in *; try reflexivity; try lia.
  rewrite IH by lia. reflexivity.
Qed.

(** A loop that appends one piece per element builds the concatenation. *)
Lemma fold_left_append {A} (f : A -> string) (l : list A) (init : string) :
  fold_left (fun acc x => acc ++ f x) l init
  = init ++ String.concat "" (map f l).
Proof.
  revert init. induction l as [|x l IH]; intros init; cbn [fold_left map].
  - cbn. now rewrite PyFacts.append_nil_r.
  - rewrite IH, PyFacts.append_assoc. f_equal.
    cbn [String.concat]. destruct (map f l) eqn:E; cbn.
    + now rewrite PyFacts.append_nil_r.
    + reflexivity.
Qed.

End TextFacts.

Module DictFacts.

Section Dict.
Context {V : Type}.
Implicit Types (d : Py.dict V) (k : string) (v : V).

(** The keys after an assignment: unchanged for a present key, extended by a
    new one. *)
Lemma keys_set d k v :
  Py.keys (Py.dict_set d k v)
  = if Py.dict_has d k then Py.keys d else (Py.keys d ++ [k])%list.
Proof.
  unfold Py.dict_has.
  destruct (Py.dict_get d k) eqn:E.
  - apply PyFacts.keys_set_present. congruence.
  - rewrite (PyFacts.set_absent d k v E). unfold Py.keys. now rewrite map_app.
Qed.

Lemma keys_nodup_set d k v : NoDup (Py.keys d) -> NoDup (Py.keys (Py.dict_set d k v)).
Proof.
  intros H. rewrite keys_set. unfold Py.dict_has.
  destruct (Py.dict_get d k) eqn:E; [exact H|].
  apply NoDup_app; [exact H | repeat constructor; intros [] | ].
  intros x Hx [<-|[]]. apply PyFacts.dict_get_In_keys in Hx. congruence.
Qed.

Lemma forall_set (P : string * V -> Prop) d k v :
  Forall P d -> P (k, v) -> (forall k' v', P (k', v') -> k = k' -> P (k', v)) ->
  Forall P (Py.dict_set d k v).
Proof.
  intros Hd Hkv Hsame. induction d as [|[k0 v0] d IH]; cbn [Py.dict_set].
  - repeat constructor. exact Hkv.
  - inversion Hd as [|? ? H0 Hd']; subst.
    destruct (String.eqb_spec k k0) as [->|Hne].
    + constructor; [|exact Hd']. now apply Hsame with (v' := v0).
    + constructor; [exact H0 | exact (IH Hd')].
Qed.

(** With distinct keys, an entry of the list is the entry its key finds. *)
Lemma get_of_entry d k v :
  NoDup (Py.keys d) -> In (k, v) d -> Py.dict_get d k = Some v.
Proof.
  induction d as [|[k0 v0] d IH]; [intros _ []|].
  cbn [Py.keys map fst]. intros Hnd Hin. inversion Hnd as [|? ? Hnot Hnd']; subst.
  cbn [Py.dict_get]. destruct Hin as [Heq|Hin].
  - injection Heq as -> ->. now rewrite String.eqb_refl.
  - destruct (String.eqb_spec k k0) as [->|_].
    + exfalso. apply Hnot. change (In k0 (Py.keys d)).
      unfold Py.keys. apply in_map_iff. exists (k0, v). split; [reflexivity | exact Hin].
    + apply IH; assumption.
Qed.

Lemma set_same d k v : Py.dict_set (Py.dict_set d k v) k v = Py.dict_set d k v.
Proof.
  induction d as [|[k0 v0] d IH]; cbn [Py.dict_set].
  - now rewrite String.eqb_refl.
  - destruct (String.eqb k k0) eqn:E; cbn [Py.dict_set]; rewrite E; [reflexivity|].
    now rewrite IH.
Qed.

Lemma length_set d k v :
  List.length (Py.dict_set d k v)
  = if Py.dict_has d k then List.length d else S (List.length d).
Proof.
  rewrite <- !(length_map fst). change (map fst ?x) with (Py.keys x).
  rewrite keys_set. destruct (Py.dict_has d k); [reflexivity|].
  rewrite length_app. cbn. lia.
Qed.

End Dict.

End DictFacts.

(* ================================================================== *)
(** * The citation store over a session *)
(* ================================================================== *)

Module CitationStoreSpec.
Import Citation.
#[local] Arguments MD5.id8 : simpl never.

(** ** Identifiers *)

Definition is_hex (c : ascii) : bool := Py.isdigit c || Py.between 97 102 c.

Lemma hex_digit_is_hex (d : N) : is_hex (MD5.hex_digit d) = true.
Proof.
  destruct d as [|p]; [reflexivity|].
  do 4 (destruct p as [p|p|]; try reflexivity).
Qed.

Lemma id8_is_hex (s : string) : PyFacts.all_chars is_hex (MD5.id8 s) = true.
Proof.
  unfold MD5.id8, MD5.hexdigest.
  destruct (MD5.md5 (MD5.encode s)) as [[[a b] c] d].
  cbn [MD5.hex_word MD5.hex_byte Py.take PyFacts.all_chars].
  rewrite !hex_digit_is_hex. reflexivity.
Qed.

(** ** Sessions *)

(** One call of the tool: the two clock readings and the arguments. *)
Definition Call : Type := (DT.datetime * DT.datetime * Args)%type.

Definition step (self : CitationManager) (call : Call) : CitationManager :=
  let '(now_id, now_acc, a) := call in fst (_run self now_id now_acc a).

(** The store after a sequence of calls. *)
Definition session (self : CitationManager) (calls : list Call) : CitationManager :=
  fold_left step calls self.

Definition entry_ok (e : string * CitationData) : Prop :=
  citation_id (snd e) = fst e
  /\ String.length (fst e) = 8
  /\ PyFacts.all_chars is_hex (fst e) = true
  /\ title (snd e) <> ""
  /\ url (snd e) <> "".

Definition counter_ok (self : CitationManager) (e : string * nat) : Prop :=
  In (fst e) (Py.keys (_citations self)) /\ 1 <= snd e.

Definition well_formed (self : CitationManager) : Prop :=
  NoDup (Py.keys (_citations self))
  /\ Forall entry_ok (_citations self)
  /\ NoDup (Py.keys (_citation_usage self))
  /\ Forall (counter_ok self) (_citation_usage self).

Lemma add_preserves (self : CitationManager) (now_id now_acc : DT.datetime)
      (t u : string) (au : list string) (kw : Kwargs) :
  well_formed self -> well_formed (fst (_add_citation self now_id now_acc t u au kw)).
Proof.
  intros (H1 & H2 & H3 & H4). unfold _add_citation.
  destruct (Py.truthy t) eqn:Ht; cbn [negb fst]; [|repeat split; assumption].
  split; [|split; [|split]]; cbn [_citations _citation_usage].
  - now apply DictFacts.keys_nodup_set.
  - apply DictFacts.forall_set; [exact H2 | | ].
    + unfold entry_ok, _generate_citation_id. cbn [fst snd citation_id title url].
      split; [reflexivity|]. split; [apply PyFacts.id8_length|].
      split; [apply id8_is_hex|]. split; [now apply PyFacts.truthy_true|].
      destruct (Py.truthy u) eqn:Hu; cbn [negb];
        [now apply PyFacts.truthy_true | discriminate].
    + intros k' v' _ <-.
      unfold entry_ok, _generate_citation_id. cbn [fst snd citation_id title url].
      split; [reflexivity|]. split; [apply PyFacts.id8_length|].
      split; [apply id8_is_hex|]. split; [now apply PyFacts.truthy_true|].
      destruct (Py.truthy u) eqn:Hu; cbn [negb];
        [now apply PyFacts.truthy_true | discriminate].
  - exact H3.
  - eapply Forall_impl; [|exact H4].
    intros [k n] [Hk Hn]. split; [|exact Hn].
    cbn [fst _citations] in *. rewrite DictFacts.keys_set.
    destruct (Py.dict_has _ _); [exact Hk | apply in_or_app; left; exact Hk].
Qed.

Lemma usage_preserves (self : CitationManager) (id : string) :
  well_formed self -> well_formed (fst (_track_usage self id)).
Proof.
  intros (H1 & H2 & H3 & H4). unfold _track_usage.
  destruct (Py.truthy id); cbn [negb fst]; [|repeat split; assumption].
  destruct (Py.dict_has (_citations self) id) eqn:Hhas; cbn [negb fst];
    [|repeat split; assumption].
  assert (Hin : In id (Py.keys (_citations self))).
  { apply PyFacts.dict_get_In_keys. unfold Py.dict_has in Hhas.
    destruct (Py.dict_get (_citations self) id); [discriminate | discriminate]. }
  split; [|split; [|split]]; cbn [_citations _citation_usage].
  - exact H1.
  - exact H2.
  - now apply DictFacts.keys_nodup_set.
  - apply DictFacts.forall_set.
    + eapply Forall_impl; [|exact H4]. intros [k n] H. exact H.
    + split; [exact Hin | cbn [snd]; lia].
    + intros k' v' _ <-. split; [exact Hin | cbn [snd]; lia].
Qed.

Lemma run_preserves (self : CitationManager) (now_id now_acc : DT.datetime) (a : Args) :
  well_formed self -> well_formed (fst (_run self now_id now_acc a)).
Proof.
  intros H. unfold _run.
  destruct (String.eqb (action a) "add"); [now apply add_preserves|].
  destruct (String.eqb (action a) "format"); [exact H|].
  destruct (String.eqb (action a) "list"); [exact H|].
  destruct (String.eqb (action a) "bibliography"); [exact H|].
  destruct (String.eqb (action a) "usage"); [now apply usage_preserves | exact H].
Qed.

(** X1.  Whatever calls are made on a new store, its keys stay pairwise
    distinct, every key is the [citation_id] of its record and consists of
    eight hexadecimal digits, no stored title or url is empty, and every usage
    counter belongs to a stored citation and is at least one. *)
Theorem session_keeps_store_well_formed (calls : list Call) :
  well_formed (session __init__ calls).
Proof.
  unfold session.
  assert (H0 : well_formed __init__) by (repeat split; constructor).
  revert H0. generalize __init__ as self.
  induction calls as [|[[now_id now_acc] a] calls IH]; intros self H; [exact H|].
  cbn [fold_left]. apply IH. unfold step. now apply run_preserves.
Qed.

End CitationStoreSpec.

(* ================================================================== *)
(** * Adding, finding, counting and listing citations *)
(* ================================================================== *)

Module CitationUseSpec.
Import Citation.
#[local] Arguments MD5.id8 : simpl never.

Lemma entry_of_get {V} (d : Py.dict V) (k : string) (v : V) :
  Py.dict_get d k = Some v -> In (k, v) d.
Proof.
  induction d as [|[k0 v0] d IH]; cbn [Py.dict_get]; [discriminate|].
  destruct (String.eqb_spec k k0) as [->|_].
  - intros H. injection H as ->. left. reflexivity.
  - intros H. right. exact (IH H).
Qed.

(** The text [_list_citations] builds for a store that is not empty. *)
Lemma list_citations_text (self : CitationManager) :
  _citations self <> [] ->
  _list_citations self
  = "Stored Citations:" ++ Py.nl
    ++ String.concat ""
         (map (fun e => "- " ++ fst e ++ ": " ++ title (snd e) ++ Py.nl) (_citations self)).
Proof.
  intros Hne. unfold _list_citations.
  destruct (_citations self) as [|e l] eqn:E; [congruence|].
  rewrite <- PyFacts.append_assoc.
  rewrite <- (TextFacts.fold_left_append
                (fun e => "- " ++ fst e ++ ": " ++ title (snd e) ++ Py.nl)).
  change nl with Py.nl.
  generalize ("Stored Citations:" ++ Py.nl). generalize (e :: l). clear.
  intros l. induction l as [|[k c] l IH]; intros init; [reflexivity|].
  cbn [fold_left fst snd]. apply IH.
Qed.

(** X2.  After [add] with a non-empty title the reply names the new id, the
    id finds a record holding exactly the title, authors and url given (the
    sentinel for an empty url, ["web"] for a missing source type, the day of
    the clock as [date_accessed]), the listing shows the id with its title,
    every other id finds what it found before, and the usage counters are
    untouched. *)
Theorem added_citation_is_found (self : CitationManager) (now_id now_acc : DT.datetime)
        (t u : string) (au : option (list string)) (kw : Kwargs) (id0 style0 : string) :
  t <> "" ->
  let r := _run self now_id now_acc (mkArgs "add" t u au id0 style0 kw) in
  let u' := if Py.truthy u then u else "No URL provided" in
  let id := _generate_citation_id t u' now_id in
  snd r = "Citation added successfully with ID: " ++ id
  /\ Py.dict_get (_citations (fst r)) id
     = Some (mkCitationData t (match au with Some l => l | None => [] end) u'
               (DT.date_dashed now_acc)
               (match kw_source_type kw with Some s => s | None => "web" end)
               (kw_publication_date kw) (kw_publisher kw) (kw_doi kw) id)
  /\ Py.contains ("- " ++ id ++ ": " ++ t ++ Py.nl) (_list_citations (fst r)) = true
  /\ (forall k, k <> id ->
        Py.dict_get (_citations (fst r)) k = Py.dict_get (_citations self) k)
  /\ _citation_usage (fst r) = _citation_usage self.
Proof.
  intros Ht r u' id. subst r.
  change (_run self now_id now_acc (mkArgs "add" t u au id0 style0 kw))
    with (_add_citation self now_id now_acc t u
            (match au with Some l => l | None => [] end) kw).
  rewrite (CitationSpec.add_citation_result self now_id now_acc t u _ kw Ht).
  assert (Hu : (if negb (Py.truthy u) then NO_URL else u) = u')
    by (subst u'; destruct (Py.truthy u); reflexivity).
  rewrite Hu. fold id. cbn [fst snd _citations _citation_usage].
  split; [reflexivity|].
  split; [apply PyFacts.dict_get_set_same|].
  split; [|split; [|reflexivity]].
  - rewrite list_citations_text.
    + apply TextFacts.contains_append_right, TextFacts.contains_append_right.
      cbn [_citations].
      apply TextFacts.join_contains, in_map_iff.
      eexists. split; [|apply entry_of_get, PyFacts.dict_get_set_same].
      reflexivity.
    + cbn [_citations]. intros E.
      pose proof (PyFacts.dict_get_set_same (_citations self) id
                    (mkCitationData t (match au with Some l => l | None => [] end) u'
                       (DT.date_dashed now_acc)
                       (match kw_source_type kw with Some s => s | None => "web" end)
                       (kw_publication_date kw) (kw_publisher kw) (kw_doi kw) id)) as H.
      rewrite E in H. discriminate.
  - intros k Hk. now apply PyFacts.dict_get_set_other.
Qed.

Lemma added_citation_is_found_witness :
  snd (_run CitationSpec.store1 CitationSpec.noon CitationSpec.noon
            (mkArgs "add" "Other" "" (Some ["A"; "B"; "C"]) "" "APA"
                    (mkKwargs None (Some "2020") (Some "Pub") None)))
  = "Citation added successfully with ID: 4156eb62".
Proof.
  refine (proj1 (added_citation_is_found CitationSpec.store1 CitationSpec.noon
                   CitationSpec.noon "Other" "" (Some ["A"; "B"; "C"])
                   (mkKwargs None (Some "2020") (Some "Pub") None) "" "APA" _)).
  discriminate.
Defined.

(** ** Usage counters *)

(** [n] usage calls in a row for the same id. *)
Fixpoint use_times (n : nat) (self : CitationManager) (id : string) : CitationManager :=
  match n with
  | O => self
  | S k => fst (_track_usage (use_times k self id) id)
  end.

Definition uses (self : CitationManager) (id : string) : nat :=
  match Py.dict_get (_citation_usage self) id with Some k => k | None => 0 end.

Lemma track_usage_stored (self : CitationManager) (id : string) :
  id <> "" -> Py.dict_get (_citations self) id <> None ->
  _track_usage self id
  = (mkManager (_citations self)
               (Py.dict_set (_citation_usage self) id (uses self id + 1)),
     "Citation " ++ id ++ " usage tracked. Total uses: " ++ Py.str_nat (uses self id + 1)).
Proof.
  intros Hid Hget. apply PyFacts.truthy_true in Hid.
  unfold _track_usage, Py.dict_has, uses. rewrite Hid.
  destruct (Py.dict_get (_citations self) id); [reflexivity | congruence].
Qed.

(** X3.  Usage tracking counts: after [n] further calls for a stored id its
    counter stands [n] higher, the next call reports one more as the total,
    the citations are untouched and so is every other counter. *)
Theorem usage_is_counted (self : CitationManager) (id : string) (n : nat) :
  id <> "" -> Py.dict_get (_citations self) id <> None ->
  uses (use_times n self id) id = uses self id + n
  /\ snd (_track_usage (use_times n self id) id)
     = "Citation " ++ id ++ " usage tracked. Total uses: "
       ++ Py.str_nat (uses self id + n + 1)
  /\ _citations (use_times n self id) = _citations self
  /\ (forall k, k <> id -> uses (use_times n self id) k = uses self k).
Proof.
  intros Hid Hget.
  assert (H : uses (use_times n self id) id = uses self id + n
              /\ _citations (use_times n self id) = _citations self
              /\ (forall k, k <> id -> uses (use_times n self id) k = uses self k)).
  { induction n as [|n (IH1 & IH2 & IH3)]; [repeat split; cbn; lia|].
    cbn [use_times].
    rewrite track_usage_stored by (try rewrite IH2; assumption).
    cbn [fst _citations _citation_usage]. split; [|split].
    - unfold uses at 1. cbn [_citation_usage].
      rewrite PyFacts.dict_get_set_same. lia.
    - exact IH2.
    - intros k Hk. unfold uses at 1. cbn [_citation_usage].
      rewrite PyFacts.dict_get_set_other by exact Hk. exact (IH3 k Hk). }
  destruct H as (H1 & H2 & H3).
  split; [exact H1|]. split; [|split; [exact H2 | exact H3]].
  rewrite track_usage_stored by (try rewrite H2; assumption).
  cbn [snd]. now rewrite H1.
Qed.

Lemma usage_is_counted_witness :
  uses (use_times 3 CitationSpec.store2 "4156eb62") "4156eb62"
  = uses CitationSpec.store2 "4156eb62" + 3.
Proof.
  refine (proj1 (usage_is_counted CitationSpec.store2 "4156eb62" 3 _ _)).
  - discriminate.
  - vm_compute. discriminate.
Defined.

(** ** The bibliography *)

(** The text of one record in a style, by the upper-cased style name. *)
Definition render (style : string) (c : CitationData) : string :=
  if String.eqb (Py.upper style) "APA" then _format_apa c
  else if String.eqb (Py.upper style) "MLA" then _format_mla c
  else if String.eqb (Py.upper style) "CHICAGO" then _format_chicago c
  else "Unsupported citation style: " ++ style ++ ". Supported styles: APA, MLA, Chicago".

Lemma session_preserves (self : CitationManager) (calls : list CitationStoreSpec.Call) :
  CitationStoreSpec.well_formed self ->
  CitationStoreSpec.well_formed (CitationStoreSpec.session self calls).
Proof.
  unfold CitationStoreSpec.session. revert self.
  induction calls as [|[[now_id now_acc] a] calls IH]; intros self H; [exact H|].
  cbn [fold_left]. apply IH. now apply CitationStoreSpec.run_preserves.
Qed.

Lemma bibliography_text (self : CitationManager) (style : string) :
  NoDup (Py.keys (_citations self)) ->
  Forall (fun e => fst e <> "") (_citations self) ->
  _generate_bibliography self style
  = match _citations self with
    | [] => "No citations available for bibliography."
    | l => "Bibliography (" ++ Py.upper style ++ " Style):" ++ Py.nl ++ Py.nl
           ++ String.concat "" (map (fun e => render style (snd e) ++ Py.nl ++ Py.nl) l)
    end.
Proof.
  intros Hnd Hne.
  assert (Hall : forall e, In e (_citations self) ->
                           _format_citation self (fst e) style = render style (snd e)).
  { intros [k c] Hin. cbn [fst snd]. apply CitationSpec.format_stored.
    - now apply DictFacts.get_of_entry.
    - rewrite Forall_forall in Hne. exact (Hne _ Hin). }
  assert (Hfold : forall l init,
            (forall e, In e l ->
                       _format_citation self (fst e) style = render style (snd e)) ->
            fold_left
              (fun bibliography '(citation_id, _) =>
                 bibliography ++ _format_citation self citation_id style ++ nl ++ nl)
              l init
            = init ++ String.concat ""
                        (map (fun e => render style (snd e) ++ Py.nl ++ Py.nl) l)).
  { clear. intros l init Hl.
    rewrite <- (TextFacts.fold_left_append
                  (fun e => render style (snd e) ++ Py.nl ++ Py.nl)).
    revert init. induction l as [|[k c] l IH]; intros init; [reflexivity|].
    pose proof (Hl (k, c) (or_introl eq_refl)) as Hk. cbn [fst snd] in Hk.
    cbn [fold_left fst snd]. rewrite Hk.
    apply IH. intros e He. apply Hl. right. exact He. }
  unfold _generate_bibliography.
  specialize (Hfold (_citations self)
                    ("Bibliography (" ++ Py.upper style ++ " Style):" ++ nl ++ nl) Hall).
  destruct (_citations self) as [|e0 l0]; [reflexivity|].
  rewrite Hfold. change nl with Py.nl. now rewrite !PyFacts.append_assoc.
Qed.

(** The characters whose upper-case form is a text of code points below
    256: all but the micro sign (181) and the y with diaeresis (255).  On a
    text of such characters [Py.upper] is [str.upper]. *)
Definition upper_within (c : ascii) : bool :=
  negb (Py.is_code 181 c || Py.is_code 255 c).

(** X4.  In every session, for a style name whose upper-case form stays
    within code points below 256, the bibliography is the heading (the style
    name in upper case) followed, for each stored citation in insertion
    order, by the text of that record in the requested style and a blank
    line; a style other than APA, MLA or Chicago (in any capitalisation) puts
    the unsupported-style message in the place of every entry, and an empty
    store gives the no-citations message. *)
Theorem bibliography_lists_every_citation (calls : list CitationStoreSpec.Call)
        (style : string) :
  PyFacts.all_chars upper_within style = true ->
  let self := CitationStoreSpec.session __init__ calls in
  _generate_bibliography self style
  = match _citations self with
    | [] => "No citations available for bibliography."
    | l => "Bibliography (" ++ Py.upper style ++ " Style):" ++ Py.nl ++ Py.nl
           ++ String.concat "" (map (fun e => render style (snd e) ++ Py.nl ++ Py.nl) l)
    end.
Proof.
  intros _ self.
  assert (Hwf : CitationStoreSpec.well_formed self).
  { apply session_preserves. repeat split; constructor. }
  destruct Hwf as (Hnd & Hok & _).
  apply bibliography_text; [exact Hnd|].
  eapply Forall_impl; [|exact Hok].
  intros [k c] (_ & Hlen & _) Hk. cbn [fst] in *. rewrite Hk in Hlen. discriminate.
Qed.

Lemma bibliography_lists_every_citation_witness :
  _generate_bibliography
    (CitationStoreSpec.session __init__
       [(CitationSpec.noon, CitationSpec.noon,
         mkArgs "add" "Attention" "http://x.edu" (Some ["Vaswani"]) "" "APA" no_kwargs)])
    "mla"
  = "Bibliography (MLA Style):" ++ Py.nl ++ Py.nl
    ++ "Vaswani. " ++ Py.dq ++ "Attention." ++ Py.dq ++ " Web. 2024-05-01. <http://x.edu>."
    ++ Py.nl ++ Py.nl.
Proof.
  refine (eq_trans
            (bibliography_lists_every_citation
               [(CitationSpec.noon, CitationSpec.noon,
                 mkArgs "add" "Attention" "http://x.edu" (Some ["Vaswani"]) "" "APA"
                        no_kwargs)]
               "mla" _) _);
    vm_compute; reflexivity.
Defined.

(** X5.  A record with a real url (not empty, not the sentinel) carries it
    in every style: APA ends with ["Retrieved from " ++ url], MLA with the url
    between angle brackets and a full stop, Chicago with the url and a full
    stop. *)
Theorem real_url_is_written (c : CitationData) :
  url c <> "" -> url c <> "No URL provided" ->
  _format_apa c = CitationSpec.apa_entry c ++ "Retrieved from " ++ url c
  /\ _format_mla c = CitationSpec.mla_entry c ++ " <" ++ url c ++ ">."
  /\ _format_chicago c = CitationSpec.chicago_entry c ++ " " ++ url c ++ ".".
Proof.
  intros H1 H2.
  assert (Hurl : forall before after,
            CitationSpec.url_part before after c = before ++ url c ++ after).
  { intros before after. unfold CitationSpec.url_part.
    apply PyFacts.truthy_true in H1. apply String.eqb_neq in H2.
    unfold NO_URL. now rewrite H1, H2. }
  rewrite CitationSpec.format_apa_layout, CitationSpec.format_mla_layout,
    CitationSpec.format_chicago_layout, !Hurl.
  now rewrite PyFacts.append_nil_r.
Qed.

Lemma real_url_is_written_witness :
  _format_mla (mkCitationData "T" ["A"; "B"] "http://x.edu" "2024-05-01" "web"
                              None None None "9e498b68")
  = CitationSpec.mla_entry
      (mkCitationData "T" ["A"; "B"] "http://x.edu" "2024-05-01" "web"
                      None None None "9e498b68")
    ++ " <" ++ "http://x.edu" ++ ">.".
Proof.
  refine (proj1 (proj2 (real_url_is_written
            (mkCitationData "T" ["A"; "B"] "http://x.edu" "2024-05-01" "web"
                            None None None "9e498b68") _ _))); discriminate.
Defined.

End CitationUseSpec.

(* ================================================================== *)
(** * The history of assessments over a session *)
(* ================================================================== *)

Module QualityHistorySpec.
Import Quality.
Local Open Scope float_scope.
#[local] Arguments MD5.id8 : simpl never.

Section Sessions.
Variables (fmt_1f str_float : float -> string) (float_sum : list float -> float)
          (str_validation_error : string).

(** One call of the tool: the two readings of the year and the arguments. *)
Definition Call : Type := (Z * Z * Args)%type.

Definition step (self : History) (call : Call) : History :=
  let '(year_rel, year_time, a) := call in
  fst (_run fmt_1f str_float float_sum str_validation_error self year_rel year_time a).

(** The history after a sequence of calls. *)
Definition session (self : History) (calls : list Call) : History :=
  fold_left step calls self.

Definition metrics_ok (m : QualityMetrics) : Prop :=
  in_range (credibility_score m) = true
  /\ in_range (relevance_score m) = true
  /\ in_range (accuracy_score m) = true
  /\ in_range (completeness_score m) = true
  /\ in_range (timeliness_score m) = true
  /\ in_range (overall_score m) = true
  /\ overall_score m
     = (credibility_score m + relevance_score m + accuracy_score m
        + completeness_score m + timeliness_score m) / 5.0
  /\ recommendations m
     = _generate_recommendations (credibility_score m) (relevance_score m)
         (accuracy_score m) (completeness_score m) (timeliness_score m).

Definition entry_ok (e : string * QualityMetrics) : Prop :=
  String.length (fst e) = 8%nat /\ metrics_ok (snd e).

Definition history_ok (self : History) : Prop :=
  NoDup (Py.keys self) /\ Forall entry_ok self.

Lemma built_metrics_ok (year_rel year_time : Z) (content source_url content_type : string)
      (m : QualityMetrics) :
  _calculate_quality_metrics year_rel year_time content source_url content_type = Some m ->
  metrics_ok m.
Proof.
  rewrite QualitySpec.metrics_are_built. intros H. injection H as <-.
  unfold metrics_ok.
  cbn [credibility_score relevance_score accuracy_score completeness_score
       timeliness_score overall_score recommendations].
  rewrite QualitySpec.overall_in_range.
  unfold _assess_credibility at 1, _assess_relevance at 1, _assess_accuracy at 1,
    _assess_completeness at 1, _assess_timeliness at 1.
  rewrite !QualitySpec.clamp_in_range. repeat split.
Qed.

Lemma step_preserves (self : History) (call : Call) :
  history_ok self -> history_ok (step self call).
Proof.
  destruct call as [[year_rel year_time] a]. intros [Hnd Hok].
  unfold step, _run.
  destruct (String.eqb (action a) "assess").
  - destruct (Py.truthy (arg_content a)); cbn [negb fst]; [|split; assumption].
    unfold _assess_content.
    destruct (_calculate_quality_metrics _ _ _ _ _) as [m|] eqn:E;
      cbn [fst]; [|split; assumption].
    split; [now apply DictFacts.keys_nodup_set|].
    apply built_metrics_ok in E.
    apply DictFacts.forall_set; [exact Hok | | ].
    + split; [apply PyFacts.id8_length | exact E].
    + intros k' v' _ <-. split; [apply PyFacts.id8_length | exact E].
  - repeat (match goal with
            | |- context [if ?b then _ else _] => destruct b
            end; cbn [fst]; try (split; assumption)).
Qed.

(** X6.  Whatever calls are made on a new scorer, the keys of its history
    stay pairwise distinct eight-character ids, and every stored record has
    its five sub-scores and its overall score within [0, 10], its overall
    score equal to the sum of its sub-scores divided by five, and its
    recommendations those its sub-scores call for. *)
Theorem session_keeps_history_sound (calls : list Call) :
  history_ok (session [] calls).
Proof.
  unfold session.
  assert (H0 : history_ok []) by (split; constructor).
  revert H0. generalize (@nil (string * QualityMetrics)) as self.
  induction calls as [|call calls IH]; intros self H; [exact H|].
  cbn [fold_left]. apply IH. now apply step_preserves.
Qed.

(** X7.  Repeating a call with the same arguments in the same year changes
    nothing more: the second call gives the same reply and leaves the history
    the first call left (an assessment repeated on the same content creates no
    second entry). *)
Theorem repeated_call_changes_nothing (self : History) (year_rel year_time : Z)
        (a : Args) :
  let once := _run fmt_1f str_float float_sum str_validation_error self
                   year_rel year_time a in
  _run fmt_1f str_float float_sum str_validation_error (fst once) year_rel year_time a
  = once
  /\ (List.length (fst once) <= S (List.length self))%nat.
Proof.
  cbv zeta. unfold _run.
  destruct (String.eqb (action a) "assess").
  - destruct (Py.truthy (arg_content a)); cbn [negb fst snd];
      [|split; [reflexivity | lia]].
    unfold _assess_content.
    destruct (_calculate_quality_metrics _ _ _ _ _) as [m|];
      cbn [fst snd]; [|split; [reflexivity | lia]].
    rewrite DictFacts.set_same, DictFacts.length_set.
    split; [reflexivity|]. destruct (Py.dict_has _ _); lia.
  - repeat (match goal with
            | |- context [if ?b then _ else _] => destruct b
            end; cbn [fst snd]; try (split; [reflexivity | lia])).
Qed.

End Sessions.

End QualityHistorySpec.

(* ================================================================== *)
(** * Scores, recommendations and years *)
(* ================================================================== *)

Module QualityScoresSpec.
Import Quality.
Local Open Scope float_scope.

(** ** Recommendations *)

Definition rec_credibility : string :=
  "Seek more credible sources (academic, government, established organizations)".
Definition rec_relevance : string := "Focus on more specific and actionable information".
Definition rec_accuracy : string := "Add more citations and references to support claims".
Definition rec_completeness : string := "Expand content with more comprehensive coverage".
Definition rec_timeliness : string := "Update with more recent information and sources".
Definition rec_none : string := "Content meets quality standards".

(** How many of the flags are set. *)
Definition count_true (flags : list bool) : nat :=
  List.length (filter (fun b => b) flags).

Ltac settle_membership :=
  cbv [In rec_credibility rec_relevance rec_accuracy rec_completeness rec_timeliness
       rec_none];
  split; intros; try reflexivity; try discriminate;
  repeat match goal with
         | H : _ \/ _ |- _ => destruct H
         | H : False |- _ => destruct H
         | H : _ = _ |- _ => discriminate H
         end;
  auto 10.

(** X8.  The recommendations name, in the order credibility, relevance,
    accuracy, completeness, timeliness, exactly the sub-scores below 6.0, one
    fixed message each; when no sub-score is below 6.0 the only entry is the
    "meets quality standards" message.  The list is never empty. *)
Theorem recommendations_follow_scores (c r a co t : float) :
  let recs := _generate_recommendations c r a co t in
  let below := [c <? 6.0; r <? 6.0; a <? 6.0; co <? 6.0; t <? 6.0] in
  List.length recs = Nat.max 1 (count_true below)
  /\ (In rec_credibility recs <-> (c <? 6.0) = true)
  /\ (In rec_relevance recs <-> (r <? 6.0) = true)
  /\ (In rec_accuracy recs <-> (a <? 6.0) = true)
  /\ (In rec_completeness recs <-> (co <? 6.0) = true)
  /\ (In rec_timeliness recs <-> (t <? 6.0) = true)
  /\ (In rec_none recs <-> count_true below = 0%nat).
Proof.
  cbv zeta. unfold _generate_recommendations, count_true.
  destruct (c <? 6.0); destruct (r <? 6.0); destruct (a <? 6.0);
    destruct (co <? 6.0); destruct (t <? 6.0);
    cbn [Py.append app filter List.length Nat.max];
    (split; [reflexivity|]);
    do 5 (split; [settle_membership|]); settle_membership.
Qed.

(** ** Ranges *)

Definition within (lo hi : float) (x : float) : bool := (lo <=? x) && (x <=? hi).

Lemma values_within (lo hi : float) (values : list float) (x : float) :
  forallb (within lo hi) values = true -> In x values -> within lo hi x = true.
Proof. intros H Hin. rewrite forallb_forall in H. exact (H x Hin). Qed.

(** X9.  Whatever the content and the url, credibility lies in [3.7, 9.2],
    relevance in [4.0, 8.5], accuracy in [6.0, 9.6], completeness in
    [3.0, 10.0], timeliness in [3.0, 9.6], and the overall score in
    [3.9, 9.4]: no sub-score ever falls to 0, only completeness can reach 10,
    and accuracy is never below its base. *)
Theorem scores_stay_in_their_ranges (year_rel year_time : Z)
        (content source_url content_type : string) :
  within 3.7 9.2 (_assess_credibility content source_url content_type) = true
  /\ within 4.0 8.5 (_assess_relevance year_rel content) = true
  /\ within 6.0 9.6 (_assess_accuracy content) = true
  /\ within 3.0 10.0 (_assess_completeness content) = true
  /\ within 3.0 9.6 (_assess_timeliness year_time content) = true
  /\ within 3.9 9.4
       ((_assess_credibility content source_url content_type
         + _assess_relevance year_rel content
         + _assess_accuracy content
         + _assess_completeness content
         + _assess_timeliness year_time content) / 5.0) = true.
Proof.
  repeat split.
  - apply (values_within _ _ QualitySpec.credibility_values);
      [vm_compute; reflexivity | apply QualitySpec.credibility_reachable].
  - apply (values_within _ _ QualitySpec.relevance_values);
      [vm_compute; reflexivity | apply QualitySpec.relevance_reachable].
  - apply (values_within _ _ QualitySpec.accuracy_values);
      [vm_compute; reflexivity | apply QualitySpec.accuracy_reachable].
  - apply (values_within _ _ QualitySpec.completeness_values);
      [vm_compute; reflexivity | apply QualitySpec.completeness_reachable].
  - apply (values_within _ _ QualitySpec.timeliness_values);
      [vm_compute; reflexivity | apply QualitySpec.timeliness_reachable].
  - assert (H : forallb (fun s => within 3.9 9.4 (s / 5.0)) QualitySpec.total_values = true)
      by (vm_compute; reflexivity).
    rewrite forallb_forall in H. apply H.
    unfold QualitySpec.total_values.
    repeat apply QualitySpec.sums_In.
    + apply QualitySpec.credibility_reachable.
    + apply QualitySpec.relevance_reachable.
    + apply QualitySpec.accuracy_reachable.
    + apply QualitySpec.completeness_reachable.
    + apply QualitySpec.timeliness_reachable.
Qed.

(** ** Years *)

(** A match of the year pattern is a "20" followed by two digits. *)
Lemma year_match (prev : option ascii) (s rest : string) :
  Re.match_here false re_year prev s = Some rest ->
  exists d1 d2,
    Py.isdigit d1 = true /\ Py.isdigit d2 = true
    /\ s = String "2" (String "0" (String d1 (String d2 rest))).
Proof.
  unfold Re.match_here, re_year. cbn [Re.seq Re.lit Re.run].
  destruct (xorb _ _); [|discriminate].
  destruct s as [|c1 [|c2 [|c3 [|c4 s]]]]; cbn [Re.cls_match];
    try discriminate;
    try (destruct (Ascii.eqb c1 "2"); discriminate);
    try (destruct (Ascii.eqb c1 "2"); [destruct (Ascii.eqb c2 "0")|]; discriminate);
    try (destruct (Ascii.eqb c1 "2");
         [destruct (Ascii.eqb c2 "0"); [destruct (Py.isdigit c3)|]|]; discriminate).
  destruct (Ascii.eqb_spec c1 "2") as [->|]; [|discriminate].
  destruct (Ascii.eqb_spec c2 "0") as [->|]; [|discriminate].
  destruct (Py.isdigit c3) eqn:H3; [|discriminate].
  destruct (Py.isdigit c4) eqn:H4; [|discriminate].
  destruct (xorb _ _); [|discriminate].
  intros H. injection H as <-. exists c3, c4. repeat split; assumption.
Qed.

(** Every element of [findall] is the text of a match. *)
Lemma findall_from_sound (ic : bool) (r : Re.re) (P : string -> Prop) :
  (forall prev s rest,
      Re.match_here ic r prev s = Some rest ->
      P (Py.take (String.length s - String.length rest) s)) ->
  forall s skip prev, Forall P (Re.findall_from ic r skip prev s).
Proof.
  intros HP. induction s as [|c s IH]; intros skip prev.
  - destruct skip; cbn [Re.findall_from]; [|constructor].
    destruct (Re.match_here ic r prev "") as [rest|] eqn:E; [|constructor].
    constructor; [exact (HP _ _ _ E) | constructor].
  - destruct skip; cbn [Re.findall_from]; [|apply IH].
    destruct (Re.match_here ic r prev (String c s)) as [rest|] eqn:E; [|apply IH].
    constructor; [exact (HP _ _ _ E) | apply IH].
Qed.

Lemma digit_value (d : ascii) :
  Py.isdigit d = true -> (0 <= Z.of_N (Py.ord d - 48) <= 9)%Z.
Proof.
  unfold Py.isdigit, Py.between. intros H. apply andb_true_iff in H.
  destruct H as [H1 H2]. apply N.leb_le in H1, H2. lia.
Qed.

(** X10.  Every year the scorer finds in a content is a four-character
    token whose value lies between 2000 and 2099, and so does the most recent
    one: years outside this century never enter the relevance or the
    timeliness score. *)
Theorem years_found_are_of_this_century (content : string) :
  Forall (fun year => String.length year = 4%nat
                      /\ (2000 <= Py.int_digits year <= 2099)%Z)
         (Re.findall false re_year content)
  /\ (forall first others,
        Re.findall false re_year content = first :: others ->
        (2000 <= most_recent first others <= 2099)%Z).
Proof.
  assert (H : Forall (fun year => String.length year = 4%nat
                                  /\ (2000 <= Py.int_digits year <= 2099)%Z)
                     (Re.findall false re_year content)).
  { unfold Re.findall. apply findall_from_sound.
    intros prev s rest Hm. destruct (year_match prev s rest Hm) as (d1 & d2 & H1 & H2 & ->).
    replace (String.length (String "2" (String "0" (String d1 (String d2 rest))))
             - String.length rest)%nat with 4%nat by (cbn [String.length]; lia).
    cbn [Py.take]. split; [reflexivity|].
    unfold Py.int_digits. cbn [list_ascii_of_string fold_left].
    replace (Z.of_N (Py.ord "2" - 48)) with 2%Z by reflexivity.
    replace (Z.of_N (Py.ord "0" - 48)) with 0%Z by reflexivity.
    pose proof (digit_value d1 H1). pose proof (digit_value d2 H2). lia. }
  split; [exact H|].
  intros first others E. rewrite E in H.
  destruct (QualitySpec.most_recent_is_max first others) as [_ (y & Hy & <-)].
  rewrite Forall_forall in H. exact (proj2 (H y Hy)).
Qed.

Lemma years_found_are_of_this_century_witness :
  (2000 <= most_recent "2024" ["2019"] <= 2099)%Z.
Proof.
  refine (proj2 (years_found_are_of_this_century "Since 2024 (not 2019).")
                "2024" ["2019"] _).
  vm_compute. reflexivity.
Defined.

(** ** Improvement suggestions *)



End QualityScoresSpec.

(* ================================================================== *)
(** * Runs, sessions and estimates of the orchestrator *)
(* ================================================================== *)

Module WorkflowRunSpec.
Import Workflow.
Import WorkflowSpec.
#[local] Arguments MD5.id8 : simpl never.

(** ** A run that succeeds *)



(** ** Sessions *)

(** One call: the configuration, the collaborators, the clock readings and
    the four arguments. *)
Record Request : Type := mkRequest {
  r_cfg : Settings; r_co : Collaborators; r_clock : Clock;
  r_query : string; r_format : string; r_audience : string; r_depth : string
}.

Definition serve (st : WorkflowState * Files) (r : Request) : WorkflowState * Files :=
  let run := execute_research_project (r_cfg r) (r_co r) (r_clock r) (fst st)
               (r_query r) (r_format r) (r_audience r) (r_depth r) (snd st) in
  (snd (fst run), snd run).

(** The state and the files after a sequence of calls on one orchestrator. *)
Definition session (st : WorkflowState * Files) (rs : list Request)
  : WorkflowState * Files :=
  fold_left serve rs st.

(** What holds of the state after [n] calls. *)
Definition state_ok (n : nat) (st : WorkflowState) : Prop :=
  current_task st = None
  /\ completed_tasks st = []
  /\ List.length (errors st) <= n
  /\ (n = 0 -> st = __init__)
  /\ (0 < n ->
      (status st = "completed" \/ status st = "error")
      /\ start_time st <> None)
  /\ (status st = "error" -> errors st <> [])
  /\ (results st = None <-> end_time st = None)
  /\ (forall e, results st <> Some (Failed e)).

Lemma serve_state (st : WorkflowState * Files) (r : Request) :
  let st' := fst (serve st r) in
  current_task st' = current_task (fst st)
  /\ completed_tasks st' = completed_tasks (fst st)
  /\ start_time st' <> None
  /\ ((status st' = "error"
       /\ (exists e, errors st' = (errors (fst st) ++ [e])%list)
       /\ results st' = results (fst st) /\ end_time st' = end_time (fst st))
      \/ (status st' = "completed"
          /\ errors st' = errors (fst st)
          /\ end_time st' <> None
          /\ exists rec, results st' = Some rec /\ forall e, rec <> Failed e)).
Proof.
  destruct st as [self fs]. unfold serve. cbn [fst snd].
  rewrite body_result.
  assert (Hfail : forall e,
    let st' := mkState "error" (current_task self) (completed_tasks self)
                       (Some (DT.isoformat (t_start (r_clock r)))) (end_time self)
                       (results self) (Py.append (errors self) e) in
    current_task st' = current_task self
    /\ completed_tasks st' = completed_tasks self
    /\ start_time st' <> None
    /\ ((status st' = "error"
         /\ (exists e0, errors st' = (errors self ++ [e0])%list)
         /\ results st' = results self /\ end_time st' = end_time self)
        \/ (status st' = "completed"
            /\ errors st' = errors self
            /\ end_time st' <> None
            /\ exists rec, results st' = Some rec /\ forall e0, rec <> Failed e0))).
  { intros e. cbn. split; [reflexivity|]. split; [reflexivity|].
    split; [discriminate|]. left. split; [reflexivity|].
    split; [exists e; reflexivity|]. split; reflexivity. }
  destruct (first_error _) as [e|]; [apply Hfail|].
  destruct (Crew_error _ _) as [e|]; [apply Hfail|].
  destruct (kickoff _ _) as [e|out]; [apply Hfail|].
  rewrite process_result.
  destruct (_calculate_duration _) as [e|dur]; [apply Hfail|].
  destruct (open_error _ _) as [e|];
    [|destruct (dump_error _ _ _) as [e|]];
    cbn; (split; [reflexivity|]); (split; [reflexivity|]); (split; [discriminate|]);
    right; (split; [reflexivity|]); (split; [reflexivity|]); (split; [discriminate|]);
    eexists; (split; [reflexivity|]); discriminate.
Qed.

(** X13.  On one orchestrator, whatever calls are made: [current_task]
    stays unset and [completed_tasks] stays empty; there are at most as many
    errors as calls; after the first call the status is ["completed"] or
    ["error"] and a start time is recorded; the status is ["error"] only with
    an error recorded; [results] and [end_time] are set together; and the
    stored results are never a [{status: failed}] record. *)
Theorem session_keeps_state_consistent (rs : list Request) (fs : Files) :
  state_ok (List.length rs) (fst (session (__init__, fs) rs)).
Proof.
  unfold session.
  assert (Hgen : forall rs n st,
             state_ok n (fst st) ->
             state_ok (n + List.length rs) (fst (fold_left serve rs st))).
  { clear. induction rs as [|r rs IH]; intros n st H.
    - cbn [List.length fold_left]. now rewrite Nat.add_0_r.
    - cbn [List.length fold_left]. rewrite Nat.add_succ_r.
      apply (IH (S n)). clear IH.
      destruct H as (H1 & H2 & H3 & H4 & H5 & H6 & H7 & H8).
      destruct (serve_state st r) as (S1 & S2 & S3 & S4).
      cbv zeta in S1, S2, S3, S4.
      unfold state_ok. rewrite S1, S2.
      split; [exact H1|]. split; [exact H2|].
      destruct S4 as [(Sst & [e Serr] & Sres & Send)
                     | (Sst & Serr & Send & rec & Sres & Srec)].
      + rewrite Serr, Sres, Send, Sst.
        split; [rewrite length_app; cbn; lia|].
        split; [discriminate|].
        split; [intros _; split; [right; reflexivity | exact S3]|].
        split; [intros _; destruct (errors (fst st)); discriminate|].
        split; [exact H7 | exact H8].
      + rewrite Serr, Sres, Sst.
        split; [lia|]. split; [discriminate|].
        split; [intros _; split; [left; reflexivity | exact S3]|].
        split; [discriminate|].
        split; [split; [discriminate | intros E; contradiction]|].
        intros e E. injection E as E. exact (Srec e E). }
  apply (Hgen rs 0 (__init__, fs)).
  unfold state_ok. cbn.
  repeat split; try reflexivity; try discriminate; try lia; intros; try lia;
    try discriminate.
Qed.

End WorkflowRunSpec.

(* ================================================================== *)
(** * Duration estimates *)
(* ================================================================== *)

Module EstimateSpec.
Import Workflow.

(** The base time in seconds and the multiplier in tenths. *)
Definition base_seconds (depth_level : string) : Z :=
  match Py.dict_get [("overview", 300); ("detailed", 600); ("comprehensive", 900);
                     ("expert", 1200)]%Z depth_level with
  | Some b => b
  | None => 600
  end.

Definition tenths (output_format : string) : Z :=
  match Py.dict_get [("executive_briefing", 8); ("presentation", 9);
                     ("comprehensive_report", 12); ("technical_summary", 11);
                     ("policy_brief", 10)]%Z output_format with
  | Some t => t
  | None => 10
  end.

(** The minutes in exact arithmetic. *)
Definition minutes (depth_level output_format : string) : Z :=
  (base_seconds depth_level * tenths output_format / 10 / 60)%Z.

Lemma tenths_range (output_format : string) : (8 <= tenths output_format <= 12)%Z.
Proof.
  unfold tenths. cbn [Py.dict_get].
  repeat match goal with
         | |- context [String.eqb ?a ?b] => destruct (String.eqb a b)
         end; lia.
Qed.

Lemma base_range (depth_level : string) : (300 <= base_seconds depth_level <= 1200)%Z.
Proof.
  unfold base_seconds. cbn [Py.dict_get].
  repeat match goal with
         | |- context [String.eqb ?a ?b] => destruct (String.eqb a b)
         end; lia.
Qed.

(** The estimate as a text, for every pair of arguments. *)
Lemma estimate_value (depth_level output_format : string) :
  estimate_duration depth_level output_format
  = inr ("Approximately " ++ DT.str_Z (minutes depth_level output_format) ++ " minutes").
Proof.
  unfold estimate_duration, minutes, base_seconds, tenths.
  unfold base_times, format_multipliers. cbn [Py.dict_get].
  destruct (String.eqb depth_level "overview");
    [|destruct (String.eqb depth_level "detailed");
      [|destruct (String.eqb depth_level "comprehensive");
        [|destruct (String.eqb depth_level "expert")]]];
    (destruct (String.eqb output_format "executive_briefing");
     [|destruct (String.eqb output_format "presentation");
       [|destruct (String.eqb output_format "comprehensive_report");
         [|destruct (String.eqb output_format "technical_summary");
           [|destruct (String.eqb output_format "policy_brief")]]]]);
    vm_compute; reflexivity.
Qed.

(** X14.  The estimate is always the text ["Approximately N minutes"] where N
    is the exact value of floor(floor(base x multiplier) / 60), with base 600
    for an unknown depth and multiplier 1.0 for an unknown format: the float
    product never changes the count, and the conversion to an integer never
    fails.  N lies between 4 and 24 and never decreases when the base time
    grows. *)
Theorem estimate_is_exact (depth_level output_format : string) :
  estimate_duration depth_level output_format
  = inr ("Approximately " ++ DT.str_Z (minutes depth_level output_format) ++ " minutes")
  /\ (4 <= minutes depth_level output_format <= 24)%Z
  /\ (forall deeper,
        (base_seconds depth_level <= base_seconds deeper)%Z ->
        (minutes depth_level output_format <= minutes deeper output_format)%Z).
Proof.
  split; [apply estimate_value|split].
  - unfold minutes.
    pose proof (tenths_range output_format). pose proof (base_range depth_level).
    split.
    + apply Z.div_le_lower_bound; [lia|]. apply Z.div_le_lower_bound; [lia|]. nia.
    + apply Z.div_le_upper_bound; [lia|]. apply Z.div_le_upper_bound; [lia|]. nia.
  - intros deeper H. unfold minutes.
    pose proof (tenths_range output_format).
    apply Z.div_le_mono; [lia|]. apply Z.div_le_mono; [lia|]. nia.
Qed.

End EstimateSpec.

(* ================================================================== *)
(** * The web handlers that start a project *)
(* ================================================================== *)

Module WebAppSpec.
Import WebApp.

Lemma lower_append (a b : string) : Py.lower (a ++ b) = Py.lower a ++ Py.lower b.
Proof. induction a as [|c a IH]; cbn; [reflexivity | now rewrite IH]. Qed.

Lemma length_lower (s : string) : String.length (Py.lower s) = String.length s.
Proof. induction s as [|c s IH]; cbn; [reflexivity | now rewrite IH]. Qed.

Lemma contains_length (p s : string) :
  Py.contains p s = true -> String.length p <= String.length s.
Proof.
  intros H. apply TextFacts.contains_iff in H. destruct H as (a & b & ->).
  rewrite !TextFacts.length_append. lia.
Qed.

(** There are no more words than characters. *)
Lemma split_from_length (s cur : string) :
  List.length (Py.split_from cur s)
  <= String.length s + (if Py.truthy cur then 1 else 0).
Proof.
  revert cur. induction s as [|c s IH]; intros cur; cbn [Py.split_from String.length].
  - destruct (Py.truthy cur); cbn; lia.
  - destruct (Py.isspace c).
    + specialize (IH ""). cbn [Py.truthy] in IH.
      destruct (Py.truthy cur); cbn [List.length]; lia.
    + specialize (IH (cur ++ String c "")).
      destruct (Py.truthy (cur ++ String c "")); lia.
Qed.

Lemma keywords_are_long :
  forall keyword, In keyword research_keywords -> 5 <= String.length keyword.
Proof. apply Forall_forall. repeat constructor. Qed.

Lemma exists_keyword (keywords : list string) (text : string) :
  existsb (fun keyword => Py.contains keyword text) keywords = true
  <-> exists keyword, In keyword keywords /\ Py.contains keyword text = true.
Proof. apply existsb_exists. Qed.

(** X15.  A message that contains one of the fourteen research keywords, in
    any letter case and anywhere (also inside a longer word), is a research
    request; a message of fewer than five characters never is; and a message
    of at most four words is one only through a keyword. *)
Theorem keyword_makes_a_research_request (message : string) :
  (forall keyword before word after,
      In keyword research_keywords -> Py.lower word = keyword ->
      message = before ++ word ++ after ->
      is_research_request message = true)
  /\ (is_research_request message = true -> 5 <= String.length message)
  /\ (List.length (Py.split message) <= 4 ->
      (is_research_request message = true
       <-> exists keyword,
             In keyword research_keywords
             /\ Py.contains keyword (Py.lower message) = true)).
Proof.
  unfold is_research_request. split; [|split].
  - intros keyword before word after Hin Hlow ->.
    replace (existsb _ research_keywords) with true; [reflexivity|].
    symmetry. apply exists_keyword. exists keyword. split; [exact Hin|].
    rewrite !lower_append, Hlow. apply PyFacts.contains_middle.
  - destruct (existsb _ research_keywords) eqn:Hk.
    + intros _. apply exists_keyword in Hk. destruct Hk as (k & Hin & Hc).
      apply contains_length in Hc. rewrite length_lower in Hc.
      pose proof (keywords_are_long k Hin). lia.
    + destruct (existsb _ question_patterns); cbn [andb]; [|discriminate].
      destruct (Nat.ltb_spec 4 (List.length (Py.split message))) as [Hw|Hw];
        [|discriminate].
      intros _. pose proof (split_from_length message "") as Hl.
      cbn [Py.truthy] in Hl. unfold Py.split in Hw. lia.
  - intros Hw. rewrite <- exists_keyword.
    destruct (existsb _ research_keywords); [tauto|].
    destruct (Nat.ltb_spec 4 (List.length (Py.split message))) as [Hw'|Hw']; [lia|].
    rewrite andb_false_r. tauto.
Qed.

Lemma keyword_makes_a_research_request_witness :
  is_research_request "A case STUDY" = true.
Proof.
  refine (proj1 (keyword_makes_a_research_request "A case STUDY")
                "study" "A case " "STUDY" "" _ _ _);
    [right; right; left; reflexivity | reflexivity | reflexivity].
Defined.

(** ** Trimming *)

Lemma lstrip_fixed (c : ascii) (s : string) :
  Py.isspace c = false -> Py.lstrip (String c s) = String c s.
Proof. intros H. cbn [Py.lstrip]. now rewrite H. Qed.

Lemma lstrip_head (s : string) :
  Py.lstrip s = "" \/ exists c t, Py.lstrip s = String c t /\ Py.isspace c = false.
Proof.
  induction s as [|c s IH]; [left; reflexivity|].
  cbn [Py.lstrip]. destruct (Py.isspace c) eqn:E; [exact IH|].
  right. exists c, s. split; [reflexivity | exact E].
Qed.

Lemma rstrip_head (c : ascii) (s : string) :
  Py.isspace c = false -> exists t, Py.rstrip (String c s) = String c t.
Proof.
  intros H. cbn [Py.rstrip]. rewrite H.
  destruct (Py.rstrip s); eexists; reflexivity.
Qed.

Lemma rstrip_idempotent (s : string) : Py.rstrip (Py.rstrip s) = Py.rstrip s.
Proof.
  induction s as [|c s IH]; [reflexivity|].
  cbn [Py.rstrip]. destruct (Py.rstrip s) as [|d r] eqn:E.
  - destruct (Py.isspace c) eqn:Ec; [reflexivity|].
    cbn [Py.rstrip]. now rewrite Ec.
  - change (Py.rstrip (String c (String d r))) with
      (match Py.rstrip (String d r) with
       | "" => if Py.isspace c then "" else String c ""
       | r0 => String c r0
       end).
    rewrite IH. reflexivity.
Qed.

(** Trimming twice is trimming once. *)
Lemma strip_idempotent (s : string) : Py.strip (Py.strip s) = Py.strip s.
Proof.
  unfold Py.strip. destruct (lstrip_head s) as [E|(c & t & E & Hc)]; rewrite E.
  - reflexivity.
  - destruct (rstrip_head c t Hc) as [u Hu]. rewrite Hu.
    rewrite (lstrip_fixed c u Hc), <- Hu. apply rstrip_idempotent.
Qed.

(** ** Starting a project *)

Lemma valid_iff (q f a d : string) :
  Workflow.valid (Workflow.validate_inputs q f a d) = true
  <-> 10 <= String.length (Py.strip q)
      /\ In f Workflow.list_available_formats
      /\ In a Workflow.list_target_audiences
      /\ In d Workflow.list_depth_levels.
Proof.
  unfold Workflow.validate_inputs.
  rewrite WorkflowSpec.empty_query_is_short. unfold Py.len.
  pose proof (PyFacts.mem_In f Workflow.list_available_formats) as Hf.
  pose proof (PyFacts.mem_In a Workflow.list_target_audiences) as Ha.
  pose proof (PyFacts.mem_In d Workflow.list_depth_levels) as Hd.
  destruct (Nat.ltb_spec (String.length (Py.strip q)) 10) as [Hq|Hq];
    destruct (Py.mem f Workflow.list_available_formats);
    destruct (Py.mem a Workflow.list_target_audiences);
    destruct (Py.mem d Workflow.list_depth_levels);
    cbn [negb Py.append app Workflow.valid List.length Nat.eqb];
    (split; [intros H; try discriminate; repeat split; try lia; tauto
            | intros (H1 & H2 & H3 & H4); try lia;
              try (apply Hf in H2; discriminate);
              try (apply Ha in H3; discriminate);
              try (apply Hd in H4; discriminate);
              reflexivity]).
Qed.

Lemma running_dec (current_research : Research) :
  (String.eqb (status current_research) "running" = true
   /\ status current_research = "running")
  \/ (String.eqb (status current_research) "running" = false
      /\ status current_research <> "running").
Proof.
  destruct (String.eqb_spec (status current_research) "running"); [left|right]; tauto.
Qed.

(** What [start_research_from_chat] does when no project is running. *)
Lemma chat_start (current_research : Research) (message : string) (data : Data) :
  status current_research <> "running" ->
  start_research_from_chat current_research message data
  = (inr (ResearchStarted message
            ("Approximately "
             ++ DT.str_Z (EstimateSpec.minutes (get (d_depth data) "detailed")
                            (get (d_format data) "executive_briefing"))
             ++ " minutes")),
     mkResearch "running" None,
     Some (mkJob message (get (d_format data) "executive_briefing")
                 (get (d_audience data) "professional")
                 (get (d_depth data) "detailed"))).
Proof.
  intros H. unfold start_research_from_chat.
  destruct (running_dec current_research) as [[_ E]|[E _]]; [contradiction|].
  rewrite E, EstimateSpec.estimate_value. reflexivity.
Qed.

(** X16.  [POST /api/research] hands a job to the background thread exactly
    when the trimmed query has at least ten characters, the format, audience
    and depth (defaults: executive_briefing, professional, detailed) belong
    to their enumerations and no project is running.  It then marks the
    project running with no results, the job carries the trimmed query, and
    the answer gives the estimate.  In every other case it answers with a
    failure, starts nothing and leaves [current_research] as it was; an empty
    query is reported before a running project, and that before invalid
    inputs. *)
Theorem post_starts_only_valid_projects (current_research : Research) (data : Data) :
  let query := Py.strip (get (d_query data) "") in
  let output_format := get (d_format data) "executive_briefing" in
  let audience := get (d_audience data) "professional" in
  let depth := get (d_depth data) "detailed" in
  let accepted :=
    10 <= String.length query
    /\ In output_format Workflow.list_available_formats
    /\ In audience Workflow.list_target_audiences
    /\ In depth Workflow.list_depth_levels
    /\ status current_research <> "running" in
  let answer := start_research current_research data in
  (accepted ->
   answer
   = (ResearchStarted query
        ("Approximately " ++ DT.str_Z (EstimateSpec.minutes depth output_format)
         ++ " minutes"),
      mkResearch "running" None,
      Some (mkJob query output_format audience depth)))
  /\ (~ accepted ->
      snd answer = None /\ snd (fst answer) = current_research
      /\ fst (fst answer)
         = Failure
             (if negb (Py.truthy query) then "Query is required"
              else if String.eqb (status current_research) "running"
                   then "Research already in progress"
                   else Py.join ", "
                          (Workflow.validation_errors
                             (Workflow.validate_inputs query output_format audience
                                                       depth)))).
Proof.
  intros query output_format audience depth accepted answer.
  subst answer accepted. unfold start_research.
  fold query output_format audience depth.
  pose proof (valid_iff query output_format audience depth) as Hv.
  unfold query in Hv at 2. rewrite strip_idempotent in Hv. fold query in Hv.
  destruct (Py.truthy query) eqn:Hq; cbn [negb].
  - destruct (running_dec current_research) as [[E R]|[E R]]; rewrite E.
    + split; [intros (_ & _ & _ & _ & H); contradiction|].
      intros _. repeat split.
    + destruct (Workflow.valid _) eqn:Hvalid; cbn [negb].
      * rewrite (chat_start current_research query data R).
        fold output_format audience depth.
        split; [reflexivity|]. intros Hn. exfalso. apply Hn.
        destruct Hv as [Hv _]. specialize (Hv eq_refl). tauto.
      * split; [|intros _; repeat split].
        intros (H1 & H2 & H3 & H4 & _).
        destruct Hv as [_ Hv]. discriminate (Hv (conj H1 (conj H2 (conj H3 H4)))).
  - apply PyFacts.truthy_false in Hq.
    split; [|intros _; repeat split].
    intros (H & _). rewrite Hq in H. cbn in H. lia.
Qed.

Lemma post_starts_only_valid_projects_witness :
  start_research (mkResearch "idle" None)
                 (mkData (Some "  What is AI safety?  ") None None None)
  = (ResearchStarted "What is AI safety?" "Approximately 8 minutes",
     mkResearch "running" None,
     Some (mkJob "What is AI safety?" "executive_briefing" "professional" "detailed")).
Proof.
  refine (proj1 (post_starts_only_valid_projects
                   (mkResearch "idle" None)
                   (mkData (Some "  What is AI safety?  ") None None None)) _).
  repeat split; [vm_compute; lia | cbn; auto 10 .. | discriminate].
Defined.

(** X17.  While a project is running neither handler starts another one:
    the chat path answers with the wait notice, the POST path with a
    failure, and both leave [current_research] unchanged.  A chat request
    made when no project is running always starts one, marks it running and
    passes the message and the given parameters on unvalidated; so after any
    start both handlers refuse until the status changes. *)
Theorem running_project_blocks_new_ones (current_research : Research)
        (message : string) (data : Data) :
  (status current_research = "running" ->
   start_research_from_chat current_research message data
   = (inr Busy, current_research, None)
   /\ snd (start_research current_research data) = None
   /\ snd (fst (start_research current_research data)) = current_research
   /\ exists e, fst (fst (start_research current_research data)) = Failure e)
  /\ (status current_research <> "running" ->
      let started := start_research_from_chat current_research message data in
      snd started
      = Some (mkJob message (get (d_format data) "executive_briefing")
                    (get (d_audience data) "professional")
                    (get (d_depth data) "detailed"))
      /\ snd (fst started) = mkResearch "running" None
      /\ (exists estimate,
             fst (fst started) = inr (ResearchStarted message estimate))
      /\ forall message' data',
           snd (start_research_from_chat (snd (fst started)) message' data') = None
           /\ snd (start_research (snd (fst started)) data') = None).
Proof.
  split.
  - intros R. unfold start_research, start_research_from_chat. rewrite R.
    cbn [String.eqb Ascii.eqb Bool.eqb andb].
    split; [reflexivity|].
    destruct (negb (Py.truthy _)); cbn [fst snd]; repeat split; eexists; reflexivity.
  - intros R started. subst started. rewrite (chat_start _ _ _ R). cbn [fst snd].
    split; [reflexivity|]. split; [reflexivity|].
    split; [eexists; reflexivity|].
    intros message' data'. unfold start_research, start_research_from_chat.
    cbn [status String.eqb Ascii.eqb Bool.eqb andb].
    split; [reflexivity|]. destruct (negb (Py.truthy _)); reflexivity.
Qed.

Lemma running_project_blocks_new_ones_witness :
  start_research_from_chat (mkResearch "running" None) "study owls"
                           (mkData None None None None)
  = (inr Busy, mkResearch "running" None, None).
Proof.
  refine (proj1 (proj1 (running_project_blocks_new_ones
                          (mkResearch "running" None) "study owls"
                          (mkData None None None None)) _)).
  reflexivity.
Defined.

End WebAppSpec.

(* ================================================================== *)
(** * The url and the credibility score *)
(* ================================================================== *)

Module CredibilitySpec.
Import Quality.
Local Open Scope float_scope.

(** Whether one of the listed domains occurs in the lowered url. *)
Definition names (domains : list string) (source_url : string) : bool :=
  existsb (fun domain => Py.contains domain (Py.lower source_url)) domains.

(** The score after the two indicator loops found [k] credibility and [j]
    bias indicators, from the score [s] the url left. *)
Definition after_loops (k j : nat) (s : float) : float :=
  clamp (Nat.iter j (fun s => s - 0.2) (Nat.iter k (fun s => s + 0.3) s)).

Lemma credibility_by_counts (content source_url content_type : string) :
  exists k j,
    (k <= 7)%nat /\ (j <= 6)%nat
    /\ forall url,
         _assess_credibility content url content_type
         = after_loops k j
             (if Py.truthy url then
                if names [".edu"; ".gov"; ".org"] url then 5.0 + 2.0
                else if names [".com"; ".net"] url then 5.0 + 0.5 else 5.0
              else 5.0).
Proof.
  exists (List.length (filter (fun x => Re.search true x content) credibility_indicators)),
         (List.length (filter (fun x => Re.search true x content) bias_indicators)).
  split; [apply (QualitySpec.filter_length_le _ credibility_indicators)|].
  split; [apply (QualitySpec.filter_length_le _ bias_indicators)|].
  intros url. unfold _assess_credibility, after_loops, names.
  rewrite !QualitySpec.fold_bump. reflexivity.
Qed.

Lemma small_cases (P : nat -> nat -> Prop) :
  (forall k j, (k <? 8)%nat && (j <? 7)%nat = true -> P k j) ->
  forall k j, (k <= 7)%nat -> (j <= 6)%nat -> P k j.
Proof.
  intros H k j Hk Hj. apply H. apply andb_true_iff.
  split; apply Nat.ltb_lt; lia.
Qed.

Lemma url_steps (k j : nat) :
  (k <= 7)%nat -> (j <= 6)%nat ->
  (after_loops k j 5.0 <? after_loops k j (5.0 + 0.5)) = true
  /\ (after_loops k j (5.0 + 0.5) <? after_loops k j (5.0 + 2.0)) = true.
Proof.
  revert k j. apply small_cases. intros k j H.
  do 8 (destruct k as [|k]; [do 7 (destruct j as [|j]; [vm_compute; split; reflexivity|]);
                              rewrite andb_false_r in H; discriminate H|]).
  discriminate H.
Qed.

Lemma names_truthy (domains : list string) (source_url : string) :
  names domains source_url = true -> In "" domains \/ Py.truthy source_url = true.
Proof.
  unfold names. intros H. apply existsb_exists in H. destruct H as (d & Hin & Hc).
  destruct source_url as [|c s]; [|right; reflexivity].
  left. cbn in Hc. rewrite orb_false_r in Hc. destruct d; [exact Hin | discriminate].
Qed.

(** X18.  For one content, a url naming [.edu], [.gov] or [.org] scores
    strictly higher on credibility than a url naming only [.com] or [.net],
    which scores strictly higher than a url naming none of the five, and that
    one scores the same as no url at all; the domain is looked for anywhere
    in the url, in any letter case. *)
Theorem credible_domain_raises_credibility
        (content content_type trusted commercial other : string) :
  names [".edu"; ".gov"; ".org"] trusted = true ->
  names [".edu"; ".gov"; ".org"] commercial = false ->
  names [".com"; ".net"] commercial = true ->
  names [".edu"; ".gov"; ".org"] other = false ->
  names [".com"; ".net"] other = false ->
  (_assess_credibility content commercial content_type
   <? _assess_credibility content trusted content_type) = true
  /\ (_assess_credibility content other content_type
      <? _assess_credibility content commercial content_type) = true
  /\ _assess_credibility content other content_type
     = _assess_credibility content "" content_type.
Proof.
  intros Ht Hc1 Hc2 Ho1 Ho2.
  destruct (credibility_by_counts content "" content_type) as (k & j & Hk & Hj & E).
  rewrite !E. rewrite Ht, Hc1, Hc2, Ho1, Ho2.
  destruct (names_truthy _ _ Ht) as [Hin | ->];
    [cbn in Hin; intuition discriminate|].
  destruct (names_truthy _ _ Hc2) as [Hin | ->];
    [cbn in Hin; intuition discriminate|].
  destruct (url_steps k j Hk Hj) as [H1 H2].
  split; [exact H2|]. split; [|destruct (Py.truthy other); reflexivity].
  destruct (Py.truthy other); exact H1.
Qed.

Lemma credible_domain_raises_credibility_witness :
  (_assess_credibility "A study shows it." "https://shop.example.com/a" "web"
   <? _assess_credibility "A study shows it." "https://www.MIT.EDU/a" "web") = true.
Proof.
  refine (proj1 (credible_domain_raises_credibility
                   "A study shows it." "web" "https://www.MIT.EDU/a"
                   "https://shop.example.com/a" "file:///tmp/a" _ _ _ _ _));
    reflexivity.
Defined.

End CredibilitySpec.
